(** * Sensirion SPS30 particulate matter sensor driver: protocol engine

    A shallow embedding of [sps30/sps30.c]: the CRC-8 framing, the
    command/response engine ([sps30_write_then_read], [sps30_do_cmd]),
    the fixed-point decoder ([sps30_float_to_int_clamped]) and the
    data-ready poller ([sps30_do_meas]).

    Conventions.
    - C integers are [Z]; a value stored in a [u8] is reduced with [u8],
      a value stored in an [int] / [s32] with [s32] (two's complement
      wrap-around, as the kernel is built with wrapping signed arithmetic).
    - C buffers are [list Z] indexed from 0; an access outside the buffer
      is undefined behaviour, and so is a shift whose count is not in
      [0, 31]. Undefined behaviour is the outcome [None]. *)

From Stdlib Require Import ZArith Lia List Bool.
From stdpp Require Import base list.
Import ListNotations.
Local Open Scope Z_scope.

(** ** Machine integers *)

Definition u8 (z : Z) : Z := Z.land z 255.

Definition s32 (z : Z) : Z := (z + 2 ^ 31) mod 2 ^ 32 - 2 ^ 31.

(** ** Constants of the driver and of the kernel headers it includes *)

Definition SPS30_CRC8_POLYNOMIAL : Z := 0x31.
Definition SPS30_MAX_READ_SIZE : Z := 48.
Definition SPS30_MAX_PM : Z := 3000.

Definition SPS30_START_MEAS : Z := 0x0010.
Definition SPS30_STOP_MEAS : Z := 0x0104.
Definition SPS30_RESET : Z := 0xd304.
Definition SPS30_READ_DATA_READY_FLAG : Z := 0x0202.
Definition SPS30_READ_DATA : Z := 0x0300.
Definition SPS30_READ_SERIAL : Z := 0xd033.
Definition SPS30_START_FAN_CLEANING : Z := 0x5607.

(** errno values (asm-generic/errno-base.h, errno.h). *)
Definition EIO : Z := 5.
Definition ETIMEDOUT : Z := 110.

(** [CRC8_INIT_VALUE] and [CRC8_TABLE_SIZE] of linux/crc8.h. *)
Definition CRC8_INIT_VALUE : Z := 0xFF.
Definition CRC8_TABLE_SIZE : nat := 256.

(** Width of [unsigned long] used by [GENMASK]; 32 is the narrowest
    target of the driver. *)
Definition BITS_PER_LONG : Z := 32.

(** ** Shifts with their counts recorded

    [sps30_float_to_int_clamped] is integer arithmetic on the bit pattern.
    A computation of type [sh A] carries the list of shift counts it has
    evaluated, in program order, and its value, [None] once a count was
    outside [0, 31]. *)

Record sh (A : Type) : Type := Sh { shifts : list Z; value : option A }.
Arguments Sh {A} _ _.
Arguments shifts {A} _.
Arguments value {A} _.

Definition sh_ret {A} (a : A) : sh A := Sh [] (Some a).

Definition sh_fail {A} : sh A := Sh [] None.

Definition sh_bind {A B} (m : sh A) (f : A -> sh B) : sh B :=
  match value m with
  | None => Sh (shifts m) None
  | Some a => Sh (shifts m ++ shifts (f a)) (value (f a))
  end.

Declare Scope sh_scope.
Delimit Scope sh_scope with sh.
Notation "x <- m ;; k" := (sh_bind m (fun x => k))
  (at level 100, m at next level, right associativity) : sh_scope.

Definition shift_ok (n : Z) : bool := (0 <=? n) && (n <? 32).

(** [x >> n] on an [int]: arithmetic shift. *)
Definition shr (x n : Z) : sh Z :=
  Sh [n] (if shift_ok n then Some (Z.shiftr x n) else None).

(** [x << n] on an [int]. *)
Definition shl (x n : Z) : sh Z :=
  Sh [n] (if shift_ok n then Some (s32 (Z.shiftl x n)) else None).

(** Modelled from the spec: [GENMASK(h, l)] of linux/bits.h, which is not
    part of the driver's sources; the spec reads it as "the low (23 -
    biased) mantissa bits" and "mantissa: 23 bits", the contiguous mask of
    bits [l] to [h]. The macro is defined for [0 <= l <= h < BITS_PER_LONG]. *)
Definition GENMASK (h l : Z) : sh Z :=
  if (0 <=? l) && (l <=? h) && (h <? BITS_PER_LONG)
  then sh_ret (Z.land (Z.ones (h + 1)) (Z.lnot (Z.ones l)))
  else sh_fail.

(** Modelled from the spec: [get_unaligned_be32(fp)] of asm/unaligned.h,
    "4 raw bytes, big-endian": four bytes, most significant first. Fewer
    than four bytes is a read outside the buffer. *)
Definition get_unaligned_be32 (fp : list Z) : option Z :=
  match fp with
  | b0 :: b1 :: b2 :: b3 :: _ =>
      Some (Z.lor (Z.lor (Z.shiftl (u8 b0) 24) (Z.shiftl (u8 b1) 16))
                  (Z.lor (Z.shiftl (u8 b2) 8) (u8 b3)))
  | _ => None
  end.

(** A binary operator: both operands are evaluated (C leaves their order
    open), so both logs are kept; the value exists when both do. *)
Definition sh_op2 {A B C} (f : A -> B -> C) (m1 : sh A) (m2 : sh B) : sh C :=
  Sh (shifts m1 ++ shifts m2)
     (match value m1, value m2 with
      | Some a, Some b => Some (f a b)
      | _, _ => None
      end).

(** The integer part rebuilt in the [exp >= 0] branch:
    [(1 << exp) + (mantissa >> shift)] with [shift = 23 - exp]. *)
Definition int_part (exp mantissa : Z) : sh Z :=
  sh_op2 (fun a b => s32 (a + b)) (shl 1 exp) (shr mantissa (23 - exp)).

Definition sps30_float_to_int_clamped (fp : list Z) : sh Z :=
  match get_unaligned_be32 fp with
  | None => sh_fail
  | Some w =>
    (let val := s32 w in
     m22 <- GENMASK 22 0 ;;
     let mantissa := Z.land val m22 in
     (* this is fine since passed float is always non-negative *)
     exp <- shr val 23 ;;
     (* special case 0 *)
     if (exp =? 0) && (mantissa =? 0) then sh_ret 0
     else
       let exp := s32 (exp - 127) in
       if exp <? 0 then
         (* return values ranging from 1 to 99 *)
         one <- shl 1 23 ;;
         t <- shr (s32 (s32 (one + mantissa) * 100)) 23 ;;
         shr t (- exp)
       else
         (* return values ranging from 100 to 300000 *)
         let shift := 23 - exp in
         val <- int_part exp mantissa ;;
         if SPS30_MAX_PM <=? val then sh_ret (SPS30_MAX_PM * 100)
         else
           msk <- GENMASK (shift - 1) 0 ;;
           let fraction := Z.land mantissa msk in
           f <- shr (s32 (fraction * 100)) shift ;;
           sh_ret (s32 (s32 (val * 100) + f)))%sh
  end.

(** Big-endian bytes of a 32-bit pattern, for stating properties on
    encodings. *)
Definition be32_bytes (w : Z) : list Z :=
  [u8 (Z.shiftr w 24); u8 (Z.shiftr w 16); u8 (Z.shiftr w 8); u8 w].

(** The 32-bit pattern of four bytes and the fields of the encoding, for
    stating properties: exponent field (bits 30..23) of the pattern,
    and the mantissa [val & GENMASK(22, 0)] and the biased exponent
    [(val >> 23) - 127] as the function computes them from the signed
    [val]. *)
Definition be32 (b0 b1 b2 b3 : Z) : Z :=
  Z.lor (Z.lor (Z.shiftl (u8 b0) 24) (Z.shiftl (u8 b1) 16))
        (Z.lor (Z.shiftl (u8 b2) 8) (u8 b3)).

Definition mantissa (w : Z) : Z := Z.land (s32 w) (Z.ones 23).
Definition biased (w : Z) : Z := Z.shiftr (s32 w) 23 - 127.

(** The decoder in closed form, as a function of the signed exponent
    [ex = val >> 23] and the mantissa [m]: which shifts are evaluated and
    what is returned. [decode_fields] proves it equal to
    [sps30_float_to_int_clamped]. *)
Definition decoded (ex m : Z) : sh Z :=
  if (ex =? 0) && (m =? 0) then Sh [23] (Some 0)
  else
    let e := ex - 127 in
    if e <? 0 then
      Sh [23; 23; 23; - e]
         (if shift_ok (- e)
          then Some (((2 ^ 23 + m) * 100 / 2 ^ 23) / 2 ^ (- e))
          else None)
    else if 24 <=? e then Sh [23; e; 23 - e] None
    else
      let v := 2 ^ e + m / 2 ^ (23 - e) in
      if 3000 <=? v then Sh [23; e; 23 - e] (Some 300000)
      else Sh [23; e; 23 - e; 23 - e]
              (Some (v * 100 + (m mod 2 ^ (23 - e) * 100) / 2 ^ (23 - e))).

(** ** CRC-8 (linux/crc8.h) *)

(** Modelled from the spec: the checksum of a data word, "CRC-8,
    polynomial 0x31, initial value 0xFF, most-significant-bit-first",
    computed bit by bit. The kernel's lib/crc8.c is not part of the
    driver's sources. *)
Definition crc8_shift_bit (poly crc : Z) : Z :=
  u8 (Z.lxor (Z.shiftl crc 1) (if Z.testbit crc 7 then poly else 0)).

Definition crc8_byte_msb (poly crc b : Z) : Z :=
  Nat.iter 8 (crc8_shift_bit poly) (u8 (Z.lxor crc b)).

Definition checksum (bytes : list Z) : Z :=
  fold_left (crc8_byte_msb SPS30_CRC8_POLYNOMIAL) bytes CRC8_INIT_VALUE.

Definition verify (bytes : list Z) (expected : Z) : bool :=
  checksum bytes =? expected.

(** Modelled from the spec: [crc8_populate_msb(table, polynomial)] of
    linux/crc8.h, the table for "most-significant-bit-first" CRC-8 that
    [sps30_probe] fills once; entry [i + j] is entry [j] xor the
    polynomial's remainder for bit [i], for [i] = 1, 2, 4, ..., 128. *)
Fixpoint crc8_populate_rounds (n : nat) (poly t : Z) (table : list Z) : list Z :=
  match n with
  | O => table
  | S n' =>
      let t' := crc8_shift_bit poly t in
      crc8_populate_rounds n' poly t' (table ++ map (Z.lxor t') table)
  end.

Definition crc8_populate_msb (poly : Z) : list Z :=
  crc8_populate_rounds 8 poly 0x80 [0].

(** Modelled from the spec: [crc8(table, pdata, nbytes, crc)] of
    linux/crc8.h, one table lookup per data byte:
    [crc = table[(crc ^ *pdata++) & 0xff]]. *)
Definition crc8 (table : list Z) (pdata : list Z) (crc : Z) : Z :=
  fold_left (fun crc b => nth (Z.to_nat (Z.land (Z.lxor crc b) 0xff)) table 0)
            pdata crc.

(** [sps30_crc8_table] after [crc8_populate_msb(sps30_crc8_table,
    SPS30_CRC8_POLYNOMIAL)] in [sps30_probe]. *)
Definition sps30_crc8_table : list Z :=
  Eval vm_compute in crc8_populate_msb SPS30_CRC8_POLYNOMIAL.

(** ** The bus and the sleep primitive

    The device side is an oracle: what the k-th send, the k-th receive and
    the k-th sleep return. The bus state counts the calls made so far and
    keeps the trace of calls in the order they were made. *)

Inductive bus_event : Type :=
| Send (bytes : list Z)   (* i2c_master_send: bytes put on the bus *)
| Recv (count : Z)        (* i2c_master_recv: bytes asked for *)
| Sleep (msecs : Z).      (* msleep_interruptible *)

Record device : Type := Device {
  send_ret : nat -> Z;          (* count sent, or a negative errno *)
  recv_ret : nat -> Z;          (* count received, or a negative errno *)
  recv_data : nat -> list Z;    (* bytes the sensor answers with *)
  sleep_ret : nat -> Z          (* msecs left: non-zero when interrupted *)
}.

Record bus : Type := Bus {
  sent : nat;
  received : nat;
  slept : nat;
  trace : list bus_event
}.

Definition bus_init : bus := Bus 0 0 0 [].

(** Code running on the bus: state passing, [None] for undefined
    behaviour. *)
Definition M (A : Type) : Type := bus -> option (A * bus).

Definition m_ret {A} (a : A) : M A := fun st => Some (a, st).

Definition m_bind {A B} (m : M A) (f : A -> M B) : M B :=
  fun st => match m st with
            | Some (a, st') => f a st'
            | None => None
            end.

Definition m_lift {A} (o : option A) : M A :=
  fun st => match o with Some a => Some (a, st) | None => None end.

Declare Scope bus_scope.
Delimit Scope bus_scope with bus.
Notation "x <- m ;; k" := (m_bind m (fun x => k))
  (at level 100, m at next level, right associativity) : bus_scope.

(** [dst[j..j+n) = src]: a run of cells of a buffer overwritten, and the
    same at the start of the buffer. *)
Definition write_at (j : nat) (src dst : list Z) : list Z :=
  take j dst ++ src ++ drop (j + length src) dst.

Definition overlay (src dst : list Z) : list Z := write_at 0 src dst.

(** [l[j] = v] inside the buffer; outside it is undefined behaviour. *)
Definition store (l : list Z) (j : nat) (v : Z) : option (list Z) :=
  if (j <? length l)%nat then Some (<[j := v]> l) else None.

(** ** The driver *)

Section Driver.

Variable dev : device.

Definition i2c_master_send (buf : list Z) (count : Z) : M Z :=
  fun st =>
    Some (send_ret dev (sent st),
          Bus (S (sent st)) (received st) (slept st)
              (trace st ++ [Send (take (Z.to_nat count) buf)])).

(** The received bytes land in the first [count] cells of [buf]; a
    [count] the buffer cannot hold is undefined behaviour. *)
Definition i2c_master_recv (buf : list Z) (count : Z) : M (Z * list Z) :=
  fun st =>
    if (0 <=? count) && (count <=? Z.of_nat (length buf)) then
      let bytes := map u8 (take (Z.to_nat count) (recv_data dev (received st))) in
      Some ((recv_ret dev (received st), overlay bytes buf),
            Bus (sent st) (S (received st)) (slept st)
                (trace st ++ [Recv count]))
    else None.

Definition msleep_interruptible (msecs : Z) : M Z :=
  fun st =>
    Some (sleep_ret dev (slept st),
          Bus (sent st) (received st) (S (slept st))
              (trace st ++ [Sleep msecs])).

(** [rxbuf] is [None] for the NULL pointer. The result is the return
    value and the receive buffer as the call leaves it. *)
Definition sps30_write_then_read (txbuf : list Z) (txsize : Z)
    (rxbuf : option (list Z)) (rxsize : Z) : M (Z * option (list Z)) :=
  (* Sensor does not support repeated start so instead of
     sending two i2c messages in a row we just send one by one. *)
  (ret <- i2c_master_send txbuf txsize ;;
   if negb (ret =? txsize) then
     m_ret (if ret <? 0 then ret else - EIO, rxbuf)
   else
     match rxbuf with
     | None => m_ret (0, None)
     | Some rx =>
         r <- i2c_master_recv rx rxsize ;;
         let '(ret, rx') := r in
         if negb (ret =? rxsize) then
           m_ret (if ret <? 0 then ret else - EIO, Some rx')
         else m_ret (0, Some rx')
     end)%bus.

(** The loop of [sps30_do_cmd] that validates received data and strips
    off crc bytes: [for (i = 0; i < size; i += 3)]. [j] is how far the
    [data] pointer has advanced. *)
Fixpoint sps30_do_cmd_strip (fuel : nat) (buf : list Z) (size i : Z)
    (data : list Z) (j : nat) : option (Z * list Z) :=
  if i <? size then
    match fuel with
    | O => None
    | S fuel' =>
        b0 ← buf !! Z.to_nat i;
        b1 ← buf !! Z.to_nat (i + 1);
        c ← buf !! Z.to_nat (i + 2);
        let crc := crc8 sps30_crc8_table [b0; b1] CRC8_INIT_VALUE in
        if negb (crc =? c) then
          (* data integrity check failed *)
          Some (- EIO, data)
        else
          data ← store data j b0;
          data ← store data (S j) b1;
          sps30_do_cmd_strip fuel' buf size (s32 (i + 3)) data (j + 2)
    end
  else Some (0, data).

Definition is_write_cmd (cmd : Z) : bool :=
  (cmd =? SPS30_STOP_MEAS) || (cmd =? SPS30_RESET)
  || (cmd =? SPS30_START_FAN_CLEANING).

Definition is_read_cmd (cmd : Z) : bool :=
  (cmd =? SPS30_READ_DATA_READY_FLAG) || (cmd =? SPS30_READ_DATA)
  || (cmd =? SPS30_READ_SERIAL).

(** [u8 buf[SPS30_MAX_READ_SIZE] = { cmd >> 8, cmd }]. *)
Definition cmd_buf (cmd : Z) : list Z :=
  u8 (Z.shiftr cmd 8) :: u8 cmd
  :: replicate (Z.to_nat SPS30_MAX_READ_SIZE - 2) 0.

(** [data] is the caller's buffer; the result is the return value and
    the buffer as the call leaves it. *)
Definition sps30_do_cmd (cmd : Z) (data : list Z) (size : Z)
  : M (Z * list Z) :=
  (let buf := cmd_buf cmd in
   r <- (if cmd =? SPS30_START_MEAS then
           let buf := <[2%nat := 0x03]> buf in
           let buf := <[3%nat := 0x00]> buf in
           let buf := <[4%nat := crc8 sps30_crc8_table (take 2 (drop 2 buf))
                                      CRC8_INIT_VALUE]> buf in
           r <- sps30_write_then_read buf 5 None 0 ;;
           m_ret (fst r, buf, size)
         else if is_write_cmd cmd then
           r <- sps30_write_then_read buf 2 None 0 ;;
           m_ret (fst r, buf, size)
         else if is_read_cmd cmd then
           (* every two data bytes are checksummed *)
           let size := s32 (size + Z.quot size 2) in
           r <- sps30_write_then_read buf 2 (Some buf) size ;;
           m_ret (fst r, default buf (snd r), size)
         else m_ret (0, buf, size)) ;;
   let '(ret, buf, size) := r in
   if negb (ret =? 0) then m_ret (ret, data)
   else
     (* validate received data and strip off crc bytes *)
     m_lift (sps30_do_cmd_strip (Z.to_nat size) buf size 0 data 0))%bus.

(** The polling loop of [sps30_do_meas], [while (tries--) { ... }]. It
    ends either in [return -EIO] ([inl]) or by falling out of the loop,
    by [break] or by the loop test, with the values [tries] and [tmp]
    then have ([inr]). *)
Fixpoint sps30_do_meas_poll (fuel : nat) (tries : Z) (tmp : list Z)
  : M (Z + Z * list Z) :=
  match fuel with
  | O => m_lift None
  | S fuel' =>
      (let cond := tries in
       let tries := s32 (tries - 1) in          (* tries-- *)
       if cond =? 0 then m_ret (inr (tries, tmp))
       else
         r <- sps30_do_cmd SPS30_READ_DATA_READY_FLAG tmp 2 ;;
         let '(ret, tmp) := r in
         if negb (ret =? 0) then m_ret (inl (- EIO))
         else
           flag <- m_lift (tmp !! 1%nat) ;;
           (* new measurements ready to be read *)
           if flag =? 1 then m_ret (inr (tries, tmp))
           else
             _ <- msleep_interruptible 300 ;;
             sps30_do_meas_poll fuel' tries tmp)%bus
  end.

(** [for (i = 0; i < size; i++) data[i] = sps30_float_to_int_clamped(&tmp[4 * i])]. *)
Fixpoint sps30_do_meas_decode (fuel : nat) (tmp : list Z) (size i : Z)
    (data : list Z) : option (list Z) :=
  if i <? size then
    match fuel with
    | O => None
    | S fuel' =>
        v ← value (sps30_float_to_int_clamped (drop (Z.to_nat (4 * i)) tmp));
        data ← store data (Z.to_nat i) v;
        sps30_do_meas_decode fuel' tmp size (s32 (i + 1)) data
    end
  else Some data.

(** [tmp] is an uninitialised array of 16 bytes; every cell is written
    before it is read, and it starts here as zeroes. *)
Definition sps30_do_meas (data : list Z) (size : Z) : M (Z * list Z) :=
  (let tries := 5 in
   let tmp := replicate 16 0 in
   r <- sps30_do_meas_poll 6 tries tmp ;;
   match r with
   | inl ret => m_ret (ret, data)
   | inr (tries, tmp) =>
       if tries =? 0 then m_ret (- ETIMEDOUT, data)
       else
         (* sizeof(int) * size, converted back to int *)
         r <- sps30_do_cmd SPS30_READ_DATA tmp (s32 (4 * size)) ;;
         let '(ret, tmp) := r in
         if negb (ret =? 0) then m_ret (ret, data)
         else
           data <- m_lift (sps30_do_meas_decode (Z.to_nat size) tmp size 0 data) ;;
           m_ret (0, data)
   end)%bus.

End Driver.

(** ** The sensor's side, for stating properties *)

(** The bus after a read command whose two transfers were made. *)
Definition after_read (cmd size : Z) (st : bus) : bus :=
  Bus (S (sent st)) (S (received st)) (slept st)
      (trace st ++ [Send [u8 (Z.shiftr cmd 8); u8 cmd]; Recv size]).

(** The data bytes of a list of 2-byte words. *)
Definition unwords (ws : list (Z * Z)) : list Z :=
  flat_map (fun w => [fst w; snd w]) ws.

Definition is_byte (b : Z) : Prop := 0 <= b < 256.

(** A response frame: every 2-byte word followed by its checksum. *)
Fixpoint frame (bytes : list Z) : list Z :=
  match bytes with
  | b0 :: b1 :: rest => b0 :: b1 :: checksum [b0; b1] :: frame rest
  | _ => []
  end.

(** Bit errors in a received triple (word and checksum): bit 0 to 7 are
    the checksum byte, 8 to 15 the second data byte, 16 to 23 the first.
    [flip_set] accepts one, two or three bit positions in increasing
    order; [flip_mask] is the 24-bit pattern with these bits set. *)
Definition flip_set (l : list nat) : bool :=
  match l with
  | [i] => (i <? 24)%nat
  | [i; j] => (i <? j)%nat && (j <? 24)%nat
  | [i; j; k] => (i <? j)%nat && (j <? k)%nat && (k <? 24)%nat
  | _ => false
  end.

Definition flip_mask (l : list nat) : Z :=
  fold_right (fun i e => Z.lxor (Z.shiftl 1 (Z.of_nat i)) e) 0 l.

(** All the sets [flip_set] accepts. *)
Definition flip_sets : list (list nat) :=
  map (fun i => [i]) (seq 0 24)
  ++ flat_map (fun i => map (fun j => [i; j]) (seq (S i) (23 - i))) (seq 0 24)
  ++ flat_map (fun i =>
       flat_map (fun j => map (fun k => [i; j; k]) (seq (S j) (23 - j)))
                (seq (S i) (23 - i))) (seq 0 24).

(** The checksum of the error alone, with initial value 0: what a bit
    error in the data bytes adds to the checksum of the word. *)
Definition syndrome (d0 d1 : Z) : Z :=
  fold_left (crc8_byte_msb SPS30_CRC8_POLYNOMIAL) [d0; d1] 0.

(** The error changes the data bytes and the checksum byte in ways that
    do not cancel. *)
Definition detected (l : list nat) : bool :=
  let e := flip_mask l in
  negb (syndrome (u8 (Z.shiftr e 16)) (u8 (Z.shiftr e 8)) =? u8 e).

(** A device that plays a script: the return values of the successive
    sends, the (return value, bytes) of the successive receives, the
    return values of the successive sleeps. Past the script every
    transfer fails with [-EIO] and sleeps run to completion. *)
Definition scripted (sends : list Z) (recvs : list (Z * list Z))
    (sleeps : list Z) : device :=
  Device (fun k => nth k sends (- EIO))
         (fun k => fst (nth k recvs (- EIO, [])))
         (fun k => snd (nth k recvs (- EIO, [])))
         (fun k => nth k sleeps 0).

(** The same device with other outcomes of its sleeps. *)
Definition with_sleeps (dev : device) (sl : nat -> Z) : device :=
  Device (send_ret dev) (recv_ret dev) (recv_data dev) sl.

(** The bus after a command whose send was made and nothing else. *)
Definition after_send (cmd : Z) (st : bus) : bus :=
  Bus (S (sent st)) (received st) (slept st)
      (trace st ++ [Send [u8 (Z.shiftr cmd 8); u8 cmd]]).

(** What the data-ready poll may put in the trace. *)
Definition poll_event (e : bus_event) : Prop :=
  e = Send [0x02; 0x02] \/ e = Recv 3 \/ e = Sleep 300.

(** What the read-data command may put in the trace. *)
Definition read_event (e : bus_event) : Prop :=
  e = Send [0x03; 0x00] \/ exists n, e = Recv n.

(** The sensor answers the data-ready poll number [k] (counted from 0
    at bus state [st]) completely, with a well-formed word whose flag
    byte is [flag]. *)
Definition poll_answer (dev : device) (st : bus) (k : nat) (flag : Z) : Prop :=
  send_ret dev (sent st + k)%nat = 2 /\
  recv_ret dev (received st + k)%nat = 3 /\
  exists x, is_byte x /\ recv_data dev (received st + k)%nat = frame [x; flag].

(** The trace of [k] polls that were each followed by a sleep. *)
Definition unready_polls (k : nat) : list bus_event :=
  concat (replicate k [Send [0x02; 0x02]; Recv 3; Sleep 300]).

(** The flag word as the sensor answers it, not ready and ready. *)
Definition not_ready : Z * list Z := (3, frame [0; 0]).
Definition ready : Z * list Z := (3, frame [0; 1]).

(** The bytes of 1.0, 2.0, 3.0 and 4.0. *)
Definition sample_1234 : list Z :=
  be32_bytes 0x3f800000 ++ be32_bytes 0x40000000
  ++ be32_bytes 0x40400000 ++ be32_bytes 0x40800000.

(** ** The IIO side of the driver

    The callbacks the driver registers run on a host: the bus, the
    session mutex [state->lock], and a log of what the callback did, in
    order: its traffic on the bus and its calls into the kernel. As on
    the bus, [None] stands for undefined behaviour, and here also for a
    call that never returns (locking a mutex that is already held). *)

Inductive host_event : Type :=
| OnBus (e : bus_event)             (* a call of the bus layer *)
| MutexLock                         (* mutex_lock(&state->lock) *)
| MutexUnlock                       (* mutex_unlock(&state->lock) *)
| Msleep (msecs : Z)                (* msleep *)
| PushToBuffers (data : list Z)     (* iio_push_to_buffers[_with_timestamp] *)
| TriggerNotifyDone                 (* iio_trigger_notify_done *)
| DevInfoSerial (serial : list Z).  (* dev_info: "serial number: %s" *)

Record host : Type := Host {
  hbus : bus;
  locked : bool;
  hlog : list host_event
}.

Definition HM (A : Type) : Type := host -> option (A * host).

Definition h_ret {A} (a : A) : HM A := fun h => Some (a, h).

Definition h_bind {A B} (m : HM A) (f : A -> HM B) : HM B :=
  fun h => match m h with
           | Some (a, h') => f a h'
           | None => None
           end.

Definition h_lift {A} (o : option A) : HM A :=
  fun h => match o with Some a => Some (a, h) | None => None end.

Declare Scope host_scope.
Delimit Scope host_scope with host.
Notation "x <- m ;; k" := (h_bind m (fun x => k))
  (at level 100, m at next level, right associativity) : host_scope.

Definition h_log (e : host_event) : HM unit :=
  fun h => Some (tt, Host (hbus h) (locked h) (hlog h ++ [e])).

(** Code of the bus layer run on the host: what it adds to the trace of
    the bus is added to the log. *)
Definition on_bus {A} (m : M A) : HM A :=
  fun h => match m (hbus h) with
           | Some (a, b) =>
               Some (a, Host b (locked h)
                             (hlog h ++ map OnBus (drop (length (trace (hbus h)))
                                                        (trace b))))
           | None => None
           end.

Definition mutex_init : HM unit :=
  fun h => Some (tt, Host (hbus h) false (hlog h)).

Definition mutex_lock : HM unit :=
  fun h => if locked h then None
           else Some (tt, Host (hbus h) true (hlog h ++ [MutexLock])).

Definition mutex_unlock : HM unit :=
  fun h => if locked h
           then Some (tt, Host (hbus h) false (hlog h ++ [MutexUnlock]))
           else None.

(** Values of the kernel headers: errno, [IIO_VAL_INT_PLUS_MICRO]
    (linux/iio/types.h), [IRQ_HANDLED] (linux/irqreturn.h). *)
Definition EINVAL : Z := 22.
Definition ENOMEM : Z := 12.
Definition EOPNOTSUPP : Z := 95.
Definition IIO_VAL_INT_PLUS_MICRO : Z := 2.
Definition IRQ_HANDLED : Z := 1.

(** [enum { PM1, PM2P5, PM4, PM10 }]. *)
Definition PM1 : Z := 0.
Definition PM2P5 : Z := 1.
Definition PM4 : Z := 2.
Definition PM10 : Z := 3.

(** The parts of the IIO channel description the driver looks at. The
    enumerations of linux/iio/types.h are cut down to the values the
    driver names, with one more constructor for every other value. *)
Inductive iio_chan_type : Type :=
| IIO_MASSCONCENTRATION | IIO_TIMESTAMP | IIO_TYPE_OTHER.

Inductive iio_modifier : Type :=
| IIO_MOD_PM1 | IIO_MOD_PM2P5 | IIO_MOD_PM4 | IIO_MOD_PM10 | IIO_MOD_OTHER.

Inductive iio_chan_info : Type :=
| IIO_CHAN_INFO_PROCESSED | IIO_CHAN_INFO_SCALE | IIO_CHAN_INFO_OTHER.

Record iio_chan_spec : Type := IioChanSpec {
  type : iio_chan_type;
  channel2 : iio_modifier;
  address : Z;
  scan_index : Z
}.

(** [SPS30_CHAN(_index, _mod)]: [.channel2 = IIO_MOD_ ## _mod] and
    [.address = _mod] come from the one macro argument; here they are
    two arguments. *)
Definition SPS30_CHAN (index : Z) (modifier : iio_modifier) (addr : Z)
  : iio_chan_spec :=
  IioChanSpec IIO_MASSCONCENTRATION modifier addr index.

Definition IIO_CHAN_SOFT_TIMESTAMP (index : Z) : iio_chan_spec :=
  IioChanSpec IIO_TIMESTAMP IIO_MOD_OTHER 0 index.

Definition sps30_channels : list iio_chan_spec :=
  [ SPS30_CHAN 0 IIO_MOD_PM1 PM1;
    SPS30_CHAN 1 IIO_MOD_PM2P5 PM2P5;
    SPS30_CHAN 2 IIO_MOD_PM4 PM4;
    SPS30_CHAN 3 IIO_MOD_PM10 PM10;
    IIO_CHAN_SOFT_TIMESTAMP 4 ].

Section Callbacks.

Variable dev : device.

(** [stack] is what the uninitialised [int data[4]] holds when the
    function is entered. The result is the return value and, when they
    were written, [*val] and [*val2]. *)
Definition sps30_read_raw (stack : list Z) (chan : iio_chan_spec)
    (mask : iio_chan_info) : HM (Z * option (Z * Z)) :=
  let data := stack in
  let ret := - EINVAL in
  match mask with
  | IIO_CHAN_INFO_PROCESSED =>
      match type chan with
      | IIO_MASSCONCENTRATION =>
          (_ <- mutex_lock ;;
           (* read up to the number of bytes actually needed *)
           r <- match channel2 chan with
                | IIO_MOD_PM1 => on_bus (sps30_do_meas dev data 1)
                | IIO_MOD_PM2P5 => on_bus (sps30_do_meas dev data 2)
                | IIO_MOD_PM4 => on_bus (sps30_do_meas dev data 3)
                | IIO_MOD_PM10 => on_bus (sps30_do_meas dev data 4)
                | IIO_MOD_OTHER => h_ret (ret, data)
                end ;;
           _ <- mutex_unlock ;;
           let '(ret, data) := r in
           if negb (ret =? 0) then h_ret (ret, None)
           else
             d <- h_lift (data !! Z.to_nat (address chan)) ;;
             h_ret (IIO_VAL_INT_PLUS_MICRO,
                    Some (Z.quot d 100, s32 (Z.rem d 100 * 10000))))%host
      | _ => h_ret (- EINVAL, None)
      end
  | IIO_CHAN_INFO_SCALE =>
      match type chan with
      | IIO_MASSCONCENTRATION =>
          match channel2 chan with
          | IIO_MOD_PM1 | IIO_MOD_PM2P5 | IIO_MOD_PM4 | IIO_MOD_PM10 =>
              h_ret (IIO_VAL_INT_PLUS_MICRO, Some (0, 10000))
          | IIO_MOD_OTHER => h_ret (- EINVAL, None)  (* falls to default *)
          end
      | _ => h_ret (- EINVAL, None)
      end
  | IIO_CHAN_INFO_OTHER => h_ret (- EINVAL, None)
  end.

(** [stack] is what the uninitialised [s32 data[4 + 2]] holds: PM1,
    PM2P5, PM4, PM10, timestamp. *)
Definition sps30_trigger_handler (stack : list Z) : HM Z :=
  (let data := stack in
   _ <- mutex_lock ;;
   r <- on_bus (sps30_do_meas dev data 4) ;;
   _ <- mutex_unlock ;;
   let '(ret, data) := r in
   _ <- (if negb (ret =? 0) then h_ret tt       (* goto err *)
         else h_log (PushToBuffers data)) ;;
   _ <- h_log TriggerNotifyDone ;;
   h_ret IRQ_HANDLED)%host.

(** [kstrtoint_ret] and [val] are what [kstrtoint(buf, 0, &val)]
    returned and stored; [len] is the length of the write. *)
Definition start_cleaning_store (kstrtoint_ret val len : Z) : HM Z :=
  if negb (kstrtoint_ret =? 0) || negb (val =? 1) then h_ret (- EINVAL)
  else
    (_ <- mutex_lock ;;
     r <- on_bus (sps30_do_cmd dev SPS30_START_FAN_CLEANING [] 0) ;;
     _ <- mutex_unlock ;;
     if negb (fst r =? 0) then h_ret (fst r) else h_ret len)%host.

Definition sps30_stop_meas : HM unit :=
  (_ <- on_bus (sps30_do_cmd dev SPS30_STOP_MEAS [] 0) ;; h_ret tt)%host.

(** [devm_add_action_or_reset] as the driver defines it for kernels that
    lack it: [ret] is what [devm_add_action] returned. *)
Definition devm_add_action_or_reset (ret : Z) (action : HM unit) : HM Z :=
  (if negb (ret =? 0) then _ <- action ;; h_ret ret else h_ret ret)%host.

(** The bytes [%s] prints: those before the first NUL. Without a NUL in
    the buffer the read runs past its end. *)
Fixpoint c_string (buf : list Z) : option (list Z) :=
  match buf with
  | [] => None
  | b :: rest => if b =? 0 then Some []
                 else s ← c_string rest; Some (b :: s)
  end.

(** What the kernel calls of [sps30_probe] return. *)
Record framework : Type := Framework {
  i2c_check_functionality : bool;
  devm_iio_device_alloc : bool;          (* false for NULL *)
  devm_add_action : Z;
  devm_iio_triggered_buffer_setup : Z;
  devm_iio_device_register : Z
}.

(** [stack] is what the uninitialised [u8 buf[32]] holds. The driver is
    built with CONFIG_IIO_BUFFER. *)
Definition sps30_probe (fw : framework) (stack : list Z) : HM Z :=
  if negb (i2c_check_functionality fw) then h_ret (- EOPNOTSUPP)
  else if negb (devm_iio_device_alloc fw) then h_ret (- ENOMEM)
  else
    (let buf := stack in
     _ <- mutex_init ;;
     r <- on_bus (sps30_do_cmd dev SPS30_RESET [] 0) ;;
     if negb (fst r =? 0) then h_ret (fst r)   (* failed to reset device *)
     else
       _ <- h_log (Msleep 300) ;;
       (* Power-on-reset causes sensor to produce some glitch on i2c bus
          and some controllers end up in error state. Recover simply by
          placing some data on the bus, for example STOP_MEAS command,
          which is NOP in this case. *)
       _ <- on_bus (sps30_do_cmd dev SPS30_STOP_MEAS [] 0) ;;
       r <- on_bus (sps30_do_cmd dev SPS30_READ_SERIAL buf 32) ;;
       if negb (fst r =? 0) then h_ret (fst r) (* failed to read serial number *)
       else
         (* returned serial number is already NUL terminated *)
         s <- h_lift (c_string (snd r)) ;;
         _ <- h_log (DevInfoSerial s) ;;
         r <- on_bus (sps30_do_cmd dev SPS30_START_MEAS [] 0) ;;
         if negb (fst r =? 0) then h_ret (fst r) (* failed to start measurement *)
         else
           ret <- devm_add_action_or_reset (devm_add_action fw) sps30_stop_meas ;;
           if negb (ret =? 0) then h_ret ret
           else
             let ret := devm_iio_triggered_buffer_setup fw in
             if negb (ret =? 0) then h_ret ret
             else h_ret (devm_iio_device_register fw))%host.

End Callbacks.

Definition host_init : host := Host bus_init false [].

(** The number of channels a modifier makes [sps30_read_raw] read. *)
Definition channels_read (m : iio_modifier) : option Z :=
  match m with
  | IIO_MOD_PM1 => Some 1
  | IIO_MOD_PM2P5 => Some 2
  | IIO_MOD_PM4 => Some 3
  | IIO_MOD_PM10 => Some 4
  | IIO_MOD_OTHER => None
  end.

(** What [sps30_read_raw] makes of the outcome of the measurement read,
    once the mutex is released. *)
Definition read_raw_result (chan : iio_chan_spec) (r : Z * list Z)
  : HM (Z * option (Z * Z)) :=
  (let '(ret, data) := r in
   if negb (ret =? 0) then h_ret (ret, None)
   else
     d <- h_lift (data !! Z.to_nat (address chan)) ;;
     h_ret (IIO_VAL_INT_PLUS_MICRO,
            Some (Z.quot d 100, s32 (Z.rem d 100 * 10000))))%host.


(** What [sps30_write_then_read] makes of the count a transfer of
    [size] bytes returned: [ret != size ? (ret < 0 ? ret : -EIO) : 0]. *)
Definition transfer_result (ret size : Z) : Z :=
  if ret =? size then 0 else if ret <? 0 then ret else - EIO.

(** The bytes of the start-measurement command: the opcode, the
    argument 0x0300 and the checksum of the argument. *)
Definition start_meas_bytes : list Z := [0x00; 0x10; 0x03; 0x00; 0xAC].

(** What [sps30_probe] does, in order, up to and including the start of
    the measurement, when it prints the serial number [s]. *)
Definition probe_log (s : list Z) : list host_event :=
  [ OnBus (Send [0xD3; 0x04]); Msleep 300; OnBus (Send [0x01; 0x04]);
    OnBus (Send [0xD0; 0x33]); OnBus (Recv 48); DevInfoSerial s;
    OnBus (Send start_meas_bytes) ].

(** Two sensors that answer alike, but for the outcome of send number
    [k] and of the sleeps. *)
Definition same_but_send (k : nat) (dev dev' : device) : Prop :=
  (forall i, i <> k -> send_ret dev i = send_ret dev' i) /\
  (forall i, recv_ret dev i = recv_ret dev' i) /\
  (forall i, recv_data dev i = recv_data dev' i).

(** The serial number "1234" as the sensor answers it: sixteen words,
    padded with NUL. *)
Definition serial_1234 : list (Z * Z) :=
  [(0x31, 0x32); (0x33, 0x34)] ++ replicate 14 (0, 0).

(** ** Two callers on one session

    Modelled from the spec: the kernel's mutex and its scheduler, which
    are not part of the driver's sources. The spec has the bus of a
    session "serialized" by the session mutex: a caller that asks for
    the mutex gets it only when no caller holds it, and only the holder
    gives it back. A concurrent run of two callers is an interleaving of
    what each of them logs: every event is tagged with its caller, a
    caller's own events keep their order, and each caller's run is the
    run of its callback on the host as it is when that caller gets the
    mutex. *)

Inductive caller : Type := CallerA | CallerB.

Definition other (c : caller) : caller :=
  match c with CallerA => CallerB | CallerB => CallerA end.

Definition caller_eqb (a b : caller) : bool :=
  match a, b with
  | CallerA, CallerA | CallerB, CallerB => true
  | _, _ => false
  end.

(** What caller [c] did in an interleaving, in order. *)
Definition events_of (c : caller) (l : list (caller * host_event))
  : list host_event :=
  map snd (List.filter (fun x => caller_eqb (fst x) c) l).

(** The mutex along an interleaving: [MutexLock] is the moment a caller
    gets the mutex, which needs the mutex free; [MutexUnlock] needs the
    caller to be the holder. *)
Fixpoint mutex_consistent (holder : option caller)
    (l : list (caller * host_event)) : bool :=
  match l with
  | [] => true
  | (c, MutexLock) :: l' =>
      match holder with
      | None => mutex_consistent (Some c) l'
      | Some _ => false
      end
  | (c, MutexUnlock) :: l' =>
      match holder with
      | Some c' => caller_eqb c c' && mutex_consistent None l'
      | None => false
      end
  | _ :: l' => mutex_consistent holder l'
  end.

Definition is_bus (e : host_event) : bool :=
  match e with OnBus _ => true | _ => false end.

(** The calls of the bus layer in an interleaving, with their callers. *)
Definition bus_traffic (l : list (caller * host_event))
  : list (caller * host_event) :=
  List.filter (fun x => is_bus (snd x)) l.

(** Bus events all made by one caller. *)
Definition on_bus_by (c : caller) (evs : list bus_event)
  : list (caller * host_event) :=
  map (fun e => (c, OnBus e)) evs.

(** What a call that took the host from [h] to [h'] has added to the
    log, and to the trace of the bus. *)
Definition logged (h h' : host) : list host_event :=
  drop (length (hlog h)) (hlog h').

Definition traffic (h h' : host) : list bus_event :=
  drop (length (trace (hbus h))) (trace (hbus h')).

(** The bus after [k] data-ready polls that were each answered and
    followed by a sleep. *)
Definition after_unready_polls (k : nat) (st : bus) : bus :=
  Bus (sent st + k) (received st + k) (slept st + k)
      (trace st ++ unready_polls k).

(** Two reads one after the other, for stating properties: a sensor
    that is ready at once for both, the host after the read of PM10 by
    one caller and after the read of PM1 by the other, and the
    interleaving in which the second caller waits for the first. *)
Definition two_reads_sensor : device :=
  scripted [2; 2; 2; 2]
           [ready; (24, frame sample_1234);
            ready; (6, frame (be32_bytes 0x3f800000))] [].

Definition after_first_read : host :=
  Host (Bus 2 2 0 [Send [2; 2]; Recv 3; Send [3; 0]; Recv 24]) false
       [MutexLock; OnBus (Send [2; 2]); OnBus (Recv 3);
        OnBus (Send [3; 0]); OnBus (Recv 24); MutexUnlock].

Definition after_second_read : host :=
  Host (Bus 4 4 0 [Send [2; 2]; Recv 3; Send [3; 0]; Recv 24;
                   Send [2; 2]; Recv 3; Send [3; 0]; Recv 6]) false
       (hlog after_first_read
        ++ [MutexLock; OnBus (Send [2; 2]); OnBus (Recv 3);
            OnBus (Send [3; 0]); OnBus (Recv 6); MutexUnlock]).

Definition first_then_second : list (caller * host_event) :=
  map (pair CallerA) (logged host_init after_first_read)
  ++ map (pair CallerB) (logged after_first_read after_second_read).


(** * Properties *)

(** ** Machine integers and the shift log *)

Lemma s32_id z : - 2 ^ 31 <= z < 2 ^ 31 -> s32 z = z.
Proof. intros H. unfold s32. rewrite Z.mod_small by lia. lia. Qed.

Lemma s32_range z : - 2 ^ 31 <= s32 z < 2 ^ 31.
Proof. unfold s32. pose proof (Z.mod_pos_bound (z + 2 ^ 31) (2 ^ 32)). lia. Qed.

Lemma u8_range z : 0 <= u8 z < 256.
Proof.
  unfold u8. change 255 with (Z.ones 8). rewrite Z.land_ones by lia.
  apply Z.mod_pos_bound. lia.
Qed.

Lemma u8_id z : 0 <= z < 256 -> u8 z = z.
Proof.
  intros H. unfold u8. change 255 with (Z.ones 8). rewrite Z.land_ones by lia.
  apply Z.mod_small. lia.
Qed.

Lemma sh_bind_value {A B} (m : sh A) (f : A -> sh B) :
  value (sh_bind m f) = match value m with Some a => value (f a) | None => None end.
Proof. unfold sh_bind. destruct (value m); reflexivity. Qed.

Lemma sh_bind_shifts {A B} (m : sh A) (f : A -> sh B) :
  shifts (sh_bind m f) = shifts m ++ match value m with Some a => shifts (f a) | None => [] end.
Proof. unfold sh_bind. destruct (value m); simpl; [reflexivity | by rewrite app_nil_r]. Qed.

Lemma sh_bind_some {A B} l (a : A) (f : A -> sh B) :
  sh_bind (Sh l (Some a)) f = Sh (l ++ shifts (f a)) (value (f a)).
Proof. reflexivity. Qed.

Lemma sh_bind_ret {A B} (a : A) (f : A -> sh B) :
  sh_bind (sh_ret a) f = Sh (shifts (f a)) (value (f a)).
Proof. reflexivity. Qed.

Lemma sh_bind_none {A B} l (f : A -> sh B) :
  sh_bind (Sh l None) f = Sh l None.
Proof. reflexivity. Qed.

Lemma shr_ok x n : 0 <= n < 32 -> shr x n = Sh [n] (Some (x / 2 ^ n)).
Proof.
  intros H. unfold shr, shift_ok.
  replace ((0 <=? n) && (n <? 32)) with true by (symmetry; apply andb_true_iff; lia).
  rewrite Z.shiftr_div_pow2 by lia. reflexivity.
Qed.

Lemma shr_bad x n : ~ 0 <= n < 32 -> shr x n = Sh [n] None.
Proof.
  intros H. unfold shr, shift_ok.
  replace ((0 <=? n) && (n <? 32)) with false; [reflexivity|].
  symmetry. apply andb_false_iff. lia.
Qed.

Lemma shl_ok x n : 0 <= n < 32 -> shl x n = Sh [n] (Some (s32 (x * 2 ^ n))).
Proof.
  intros H. unfold shl, shift_ok.
  replace ((0 <=? n) && (n <? 32)) with true by (symmetry; apply andb_true_iff; lia).
  rewrite Z.shiftl_mul_pow2 by lia. reflexivity.
Qed.

Lemma shl_bad x n : ~ 0 <= n < 32 -> shl x n = Sh [n] None.
Proof.
  intros H. unfold shl, shift_ok.
  replace ((0 <=? n) && (n <? 32)) with false; [reflexivity|].
  symmetry. apply andb_false_iff. lia.
Qed.

Lemma GENMASK_low h : 0 <= h < 32 -> GENMASK h 0 = sh_ret (Z.ones (h + 1)).
Proof.
  intros H. unfold GENMASK, BITS_PER_LONG.
  replace ((0 <=? 0) && (0 <=? h) && (h <? 32)) with true
    by (symmetry; rewrite !andb_true_iff; lia).
  change (Z.lnot (Z.ones 0)) with (-1). by rewrite Z.land_m1_r.
Qed.

Lemma pow2_pos n : 0 <= n -> 0 < 2 ^ n.
Proof. intros. apply Z.pow_pos_nonneg; lia. Qed.

Lemma sh_op2_some {A B C} (f : A -> B -> C) l1 a l2 b :
  sh_op2 f (Sh l1 (Some a)) (Sh l2 (Some b)) = Sh (l1 ++ l2) (Some (f a b)).
Proof. reflexivity. Qed.

Lemma sh_op2_none_r {A B C} (f : A -> B -> C) m1 l2 :
  sh_op2 f m1 (Sh l2 None) = Sh (shifts m1 ++ l2) None.
Proof. unfold sh_op2. destruct (value m1); reflexivity. Qed.

Lemma int_part_ok e m :
  0 <= e <= 23 -> 0 <= m < 2 ^ 23 ->
  int_part e m = Sh [e; 23 - e] (Some (2 ^ e + m / 2 ^ (23 - e))).
Proof.
  intros He Hm. unfold int_part.
  rewrite (shl_ok 1 e), (shr_ok m (23 - e)) by lia.
  rewrite sh_op2_some.
  assert (0 < 2 ^ e <= 2 ^ 23).
  { split; [apply pow2_pos; lia|apply Z.pow_le_mono_r; lia]. }
  assert (0 < 2 ^ (23 - e)) by (apply pow2_pos; lia).
  assert (0 <= m / 2 ^ (23 - e) < 2 ^ 23).
  { split; [apply Z.div_pos; lia|apply Z.div_lt_upper_bound; nia]. }
  rewrite Z.mul_1_l, (s32_id (2 ^ e)) by lia.
  rewrite (s32_id (2 ^ e + _)) by lia. reflexivity.
Qed.

Lemma int_part_bad e m :
  24 <= e -> int_part e m = Sh [e; 23 - e] None.
Proof.
  intros He. unfold int_part. rewrite (shr_bad m (23 - e)) by lia.
  rewrite sh_op2_none_r. reflexivity.
Qed.

Lemma decode_fields b0 b1 b2 b3 l :
  let val := s32 (be32 b0 b1 b2 b3) in
  sps30_float_to_int_clamped (b0 :: b1 :: b2 :: b3 :: l)
  = decoded (val / 2 ^ 23) (val mod 2 ^ 23).
Proof.
  intros val. unfold sps30_float_to_int_clamped. cbn [get_unaligned_be32].
  fold (be32 b0 b1 b2 b3). fold val.
  pose proof (s32_range (be32 b0 b1 b2 b3)) as Hv. fold val in Hv.
  rewrite (GENMASK_low 22) by lia. rewrite sh_bind_ret.
  cbv beta. change (22 + 1) with 23.
  rewrite Z.land_ones by lia.
  set (m := val mod 2 ^ 23).
  assert (Hm : 0 <= m < 2 ^ 23) by (apply Z.mod_pos_bound; lia).
  rewrite (shr_ok val 23) by lia. rewrite sh_bind_some. cbv beta.
  set (ex := val / 2 ^ 23).
  assert (Hex : -256 <= ex < 256).
  { subst ex. split.
    - apply Z.div_le_lower_bound; lia.
    - apply Z.div_lt_upper_bound; lia. }
  unfold decoded.
  destruct ((ex =? 0) && (m =? 0)) eqn:E0; [reflexivity|].
  rewrite (s32_id (ex - 127)) by lia.
  cbv zeta.
  destruct (ex - 127 <? 0) eqn:En.
  - apply Z.ltb_lt in En.
    rewrite (shl_ok 1 23) by lia. rewrite sh_bind_some. cbv beta.
    rewrite (s32_id (1 * 2 ^ 23)) by lia.
    rewrite (s32_id (1 * 2 ^ 23 + m)) by lia.
    rewrite (s32_id ((1 * 2 ^ 23 + m) * 100)) by lia.
    rewrite (shr_ok _ 23) by lia. rewrite sh_bind_some. cbv beta.
    unfold shr. rewrite Z.mul_1_l.
    destruct (shift_ok (- (ex - 127))) eqn:Es; [|reflexivity].
    unfold shift_ok in Es. apply andb_true_iff in Es.
    rewrite Z.shiftr_div_pow2 by lia. reflexivity.
  - apply Z.ltb_ge in En.
    destruct (24 <=? ex - 127) eqn:E24.
    + apply Z.leb_le in E24. rewrite int_part_bad by lia.
      rewrite sh_bind_none. reflexivity.
    + apply Z.leb_gt in E24.
      rewrite int_part_ok by lia. rewrite sh_bind_some. cbv beta.
      unfold SPS30_MAX_PM.
      destruct (3000 <=? 2 ^ (ex - 127) + m / 2 ^ (23 - (ex - 127))) eqn:Ev;
        [reflexivity|].
      apply Z.leb_gt in Ev.
      assert (Hs : 0 < 2 ^ (23 - (ex - 127))) by (apply pow2_pos; lia).
      assert (Hq : 0 <= m / 2 ^ (23 - (ex - 127))) by (apply Z.div_pos; lia).
      assert (He1 : 0 < 2 ^ (ex - 127)) by (apply pow2_pos; lia).
      assert (ex - 127 <= 22).
      { destruct (Z.eq_dec (ex - 127) 23) as [E|]; [|lia].
        rewrite E in Ev. change (23 - 23) with 0 in Ev.
        rewrite Z.pow_0_r, Z.div_1_r in Ev. lia. }
      rewrite (GENMASK_low (23 - (ex - 127) - 1)) by lia.
      rewrite sh_bind_ret. cbv beta.
      replace (23 - (ex - 127) - 1 + 1) with (23 - (ex - 127)) by lia.
      rewrite Z.land_ones by lia.
      assert (Hf : 0 <= m mod 2 ^ (23 - (ex - 127)) < 2 ^ (23 - (ex - 127)))
        by (apply Z.mod_pos_bound; lia).
      assert (2 ^ (23 - (ex - 127)) <= 2 ^ 23) by (apply Z.pow_le_mono_r; lia).
      rewrite (s32_id (_ * 100)) by lia.
      rewrite (shr_ok _ (23 - (ex - 127))) by lia. rewrite sh_bind_some. cbv beta.
      assert (Hfr : 0 <= m mod 2 ^ (23 - (ex - 127)) * 100 / 2 ^ (23 - (ex - 127)) < 100).
      { split; [apply Z.div_pos; lia|apply Z.div_lt_upper_bound; lia]. }
      rewrite (s32_id (_ * 100)) by lia.
      rewrite s32_id by lia. reflexivity.
Qed.

Lemma lor_bound a b n :
  0 <= a < 2 ^ n -> 0 <= b < 2 ^ n -> 0 <= Z.lor a b < 2 ^ n.
Proof.
  intros Ha Hb.
  assert (H0 : 0 <= Z.lor a b) by (apply Z.lor_nonneg; lia).
  split; [exact H0|].
  destruct (Z.eq_dec (Z.lor a b) 0) as [->|Hne]; [lia|].
  apply Z.log2_lt_pow2; [lia|].
  rewrite Z.log2_lor by lia.
  destruct (Z.eq_dec a 0) as [->|]; destruct (Z.eq_dec b 0) as [->|].
  - rewrite Z.lor_0_l in Hne. lia.
  - rewrite Z.max_r by (apply Z.log2_nonneg). apply Z.log2_lt_pow2; lia.
  - rewrite Z.max_l by (apply Z.log2_nonneg). apply Z.log2_lt_pow2; lia.
  - apply Z.max_lub_lt; apply Z.log2_lt_pow2; lia.
Qed.

Lemma be32_range b0 b1 b2 b3 : 0 <= be32 b0 b1 b2 b3 < 2 ^ 32.
Proof.
  unfold be32.
  pose proof (u8_range b0). pose proof (u8_range b1).
  pose proof (u8_range b2). pose proof (u8_range b3).
  repeat apply lor_bound; rewrite ?Z.shiftl_mul_pow2 by lia; lia.
Qed.

Lemma decode_biased b0 b1 b2 b3 l :
  let w := be32 b0 b1 b2 b3 in
  sps30_float_to_int_clamped (b0 :: b1 :: b2 :: b3 :: l)
  = decoded (biased w + 127) (mantissa w)
  /\ 0 <= mantissa w < 2 ^ 23 /\ -256 <= biased w + 127 < 256.
Proof.
  intros w. rewrite decode_fields. fold w. unfold biased, mantissa.
  pose proof (s32_range w) as Hv.
  rewrite Z.shiftr_div_pow2, Z.land_ones by lia.
  replace (s32 w / 2 ^ 23 - 127 + 127) with (s32 w / 2 ^ 23) by lia.
  split; [reflexivity|]. split.
  - apply Z.mod_pos_bound; lia.
  - split; [apply Z.div_le_lower_bound; lia|apply Z.div_lt_upper_bound; lia].
Qed.

Lemma sub_unit_bounds m k :
  0 <= m < 2 ^ 23 -> 1 <= k ->
  let r := (2 ^ 23 + m) * 100 / 2 ^ 23 / 2 ^ k in
  0 <= r <= 99 /\ (k <= 6 -> 1 <= r).
Proof.
  intros Hm Hk r.
  assert (Ht : 100 <= (2 ^ 23 + m) * 100 / 2 ^ 23 < 200).
  { split; [apply Z.div_le_lower_bound; lia|apply Z.div_lt_upper_bound; lia]. }
  assert (H2 : 2 ^ 1 <= 2 ^ k) by (apply Z.pow_le_mono_r; lia).
  change (2 ^ 1) with 2 in H2.
  subst r. set (t := (2 ^ 23 + m) * 100 / 2 ^ 23) in *.
  repeat split.
  - apply Z.div_pos; lia.
  - apply Z.lt_succ_r. apply Z.div_lt_upper_bound; nia.
  - intros H6. assert (2 ^ k <= 2 ^ 6) by (apply Z.pow_le_mono_r; lia).
    apply Z.div_le_lower_bound; lia.
Qed.

Lemma decoded_range ex m r :
  0 <= m < 2 ^ 23 -> value (decoded ex m) = Some r -> 0 <= r <= 300000.
Proof.
  intros Hm. unfold decoded.
  destruct ((ex =? 0) && (m =? 0)); [cbn; intros [= <-]; lia|].
  cbv zeta. destruct (ex - 127 <? 0) eqn:En.
  - cbn [value]. unfold shift_ok.
    destruct ((0 <=? - (ex - 127)) && (- (ex - 127) <? 32)) eqn:Es; [|discriminate].
    intros [= <-]. apply Z.ltb_lt in En.
    pose proof (sub_unit_bounds m (- (ex - 127)) Hm ltac:(lia)) as [H _]. lia.
  - apply Z.ltb_ge in En. destruct (24 <=? ex - 127) eqn:E24; [discriminate|].
    apply Z.leb_gt in E24.
    set (e := ex - 127) in *.
    assert (Hs : 0 < 2 ^ (23 - e)) by (apply pow2_pos; lia).
    assert (He : 1 <= 2 ^ e) by (pose proof (pow2_pos e); lia).
    assert (Hq : 0 <= m / 2 ^ (23 - e)) by (apply Z.div_pos; lia).
    destruct (3000 <=? _) eqn:Ev; cbn [value]; intros [= <-]; [lia|].
    apply Z.leb_gt in Ev.
    assert (Hf : 0 <= m mod 2 ^ (23 - e) < 2 ^ (23 - e)) by (apply Z.mod_pos_bound; lia).
    assert (Hfr : 0 <= m mod 2 ^ (23 - e) * 100 / 2 ^ (23 - e) < 100).
    { split; [apply Z.div_pos; lia|apply Z.div_lt_upper_bound; lia]. }
    lia.
Qed.

Lemma s32_nonneg w : 0 <= w < 2 ^ 32 -> 0 <= s32 w -> s32 w = w.
Proof. unfold s32. intros H. Z.div_mod_to_equations. lia. Qed.

(** ** The fixed-point decoder *)

Lemma int_part_value e m v :
  value (int_part e m) = Some v ->
  0 <= e <= 23 -> 0 <= m < 2 ^ 23 -> v = 2 ^ e + m / 2 ^ (23 - e).
Proof.
  intros Hv He Hm. unfold int_part, sh_op2 in Hv.
  rewrite (shl_ok 1 e), (shr_ok m (23 - e)) in Hv by lia.
  cbn [value] in Hv. injection Hv as <-.
  assert (0 < 2 ^ e <= 2 ^ 23).
  { split; [apply pow2_pos; lia|apply Z.pow_le_mono_r; lia]. }
  assert (0 < 2 ^ (23 - e)) by (apply pow2_pos; lia).
  assert (0 <= m / 2 ^ (23 - e) < 2 ^ 23).
  { split; [apply Z.div_pos; lia|apply Z.div_lt_upper_bound; nia]. }
  rewrite Z.mul_1_l, (s32_id (2 ^ e)) by lia. apply s32_id. lia.
Qed.


Lemma int_part_undefined e m : 24 <= e -> value (int_part e m) = None.
Proof.
  intros He. unfold int_part, sh_op2. rewrite (shr_bad m (23 - e)) by lia.
  cbn [value]. by destruct (value (shl 1 e)).
Qed.

(** Whatever bytes the sensor sends, a decoded value is within
    [0, 300000]. *)
Lemma sps30_float_to_int_clamped_range fp r :
  value (sps30_float_to_int_clamped fp) = Some r -> 0 <= r <= 300000.
Proof.
  destruct fp as [|b0 [|b1 [|b2 [|b3 l]]]]; try discriminate.
  destruct (decode_biased b0 b1 b2 b3 l) as (-> & Hm & _).
  by apply decoded_range.
Qed.

(** ** CRC-8 *)

Lemma sps30_crc8_table_populated :
  sps30_crc8_table = crc8_populate_msb SPS30_CRC8_POLYNOMIAL.
Proof. vm_compute. reflexivity. Qed.

Lemma sps30_crc8_table_entries :
  forallb (fun k => nth k sps30_crc8_table 0
                    =? Nat.iter 8 (crc8_shift_bit SPS30_CRC8_POLYNOMIAL)
                                (Z.of_nat k))
          (seq 0 CRC8_TABLE_SIZE) = true.
Proof. vm_compute. reflexivity. Qed.

(** One table lookup is eight shift-and-xor steps. *)
Lemma crc8_table_lookup crc b :
  nth (Z.to_nat (Z.land (Z.lxor crc b) 0xff)) sps30_crc8_table 0
  = crc8_byte_msb SPS30_CRC8_POLYNOMIAL crc b.
Proof.
  unfold crc8_byte_msb. fold (u8 (Z.lxor crc b)).
  pose proof (u8_range (Z.lxor crc b)) as Hx.
  set (x := u8 (Z.lxor crc b)) in *. clearbody x.
  pose proof sps30_crc8_table_entries as H.
  rewrite forallb_forall in H.
  specialize (H (Z.to_nat x)).
  rewrite Z2Nat.id in H by lia.
  apply Z.eqb_eq, H. apply in_seq. unfold CRC8_TABLE_SIZE. lia.
Qed.

Lemma fold_left_cons {A B} (f : A -> B -> A) b l a :
  fold_left f (b :: l) a = fold_left f l (f a b).
Proof. reflexivity. Qed.

Lemma crc8_fold bytes :
  forall crc,
    fold_left (fun crc b => nth (Z.to_nat (Z.land (Z.lxor crc b) 0xff))
                                sps30_crc8_table 0) bytes crc
    = fold_left (crc8_byte_msb SPS30_CRC8_POLYNOMIAL) bytes crc.
Proof.
  induction bytes as [|b bytes IH]; intros crc; [reflexivity|].
  rewrite !fold_left_cons. rewrite <- crc8_table_lookup. apply IH.
Qed.

(** The table-driven [crc8] of the driver computes the checksum of the
    spec. *)
Lemma crc8_checksum bytes :
  crc8 sps30_crc8_table bytes CRC8_INIT_VALUE = checksum bytes.
Proof. apply crc8_fold. Qed.

Example checksum_beef : checksum [0xBE; 0xEF] = 0x92.
Proof. reflexivity. Qed.

Lemma iter_S {A} (f : A -> A) n x : Nat.iter (S n) f x = f (Nat.iter n f x).
Proof. reflexivity. Qed.

Lemma crc8_byte_msb_range poly crc b : 0 <= crc8_byte_msb poly crc b < 256.
Proof.
  unfold crc8_byte_msb. rewrite iter_S.
  generalize (Nat.iter 7 (crc8_shift_bit poly) (u8 (Z.lxor crc b))) as x.
  intros x. unfold crc8_shift_bit. apply u8_range.
Qed.

Lemma crc8_fold_range bytes :
  forall crc, 0 <= crc < 256 ->
    0 <= fold_left (crc8_byte_msb SPS30_CRC8_POLYNOMIAL) bytes crc < 256.
Proof.
  induction bytes as [|b bytes IH]; intros crc H; [exact H|].
  rewrite fold_left_cons. apply IH. apply crc8_byte_msb_range.
Qed.

Lemma checksum_range bytes : 0 <= checksum bytes < 256.
Proof. apply crc8_fold_range. unfold CRC8_INIT_VALUE. lia. Qed.

(** ** Buffers *)

Lemma store_write_at l j v :
  (j < length l)%nat -> store l j v = Some (write_at j [v] l).
Proof.
  intros H. unfold store, write_at.
  replace (j <? length l)%nat with true by (symmetry; apply Nat.ltb_lt; lia).
  rewrite insert_take_drop by lia. cbn [length app].
  by replace (j + 1)%nat with (S j) by lia.
Qed.

Lemma length_write_at j src dst :
  (j + length src <= length dst)%nat -> length (write_at j src dst) = length dst.
Proof.
  intros H. unfold write_at. rewrite !length_app, length_take, length_drop. lia.
Qed.

Lemma write_at_app j l1 l2 dst :
  (j + length l1 <= length dst)%nat ->
  write_at (j + length l1) l2 (write_at j l1 dst) = write_at j (l1 ++ l2) dst.
Proof.
  intros H. unfold write_at.
  assert (Hj : length (take j dst) = j) by (rewrite length_take; lia).
  rewrite (app_assoc (take j dst) l1).
  rewrite take_app_length' by (rewrite length_app; lia).
  rewrite drop_app_ge by (rewrite length_app; lia).
  rewrite length_app, Hj.
  rewrite drop_drop, length_app, <- !app_assoc.
  do 3 f_equal. f_equal. lia.
Qed.

Lemma lookup_write_at_lt j src dst k :
  (k < j)%nat -> (j <= length dst)%nat -> write_at j src dst !! k = dst !! k.
Proof.
  intros Hk Hj. unfold write_at.
  rewrite lookup_app_l by (rewrite length_take; lia).
  apply lookup_take_lt. lia.
Qed.

Lemma lookup_write_at_ge j src dst k :
  (j + length src <= k)%nat -> (j <= length dst)%nat ->
  write_at j src dst !! k = dst !! k.
Proof.
  intros Hk Hj. unfold write_at.
  rewrite lookup_app_r by (rewrite length_take; lia).
  rewrite lookup_app_r by (rewrite length_take; lia).
  rewrite lookup_drop, length_take. f_equal. lia.
Qed.

Lemma lookup_write_at_in j src dst k :
  (j <= k < j + length src)%nat -> (j <= length dst)%nat ->
  write_at j src dst !! k = src !! (k - j)%nat.
Proof.
  intros Hk Hj. unfold write_at.
  rewrite lookup_app_r by (rewrite length_take; lia).
  rewrite length_take, Nat.min_l by lia.
  apply lookup_app_l. lia.
Qed.

(** ** Frames *)

Lemma length_unwords ws : length (unwords ws) = (2 * length ws)%nat.
Proof.
  unfold unwords. induction ws as [|w ws IH]; cbn [flat_map app length] in *; lia.
Qed.

Lemma frame_unwords_cons a b ws :
  frame (unwords ((a, b) :: ws)) = a :: b :: checksum [a; b] :: frame (unwords ws).
Proof. reflexivity. Qed.

Lemma length_frame_unwords ws : length (frame (unwords ws)) = (3 * length ws)%nat.
Proof.
  induction ws as [|[a b] ws IH]; [reflexivity|].
  rewrite frame_unwords_cons. cbn [length]. lia.
Qed.

Lemma map_u8_bytes l : Forall is_byte l -> map u8 l = l.
Proof.
  induction 1 as [|b l Hb _ IH]; [reflexivity|].
  cbn. rewrite IH. f_equal. by apply u8_id.
Qed.

Lemma frame_bytes ws :
  Forall is_byte (unwords ws) -> Forall is_byte (frame (unwords ws)).
Proof.
  induction ws as [|[a b] ws IH]; [constructor|].
  rewrite frame_unwords_cons. cbn [unwords flat_map app fst snd].
  intros H. inversion H as [|? ? Ha H']. inversion H' as [|? ? Hb H'']. subst.
  constructor; [exact Ha|]. constructor; [exact Hb|].
  constructor; [apply checksum_range|]. by apply IH.
Qed.

(** ** The validation loop of [sps30_do_cmd] *)

(** Words whose checksum matches are copied to [data], one after the
    other, and the loop goes on behind them. *)
Lemma sps30_do_cmd_strip_words ws :
  forall fuel buf size i data j tail,
    0 <= i ->
    drop (Z.to_nat i) buf = frame (unwords ws) ++ tail ->
    i + 3 * Z.of_nat (length ws) <= size ->
    size < 2 ^ 31 ->
    (length ws <= fuel)%nat ->
    (j + 2 * length ws <= length data)%nat ->
    sps30_do_cmd_strip fuel buf size i data j
    = sps30_do_cmd_strip (fuel - length ws) buf size
        (i + 3 * Z.of_nat (length ws))
        (write_at j (unwords ws) data) (j + 2 * length ws).
Proof.
  induction ws as [|[a b] ws IH]; intros fuel buf size i data j tail Hi Hbuf Hsz Hint Hfuel Hdata.
  - cbn [length unwords flat_map]. unfold write_at. cbn [length app].
    rewrite !Nat.add_0_r, Nat.sub_0_r, Z.add_0_r, take_drop. reflexivity.
  - cbn [length] in *. rewrite frame_unwords_cons in Hbuf.
    destruct fuel as [|fuel]; [lia|].
    cbn [sps30_do_cmd_strip].
    replace (i <? size) with true by (symmetry; apply Z.ltb_lt; lia).
    assert (Hl : forall k x, (frame (unwords ((a, b) :: ws)) ++ tail) !! k = Some x ->
                             buf !! Z.to_nat (i + Z.of_nat k) = Some x).
    { intros k x Hk. rewrite frame_unwords_cons, <- Hbuf, lookup_drop in Hk.
      rewrite <- Hk. f_equal. lia. }
    pose proof (Hl 0%nat a eq_refl) as H0.
    pose proof (Hl 1%nat b eq_refl) as H1.
    pose proof (Hl 2%nat (checksum [a; b]) eq_refl) as H2.
    change (Z.of_nat 0) with 0 in H0. rewrite Z.add_0_r in H0.
    change (Z.of_nat 1) with 1 in H1. change (Z.of_nat 2) with 2 in H2.
    rewrite H0, H1, H2.
    cbn [mbind option_bind].
    rewrite crc8_checksum, Z.eqb_refl. cbn [negb].
    rewrite (store_write_at data j a) by lia. cbn [mbind option_bind].
    rewrite (store_write_at _ (S j) b) by (rewrite length_write_at; cbn [length]; lia).
    cbn [mbind option_bind].
    replace (S j) with (j + length [a])%nat by (cbn; lia).
    rewrite write_at_app by (cbn [length]; lia).
    rewrite (s32_id (i + 3)) by lia.
    rewrite (IH fuel buf size (i + 3) _ (j + 2)%nat tail); try lia.
    + f_equal; try lia.
      replace (j + 2)%nat with (j + length ([a] ++ [b]))%nat by (cbn; lia).
      rewrite write_at_app by (cbn [length app]; lia). reflexivity.
    + replace (Z.to_nat (i + 3)) with (Z.to_nat i + 3)%nat by lia.
      rewrite <- drop_drop, Hbuf. reflexivity.
    + rewrite length_write_at; cbn [length app]; lia.
Qed.

(** ** Commands *)

Lemma is_read_cmd_cases cmd :
  is_read_cmd cmd = true ->
  (cmd =? SPS30_START_MEAS) = false /\ is_write_cmd cmd = false.
Proof.
  unfold is_read_cmd. rewrite !orb_true_iff, !Z.eqb_eq.
  intros [[-> | ->] | ->]; split; reflexivity.
Qed.

(** A read command whose send and receive both transfer the bytes asked
    for runs the validation loop on the bytes received. *)
Lemma sps30_do_cmd_read dev cmd data size st :
  is_read_cmd cmd = true ->
  0 <= s32 (size + Z.quot size 2) <= SPS30_MAX_READ_SIZE ->
  send_ret dev (sent st) = 2 ->
  recv_ret dev (received st) = s32 (size + Z.quot size 2) ->
  sps30_do_cmd dev cmd data size st
  = match sps30_do_cmd_strip (Z.to_nat (s32 (size + Z.quot size 2)))
            (overlay (map u8 (take (Z.to_nat (s32 (size + Z.quot size 2)))
                                   (recv_data dev (received st))))
                     (cmd_buf cmd))
            (s32 (size + Z.quot size 2)) 0 data 0 with
    | Some r => Some (r, after_read cmd (s32 (size + Z.quot size 2)) st)
    | None => None
    end.
Proof.
  intros Hcmd Hsz Hsend Hrecv.
  destruct (is_read_cmd_cases cmd Hcmd) as [Hs Hw].
  unfold sps30_do_cmd. rewrite Hs, Hw, Hcmd.
  set (sz := s32 (size + Z.quot size 2)) in *.
  unfold m_bind at 1. unfold m_bind at 1.
  unfold sps30_write_then_read, m_bind at 1.
  unfold i2c_master_send at 1. rewrite Hsend. cbn [Z.eqb Pos.eqb negb].
  unfold m_bind at 1. unfold i2c_master_recv.
  cbn [sent received slept trace].
  replace ((0 <=? sz) && (sz <=? Z.of_nat (length (cmd_buf cmd)))) with true
    by (symmetry; apply andb_true_iff; rewrite Z.leb_le, Z.leb_le;
        change (Z.of_nat (length (cmd_buf cmd))) with SPS30_MAX_READ_SIZE; lia).
  rewrite Hrecv, Z.eqb_refl. cbn [negb m_ret fst snd default].
  rewrite Z.eqb_refl. cbn [negb]. unfold m_lift, after_read.
  rewrite <- app_assoc. reflexivity.
Qed.

(** What the validation loop sees after a receive of [rx]. *)
Lemma drop_overlay_received rx cmd :
  Forall is_byte rx ->
  drop (Z.to_nat 0)
       (overlay (map u8 (take (length rx) rx)) (cmd_buf cmd))
  = rx ++ drop (length rx) (cmd_buf cmd).
Proof.
  intros Hrx. rewrite firstn_all, map_u8_bytes by assumption.
  reflexivity.
Qed.

(** A read command that receives, after some words whose checksum
    matches, a word whose checksum does not: [-EIO], and the words
    before it are already in the caller's buffer. *)
Lemma sps30_do_cmd_bad_crc dev cmd data st pre a b c post :
  is_read_cmd cmd = true ->
  Forall is_byte (unwords pre) -> is_byte a -> is_byte b -> is_byte c ->
  Forall is_byte post ->
  c <> checksum [a; b] ->
  let n := (3 * length pre + 3 + length post)%nat in
  (n <= 48)%nat ->
  send_ret dev (sent st) = 2 ->
  recv_ret dev (received st) = Z.of_nat n ->
  recv_data dev (received st) = frame (unwords pre) ++ [a; b; c] ++ post ->
  (2 * length pre <= length data)%nat ->
  forall size, s32 (size + Z.quot size 2) = Z.of_nat n ->
  sps30_do_cmd dev cmd data size st
  = Some ((- EIO, overlay (unwords pre) data), after_read cmd (Z.of_nat n) st).
Proof.
  intros Hcmd Hpre Ha Hb Hc Hpost Hne n Hn Hsend Hrecv Hdata Hlen size Hsz.
  rewrite sps30_do_cmd_read; rewrite ?Hsz; try assumption;
    [|unfold SPS30_MAX_READ_SIZE; lia].
  rewrite Hdata, Nat2Z.id.
  set (rx := frame (unwords pre) ++ [a; b; c] ++ post).
  assert (Hrxlen : length rx = n).
  { subst rx n. rewrite !length_app, length_frame_unwords. cbn [length]. lia. }
  assert (Hrx : Forall is_byte rx).
  { subst rx. apply Forall_app. split; [by apply frame_bytes|].
    repeat (constructor; [assumption|]). assumption. }
  pose proof (drop_overlay_received rx cmd Hrx) as Hbuf.
  rewrite Hrxlen in Hbuf. unfold rx at 2 in Hbuf. rewrite <- app_assoc in Hbuf.
  set (buf := overlay _ _) in *.
  rewrite (sps30_do_cmd_strip_words pre n buf (Z.of_nat n) 0 data 0%nat _ ltac:(lia) Hbuf)
    by (subst n; lia).
  assert (Hl : forall k x, ([a; b; c] ++ post ++ drop n (cmd_buf cmd)) !! k = Some x ->
                           buf !! Z.to_nat (0 + 3 * Z.of_nat (length pre) + Z.of_nat k) = Some x).
  { intros k x Hk.
    replace (Z.to_nat (0 + 3 * Z.of_nat (length pre) + Z.of_nat k))
      with (Z.to_nat 0 + (length (frame (unwords pre)) + k))%nat
      by (rewrite length_frame_unwords; lia).
    rewrite <- lookup_drop, Hbuf, lookup_app_r by lia.
    rewrite <- Hk. f_equal. lia. }
  pose proof (Hl 0%nat a eq_refl) as H0.
  pose proof (Hl 1%nat b eq_refl) as H1.
  pose proof (Hl 2%nat c eq_refl) as H2.
  change (Z.of_nat 0) with 0 in H0. rewrite Z.add_0_r in H0.
  change (Z.of_nat 1) with 1 in H1. change (Z.of_nat 2) with 2 in H2.
  destruct (n - length pre)%nat as [|fuel] eqn:Hfuel; [subst n; lia|].
  cbn [sps30_do_cmd_strip].
  replace (0 + 3 * Z.of_nat (length pre) <? Z.of_nat n) with true
    by (symmetry; apply Z.ltb_lt; subst n; lia).
  rewrite H0, H1, H2. cbn [mbind option_bind].
  rewrite crc8_checksum.
  replace (checksum [a; b] =? c) with false
    by (symmetry; apply Z.eqb_neq; congruence).
  reflexivity.
Qed.

(** A read command that receives a well-formed frame returns the data
    bytes of its words. *)
Lemma sps30_do_cmd_good_frame dev cmd data st ws :
  is_read_cmd cmd = true ->
  Forall is_byte (unwords ws) ->
  (length ws <= 16)%nat ->
  send_ret dev (sent st) = 2 ->
  recv_ret dev (received st) = 3 * Z.of_nat (length ws) ->
  recv_data dev (received st) = frame (unwords ws) ->
  (2 * length ws <= length data)%nat ->
  sps30_do_cmd dev cmd data (2 * Z.of_nat (length ws)) st
  = Some ((0, overlay (unwords ws) data),
          after_read cmd (3 * Z.of_nat (length ws)) st).
Proof.
  intros Hcmd Hws Hn Hsend Hrecv Hdata Hlen.
  assert (Hsz : s32 (2 * Z.of_nat (length ws) + Z.quot (2 * Z.of_nat (length ws)) 2)
                = 3 * Z.of_nat (length ws)).
  { rewrite Z.mul_comm, Z.quot_mul by lia. rewrite s32_id; lia. }
  rewrite sps30_do_cmd_read; rewrite ?Hsz; try assumption;
    [|unfold SPS30_MAX_READ_SIZE; lia].
  rewrite Hdata.
  set (rx := frame (unwords ws)).
  assert (Hrxlen : length rx = Z.to_nat (3 * Z.of_nat (length ws))).
  { subst rx. rewrite length_frame_unwords. lia. }
  assert (Hrx : Forall is_byte rx) by (by apply frame_bytes).
  pose proof (drop_overlay_received rx cmd Hrx) as Hbuf.
  rewrite Hrxlen in Hbuf.
  set (buf := overlay _ _) in *.
  rewrite (sps30_do_cmd_strip_words ws _ buf _ 0 data 0%nat _ ltac:(lia) Hbuf)
    by lia.
  replace (Z.to_nat (3 * Z.of_nat (length ws)) - length ws)%nat
    with (2 * length ws)%nat by lia.
  assert (Hexit : forall fuel d j,
             sps30_do_cmd_strip fuel buf (3 * Z.of_nat (length ws))
               (0 + 3 * Z.of_nat (length ws)) d j = Some (0, d)).
  { intros fuel d j. destruct fuel; cbn [sps30_do_cmd_strip];
      by replace (0 + 3 * Z.of_nat (length ws) <? 3 * Z.of_nat (length ws))
        with false by (symmetry; apply Z.ltb_ge; lia). }
  rewrite Hexit. reflexivity.
Qed.

(** A read command whose send does not transfer its two bytes. *)
Lemma sps30_do_cmd_send_fail dev cmd data size st :
  is_read_cmd cmd = true ->
  send_ret dev (sent st) <> 2 ->
  sps30_do_cmd dev cmd data size st
  = Some ((if send_ret dev (sent st) <? 0 then send_ret dev (sent st) else - EIO,
           data), after_send cmd st).
Proof.
  intros Hcmd Hsend.
  destruct (is_read_cmd_cases cmd Hcmd) as [Hs Hw].
  unfold sps30_do_cmd. rewrite Hs, Hw, Hcmd.
  unfold m_bind at 1. unfold m_bind at 1.
  unfold sps30_write_then_read, m_bind at 1.
  unfold i2c_master_send at 1.
  replace (send_ret dev (sent st) =? 2) with false
    by (symmetry; by apply Z.eqb_neq).
  cbn [negb m_ret fst snd default].
  replace (_ =? 0) with false; [reflexivity|].
  symmetry. apply Z.eqb_neq. unfold EIO.
  destruct (send_ret dev (sent st) <? 0) eqn:E; [apply Z.ltb_lt in E|]; lia.
Qed.

(** A read command whose receive does not transfer the bytes asked for. *)
Lemma sps30_do_cmd_recv_fail dev cmd data size st :
  is_read_cmd cmd = true ->
  0 <= s32 (size + Z.quot size 2) <= SPS30_MAX_READ_SIZE ->
  send_ret dev (sent st) = 2 ->
  recv_ret dev (received st) <> s32 (size + Z.quot size 2) ->
  sps30_do_cmd dev cmd data size st
  = Some ((if recv_ret dev (received st) <? 0
           then recv_ret dev (received st) else - EIO, data),
          after_read cmd (s32 (size + Z.quot size 2)) st).
Proof.
  intros Hcmd Hsz Hsend Hrecv.
  destruct (is_read_cmd_cases cmd Hcmd) as [Hs Hw].
  unfold sps30_do_cmd. rewrite Hs, Hw, Hcmd.
  set (sz := s32 (size + Z.quot size 2)) in *.
  unfold m_bind at 1. unfold m_bind at 1.
  unfold sps30_write_then_read, m_bind at 1.
  unfold i2c_master_send at 1. rewrite Hsend. cbn [Z.eqb Pos.eqb negb].
  unfold m_bind at 1. unfold i2c_master_recv.
  cbn [sent received slept trace].
  replace ((0 <=? sz) && (sz <=? Z.of_nat (length (cmd_buf cmd)))) with true
    by (symmetry; apply andb_true_iff; rewrite Z.leb_le, Z.leb_le;
        change (Z.of_nat (length (cmd_buf cmd))) with SPS30_MAX_READ_SIZE; lia).
  replace (recv_ret dev (received st) =? sz) with false
    by (symmetry; by apply Z.eqb_neq).
  cbn [negb m_ret fst snd default].
  replace (_ =? 0) with false.
  - unfold after_read. rewrite <- app_assoc. reflexivity.
  - symmetry. apply Z.eqb_neq. unfold EIO.
    destruct (recv_ret dev (received st) <? 0) eqn:E; [apply Z.ltb_lt in E|]; lia.
Qed.

(** ** The measurement read *)

(** The polling loop only ever returns [-EIO]. *)
Lemma sps30_do_meas_poll_return dev fuel :
  forall tries tmp st code st',
    sps30_do_meas_poll dev fuel tries tmp st = Some (inl code, st') ->
    code = - EIO.
Proof.
  induction fuel as [|fuel IH]; intros tries tmp st code st'; [discriminate|].
  cbn [sps30_do_meas_poll].
  destruct (tries =? 0); [discriminate|].
  unfold m_bind at 1.
  destruct (sps30_do_cmd dev SPS30_READ_DATA_READY_FLAG tmp 2 st)
    as [[[ret tmp1] st1]|]; [|discriminate].
  destruct (negb (ret =? 0)); [by intros [= <- _]|].
  unfold m_bind at 1, m_lift.
  destruct (tmp1 !! 1%nat) as [flag|]; [|discriminate].
  destruct (flag =? 1); [discriminate|].
  unfold m_bind at 1, msleep_interruptible. apply IH.
Qed.

Lemma store_Some l j v l' :
  store l j v = Some l' -> (j < length l)%nat /\ l' = <[j := v]> l.
Proof.
  unfold store. destruct (j <? length l)%nat eqn:E; [|discriminate].
  apply Nat.ltb_lt in E. by intros [= <-].
Qed.

(** The decoding loop fills the cells [i .. size - 1] of [data] with
    decoded values and touches no other cell. *)
Lemma sps30_do_meas_decode_spec fuel tmp size :
  size < 2 ^ 31 ->
  forall i data data',
    0 <= i ->
    sps30_do_meas_decode fuel tmp size i data = Some data' ->
    length data' = length data /\
    (forall k, i <= k < size ->
       exists v, data' !! Z.to_nat k = Some v /\
                 value (sps30_float_to_int_clamped (drop (Z.to_nat (4 * k)) tmp))
                 = Some v /\
                 0 <= v <= 300000) /\
    (forall k : nat, Z.of_nat k < i \/ size <= Z.of_nat k ->
       data' !! k = data !! k).
Proof.
  intros Hint. induction fuel as [|fuel IH]; intros i data data' Hi; cbn [sps30_do_meas_decode].
  - destruct (i <? size) eqn:E; [discriminate|]. apply Z.ltb_ge in E.
    intros [= <-]. split; [reflexivity|]. split; [intros; lia|reflexivity].
  - destruct (i <? size) eqn:E.
    2:{ apply Z.ltb_ge in E. intros [= <-]. split; [reflexivity|]. split; [intros; lia|reflexivity]. }
    apply Z.ltb_lt in E.
    destruct (value (sps30_float_to_int_clamped (drop (Z.to_nat (4 * i)) tmp)))
      as [v|] eqn:Hv; [|discriminate].
    cbn [mbind option_bind].
    destruct (store data (Z.to_nat i) v) as [d1|] eqn:Hst; [|discriminate].
    apply store_Some in Hst as [Hlt ->].
    cbn [mbind option_bind]. rewrite (s32_id (i + 1)) by lia. intros H.
    apply IH in H as (Hlen & Hin & Hout); [|lia].
    rewrite length_insert in Hlen. split; [exact Hlen|]. split.
    + intros k Hk. destruct (Z.eq_dec k i) as [->|Hne].
      * exists v. split; [|split].
        -- rewrite Hout by lia. by apply list_lookup_insert_eq.
        -- exact Hv.
        -- by apply (sps30_float_to_int_clamped_range _ _ Hv).
      * apply Hin. lia.
    + intros k Hk. rewrite Hout by lia.
      apply list_lookup_insert_ne. lia.
Qed.

(** A failed first poll ends the measurement read with [-EIO], whatever
    the code [sps30_do_cmd] returned, and leaves the caller's array as it
    was. *)
Lemma sps30_do_meas_first_poll_fails dev data size st ret tmp st1 :
  sps30_do_cmd dev SPS30_READ_DATA_READY_FLAG (replicate 16 0) 2 st
  = Some ((ret, tmp), st1) ->
  ret <> 0 ->
  sps30_do_meas dev data size st = Some ((- EIO, data), st1).
Proof.
  intros Hcmd Hret. unfold sps30_do_meas. cbv zeta.
  unfold m_bind at 1. cbn [sps30_do_meas_poll]. change (5 =? 0) with false.
  cbv zeta. unfold m_bind at 1. rewrite Hcmd.
  replace (ret =? 0) with false by (symmetry; by apply Z.eqb_neq).
  reflexivity.
Qed.

Lemma m_bind_ext {A B} (m : M A) (f g : A -> M B) st :
  (forall a st', f a st' = g a st') -> m_bind m f st = m_bind m g st.
Proof. intros H. unfold m_bind. destruct (m st) as [[a st']|]; [apply H|reflexivity]. Qed.

(** The outcome of a sleep is never looked at. *)
Lemma sps30_do_meas_poll_sleeps dev sl fuel :
  forall tries tmp st,
    sps30_do_meas_poll (with_sleeps dev sl) fuel tries tmp st
    = sps30_do_meas_poll dev fuel tries tmp st.
Proof.
  induction fuel as [|fuel IH]; intros tries tmp st; [reflexivity|].
  cbn [sps30_do_meas_poll].
  destruct (tries =? 0); [reflexivity|].
  change (sps30_do_cmd (with_sleeps dev sl)) with (sps30_do_cmd dev).
  apply m_bind_ext. intros [ret tmp1] st1.
  destruct (negb (ret =? 0)); [reflexivity|].
  apply m_bind_ext. intros flag st2.
  destruct (flag =? 1); [reflexivity|].
  unfold m_bind, msleep_interruptible. apply IH.
Qed.

(** ** The loops terminate within their fuel

    Each loop of the model is given the fuel its C counterpart needs at
    most; more fuel changes nothing, so [None] never stands for a loop
    that was cut short. *)

Lemma sps30_do_cmd_strip_unfold fuel buf size i data j :
  sps30_do_cmd_strip (S fuel) buf size i data j
  = if i <? size then
      b0 ← buf !! Z.to_nat i;
      b1 ← buf !! Z.to_nat (i + 1);
      c ← buf !! Z.to_nat (i + 2);
      if negb (crc8 sps30_crc8_table [b0; b1] CRC8_INIT_VALUE =? c)
      then Some (- EIO, data)
      else
        data ← store data j b0;
        data ← store data (S j) b1;
        sps30_do_cmd_strip fuel buf size (s32 (i + 3)) data (j + 2)
    else Some (0, data).
Proof. reflexivity. Qed.

Lemma sps30_do_cmd_strip_fuel fuel buf size :
  size + 3 < 2 ^ 31 ->
  forall i data j,
    0 <= i -> size - i <= Z.of_nat fuel ->
    sps30_do_cmd_strip (S fuel) buf size i data j
    = sps30_do_cmd_strip fuel buf size i data j.
Proof.
  intros Hint. induction fuel as [|fuel IH]; intros i data j Hi Hfuel.
  - cbn [sps30_do_cmd_strip].
    by replace (i <? size) with false by (symmetry; apply Z.ltb_ge; lia).
  - rewrite (sps30_do_cmd_strip_unfold (S fuel)), (sps30_do_cmd_strip_unfold fuel).
    destruct (i <? size) eqn:E; [|reflexivity]. apply Z.ltb_lt in E.
    destruct (buf !! Z.to_nat i) as [b0|]; [|reflexivity].
    destruct (buf !! Z.to_nat (i + 1)) as [b1|]; [|reflexivity].
    destruct (buf !! Z.to_nat (i + 2)) as [c|]; [|reflexivity].
    cbn [mbind option_bind].
    destruct (negb _); [reflexivity|].
    destruct (store data j b0) as [d1|]; [|reflexivity].
    cbn [mbind option_bind].
    destruct (store d1 (S j) b1) as [d2|]; [|reflexivity].
    cbn [mbind option_bind].
    rewrite (s32_id (i + 3)) by lia. apply IH; lia.
Qed.

Lemma sps30_do_meas_decode_unfold fuel tmp size i data :
  sps30_do_meas_decode (S fuel) tmp size i data
  = if i <? size then
      v ← value (sps30_float_to_int_clamped (drop (Z.to_nat (4 * i)) tmp));
      data ← store data (Z.to_nat i) v;
      sps30_do_meas_decode fuel tmp size (s32 (i + 1)) data
    else Some data.
Proof. reflexivity. Qed.

Lemma sps30_do_meas_decode_fuel fuel tmp size :
  size < 2 ^ 31 ->
  forall i data,
    0 <= i -> size - i <= Z.of_nat fuel ->
    sps30_do_meas_decode (S fuel) tmp size i data
    = sps30_do_meas_decode fuel tmp size i data.
Proof.
  intros Hint. induction fuel as [|fuel IH]; intros i data Hi Hfuel.
  - cbn [sps30_do_meas_decode].
    by replace (i <? size) with false by (symmetry; apply Z.ltb_ge; lia).
  - rewrite (sps30_do_meas_decode_unfold (S fuel)), (sps30_do_meas_decode_unfold fuel).
    destruct (i <? size) eqn:E; [|reflexivity]. apply Z.ltb_lt in E.
    destruct (value _) as [v|]; [|reflexivity].
    cbn [mbind option_bind].
    destruct (store data (Z.to_nat i) v) as [d1|]; [|reflexivity].
    cbn [mbind option_bind].
    rewrite (s32_id (i + 1)) by lia. apply IH; lia.
Qed.

Lemma sps30_do_meas_poll_unfold dev fuel tries tmp :
  sps30_do_meas_poll dev (S fuel) tries tmp
  = (if tries =? 0 then m_ret (inr (s32 (tries - 1), tmp))
     else
       r <- sps30_do_cmd dev SPS30_READ_DATA_READY_FLAG tmp 2 ;;
       let '(ret, tmp) := r in
       if negb (ret =? 0) then m_ret (inl (- EIO))
       else
         flag <- m_lift (tmp !! 1%nat) ;;
         if flag =? 1 then m_ret (inr (s32 (tries - 1), tmp))
         else
           _ <- msleep_interruptible dev 300 ;;
           sps30_do_meas_poll dev fuel (s32 (tries - 1)) tmp)%bus.
Proof. reflexivity. Qed.

Lemma sps30_do_meas_poll_fuel dev fuel :
  forall tries tmp st,
    0 <= tries < 2 ^ 31 -> tries < Z.of_nat fuel ->
    sps30_do_meas_poll dev (S fuel) tries tmp st
    = sps30_do_meas_poll dev fuel tries tmp st.
Proof.
  induction fuel as [|fuel IH]; intros tries tmp st Ht Hfuel; [lia|].
  rewrite (sps30_do_meas_poll_unfold dev (S fuel)), (sps30_do_meas_poll_unfold dev fuel).
  destruct (tries =? 0) eqn:E; [reflexivity|]. apply Z.eqb_neq in E.
  apply m_bind_ext. intros [ret tmp1] st1.
  destruct (negb (ret =? 0)); [reflexivity|].
  apply m_bind_ext. intros flag st2.
  destruct (flag =? 1); [reflexivity|].
  apply m_bind_ext. intros _ st3.
  rewrite (s32_id (tries - 1)) by lia. apply IH; lia.
Qed.

(** ** The scenarios of the spec *)

Example start_measurement_frame :
  sps30_do_cmd (scripted [5] [] []) SPS30_START_MEAS [] 0 bus_init
  = Some ((0, []), Bus 1 0 0 [Send [0x00; 0x10; 0x03; 0x00; 0xAC]]).
Proof. vm_compute. reflexivity. Qed.

Example read_four_channels :
  sps30_do_meas (scripted [2; 2] [ready; (24, frame sample_1234)] [])
                [0; 0; 0; 0] 4 bus_init
  = Some ((0, [100; 200; 300; 400]),
          Bus 2 2 0 [Send [2; 2]; Recv 3; Send [3; 0]; Recv 24]).
Proof. vm_compute. reflexivity. Qed.

Example ready_on_fourth_poll :
  sps30_do_meas
    (scripted [2; 2; 2; 2; 2]
       [not_ready; not_ready; not_ready; ready; (12, frame sample_1234)] [])
    [7; 7; 7; 7] 2 bus_init
  = Some ((0, [100; 200; 7; 7]),
          Bus 5 5 3 [Send [2; 2]; Recv 3; Sleep 300;
                     Send [2; 2]; Recv 3; Sleep 300;
                     Send [2; 2]; Recv 3; Sleep 300;
                     Send [2; 2]; Recv 3; Send [3; 0]; Recv 12]).
Proof. vm_compute. reflexivity. Qed.

Example decode_examples :
  map (fun w => value (sps30_float_to_int_clamped (be32_bytes w)))
      [0x00000000; 0x3f000000; 0x3f800000; 0x40200000; 0x453b7ffd; 0x453b8000]
  = [Some 0; Some 50; Some 100; Some 250; Some 299999; Some 300000].
Proof. vm_compute. reflexivity. Qed.

(** ** Further lemmas on the decoder, the commands, the measurement
    read and the callbacks *)

(** ** More on the fixed-point decoder *)

(** The scaled value of an encoding with mantissa [m] and biased
    exponent [e]: the float is [(2^23 + m) / 2^(23 - e)], and this is
    that value times 100, rounded down. *)
Lemma scaled_sub_unit m k :
  0 <= m -> 0 <= k ->
  (2 ^ 23 + m) * 100 / 2 ^ 23 / 2 ^ k = (2 ^ 23 + m) * 100 / 2 ^ (23 + k).
Proof.
  intros Hm Hk. rewrite Z.pow_add_r by lia.
  assert (0 < 2 ^ k) by (apply pow2_pos; lia).
  rewrite Z.div_div by lia. reflexivity.
Qed.

Lemma scaled_split m e :
  0 <= m -> 0 <= e <= 23 ->
  (2 ^ 23 + m) * 100 / 2 ^ (23 - e)
  = (2 ^ e + m / 2 ^ (23 - e)) * 100
    + m mod 2 ^ (23 - e) * 100 / 2 ^ (23 - e).
Proof.
  intros Hm He.
  assert (Hs : 0 < 2 ^ (23 - e)) by (apply pow2_pos; lia).
  assert (H23 : 2 ^ 23 = 2 ^ e * 2 ^ (23 - e)).
  { rewrite <- Z.pow_add_r by lia. f_equal. lia. }
  pose proof (Z.div_mod m (2 ^ (23 - e)) ltac:(lia)) as Hdm.
  set (s := 2 ^ (23 - e)) in *. set (q := m / s) in *. set (r := m mod s) in *.
  replace ((2 ^ 23 + m) * 100) with ((2 ^ e + q) * 100 * s + r * 100) by nia.
  rewrite Z.div_add_l by lia. reflexivity.
Qed.

Lemma decoded_scaled e m :
  -31 <= e <= 23 -> 0 <= m < 2 ^ 23 ->
  value (decoded (e + 127) m)
  = Some (Z.min 300000 ((2 ^ 23 + m) * 100 / 2 ^ (23 - e))).
Proof.
  intros He Hm. unfold decoded.
  replace ((e + 127 =? 0) && (m =? 0)) with false
    by (symmetry; apply andb_false_iff; left; apply Z.eqb_neq; lia).
  replace (e + 127 - 127) with e by lia. cbv zeta.
  destruct (e <? 0) eqn:En.
  - apply Z.ltb_lt in En. unfold shift_ok.
    replace ((0 <=? - e) && (- e <? 32)) with true
      by (symmetry; apply andb_true_iff; lia).
    unfold value. f_equal.
    pose proof (sub_unit_bounds m (- e) Hm ltac:(lia)) as [Hb _].
    cbv zeta in Hb. rewrite scaled_sub_unit in * by lia.
    replace (23 + - e) with (23 - e) in * by lia.
    rewrite Z.min_r by lia. reflexivity.
  - apply Z.ltb_ge in En.
    replace (24 <=? e) with false by (symmetry; apply Z.leb_gt; lia).
    assert (Hs : 0 < 2 ^ (23 - e)) by (apply pow2_pos; lia).
    assert (Hf : 0 <= m mod 2 ^ (23 - e) < 2 ^ (23 - e))
      by (apply Z.mod_pos_bound; lia).
    assert (Hfr : 0 <= m mod 2 ^ (23 - e) * 100 / 2 ^ (23 - e) < 100).
    { split; [apply Z.div_pos; lia|apply Z.div_lt_upper_bound; lia]. }
    rewrite (scaled_split m e) by lia.
    destruct (3000 <=? 2 ^ e + m / 2 ^ (23 - e)) eqn:Ev; unfold value; f_equal.
    + apply Z.leb_le in Ev. rewrite Z.min_l by lia. reflexivity.
    + apply Z.leb_gt in Ev. rewrite Z.min_r by lia. reflexivity.
Qed.

Lemma s32_zero w : 0 <= w < 2 ^ 32 -> s32 w = 0 -> w = 0.
Proof. unfold s32. intros H. Z.div_mod_to_equations. lia. Qed.

Lemma decoded_defined ex m :
  0 <= m < 2 ^ 23 ->
  is_Some (value (decoded ex m))
  <-> (ex = 0 /\ m = 0) \/ -31 <= ex - 127 <= 23.
Proof.
  intros Hm. unfold decoded.
  destruct ((ex =? 0) && (m =? 0)) eqn:E0.
  { apply andb_true_iff in E0 as [E1 E2].
    apply Z.eqb_eq in E1. apply Z.eqb_eq in E2.
    split; [intros _; left; by split|intros _; by eexists]. }
  assert (Hnz : ~ (ex = 0 /\ m = 0)).
  { intros [-> ->]. discriminate. }
  cbv zeta. destruct (ex - 127 <? 0) eqn:En.
  - apply Z.ltb_lt in En. unfold shift_ok, value.
    destruct ((0 <=? - (ex - 127)) && (- (ex - 127) <? 32)) eqn:Es.
    + apply andb_true_iff in Es as [_ Es]. apply Z.ltb_lt in Es.
      split; [intros _; right; lia|intros _; by eexists].
    + apply andb_false_iff in Es as [Es|Es];
        [apply Z.leb_gt in Es|apply Z.ltb_ge in Es];
        (split; [by intros [? ?]|intros [?|?]; [tauto|lia]]).
  - apply Z.ltb_ge in En. destruct (24 <=? ex - 127) eqn:E24.
    + apply Z.leb_le in E24. unfold value.
      split; [by intros [? ?]|intros [?|?]; [tauto|lia]].
    + apply Z.leb_gt in E24.
      destruct (3000 <=? _); unfold value;
        (split; [intros _; right; lia|intros _; by eexists]).
Qed.

Lemma fields_of_pattern b0 b1 b2 b3 :
  0 <= biased (be32 b0 b1 b2 b3) + 127 ->
  be32 b0 b1 b2 b3
  = (biased (be32 b0 b1 b2 b3) + 127) * 2 ^ 23 + mantissa (be32 b0 b1 b2 b3).
Proof.
  intros H. pose proof (be32_range b0 b1 b2 b3) as Hw.
  pose proof (s32_range (be32 b0 b1 b2 b3)) as Hs.
  unfold biased, mantissa in *.
  rewrite Z.shiftr_div_pow2 in * by lia. rewrite Z.land_ones by lia.
  assert (0 <= s32 (be32 b0 b1 b2 b3)).
  { destruct (Z_lt_le_dec (s32 (be32 b0 b1 b2 b3)) 0) as [Hneg|]; [|lia].
    assert (s32 (be32 b0 b1 b2 b3) / 2 ^ 23 < 0)
      by (apply Z.div_lt_upper_bound; lia). lia. }
  rewrite (s32_nonneg (be32 b0 b1 b2 b3)) in * by lia.
  pose proof (Z.div_mod (be32 b0 b1 b2 b3) (2 ^ 23) ltac:(lia)). lia.
Qed.

Lemma scaled_mono e1 m1 e2 m2 :
  -31 <= e1 <= 23 -> -31 <= e2 <= 23 ->
  0 <= m1 < 2 ^ 23 -> 0 <= m2 < 2 ^ 23 ->
  (e1 + 127) * 2 ^ 23 + m1 <= (e2 + 127) * 2 ^ 23 + m2 ->
  (2 ^ 23 + m1) * 100 / 2 ^ (23 - e1) <= (2 ^ 23 + m2) * 100 / 2 ^ (23 - e2).
Proof.
  intros He1 He2 Hm1 Hm2 Hle.
  assert (Hs2 : 0 < 2 ^ (23 - e2)) by (apply pow2_pos; lia).
  destruct (Z.eq_dec e1 e2) as [->|Hne].
  - apply Z.div_le_mono; lia.
  - assert (Hlt : e1 < e2) by nia.
    replace (23 - e1) with ((e2 - e1) + (23 - e2)) by lia.
    rewrite Z.pow_add_r by lia.
    assert (Hd : 2 ^ 1 <= 2 ^ (e2 - e1)) by (apply Z.pow_le_mono_r; lia).
    change (2 ^ 1) with 2 in Hd.
    rewrite <- Z.div_div by lia.
    apply Z.div_le_mono; [lia|].
    transitivity (2 ^ 23 * 100); [|lia].
    apply Z.lt_le_incl, Z.div_lt_upper_bound; nia.
Qed.

(** ** What a command puts on the bus and what it returns *)

(** The validation loop returns 0 or [-EIO]. *)
Lemma sps30_do_cmd_strip_return fuel buf size :
  forall i data j ret data',
    sps30_do_cmd_strip fuel buf size i data j = Some (ret, data') ->
    ret = 0 \/ ret = - EIO.
Proof.
  induction fuel as [|fuel IH]; intros i data j ret data'.
  - cbn [sps30_do_cmd_strip]. destruct (i <? size); [discriminate|].
    intros [= <- _]. by left.
  - rewrite sps30_do_cmd_strip_unfold.
    destruct (i <? size); [|intros [= <- _]; by left].
    destruct (buf !! Z.to_nat i) as [b0|]; [|discriminate].
    destruct (buf !! Z.to_nat (i + 1)) as [b1|]; [|discriminate].
    destruct (buf !! Z.to_nat (i + 2)) as [c|]; [|discriminate].
    cbn [mbind option_bind].
    destruct (negb _); [intros [= <- _]; by right|].
    destruct (store data j b0) as [d1|]; [|discriminate].
    cbn [mbind option_bind].
    destruct (store d1 (S j) b1) as [d2|]; [|discriminate].
    cbn [mbind option_bind]. apply IH.
Qed.

(** The outcomes of [sps30_write_then_read]. *)
Lemma sps30_write_then_read_cases dev txbuf txsize rxbuf rxsize st ret rx' st' :
  sps30_write_then_read dev txbuf txsize rxbuf rxsize st = Some ((ret, rx'), st') ->
  (send_ret dev (sent st) <> txsize /\
   ret = (if send_ret dev (sent st) <? 0 then send_ret dev (sent st) else - EIO) /\
   st' = Bus (S (sent st)) (received st) (slept st)
             (trace st ++ [Send (take (Z.to_nat txsize) txbuf)]))
  \/ (send_ret dev (sent st) = txsize /\ rxbuf = None /\ ret = 0 /\
      st' = Bus (S (sent st)) (received st) (slept st)
                (trace st ++ [Send (take (Z.to_nat txsize) txbuf)]))
  \/ (send_ret dev (sent st) = txsize /\ is_Some rxbuf /\
      (ret = 0 /\ recv_ret dev (received st) = rxsize
       \/ recv_ret dev (received st) <> rxsize /\
          ret = (if recv_ret dev (received st) <? 0
                 then recv_ret dev (received st) else - EIO)) /\
      st' = Bus (S (sent st)) (S (received st)) (slept st)
                (trace st ++ [Send (take (Z.to_nat txsize) txbuf); Recv rxsize])).
Proof.
  unfold sps30_write_then_read, m_bind, i2c_master_send.
  destruct (send_ret dev (sent st) =? txsize) eqn:Es; cbn [negb].
  2:{ apply Z.eqb_neq in Es. unfold m_ret. intros [= <- <- <-]. left. done. }
  apply Z.eqb_eq in Es. destruct rxbuf as [rx|].
  2:{ unfold m_ret. intros [= <- <- <-]. right. left. done. }
  unfold i2c_master_recv. cbn [sent received slept trace].
  destruct ((0 <=? rxsize) && (rxsize <=? Z.of_nat (length rx))); [|discriminate].
  destruct (recv_ret dev (received st) =? rxsize) eqn:Er; cbn [negb];
    unfold m_ret; intros [= <- <- <-]; right; right;
    (split; [exact Es|]); (split; [by eexists|]);
    rewrite <- app_assoc; (split; [|reflexivity]).
  - left. apply Z.eqb_eq in Er. done.
  - right. apply Z.eqb_neq in Er. done.
Qed.

Lemma errno_or_EIO r :
  let ret := if r <? 0 then r else - EIO in
  ret <> 0 /\ (ret = - EIO \/ ret < 0 /\ ret = r).
Proof.
  cbv zeta. unfold EIO. destruct (r <? 0) eqn:E.
  - apply Z.ltb_lt in E. split; [lia|right; split; [lia|reflexivity]].
  - split; [lia|by left].
Qed.

(** Every way [sps30_do_cmd] can return: its return value, and the bus
    after it. *)
Lemma sps30_do_cmd_inv dev cmd data size st ret data' st' :
  sps30_do_cmd dev cmd data size st = Some ((ret, data'), st') ->
  (ret = 0 \/ ret = - EIO
   \/ ret < 0 /\ (ret = send_ret dev (sent st) \/ ret = recv_ret dev (received st)))
  /\ (st' = st /\ is_read_cmd cmd = false
      \/ (exists bytes,
            st' = Bus (S (sent st)) (received st) (slept st)
                      (trace st ++ [Send bytes]) /\
            ((cmd =? SPS30_START_MEAS) = false ->
             bytes = [u8 (Z.shiftr cmd 8); u8 cmd]))
      \/ (is_read_cmd cmd = true /\ send_ret dev (sent st) = 2 /\
          st' = after_read cmd (s32 (size + Z.quot size 2)) st)).
Proof.
  unfold sps30_do_cmd. cbv zeta.
  assert (Htail : forall r buf sz st1,
    (if negb (r =? 0) then m_ret (r, data)
     else m_lift (sps30_do_cmd_strip (Z.to_nat sz) buf sz 0 data 0)) st1
    = Some (ret, data', st') ->
    st' = st1 /\ (ret = r /\ r <> 0 \/ r = 0 /\ (ret = 0 \/ ret = - EIO))).
  { intros r buf sz st1. destruct (r =? 0) eqn:Er; cbn [negb].
    - apply Z.eqb_eq in Er. unfold m_lift.
      destruct (sps30_do_cmd_strip _ _ _ _ _ _) as [[r' d']|] eqn:Hs; [|discriminate].
      intros [= -> -> ->]. apply sps30_do_cmd_strip_return in Hs.
      split; [reflexivity|right; split; assumption].
    - apply Z.eqb_neq in Er. unfold m_ret. intros [= -> -> ->].
      split; [reflexivity|left; split; [reflexivity|assumption]]. }
  assert (Hwr : forall txbuf txsize rxbuf rxsize r rx' st1,
    sps30_write_then_read dev txbuf txsize rxbuf rxsize st = Some ((r, rx'), st1) ->
    (st' = st1 /\ (ret = r /\ r <> 0 \/ r = 0 /\ (ret = 0 \/ ret = - EIO))) ->
    (ret = 0 \/ ret = - EIO
     \/ ret < 0 /\ (ret = send_ret dev (sent st) \/ ret = recv_ret dev (received st)))
    /\ (st' = Bus (S (sent st)) (received st) (slept st)
                  (trace st ++ [Send (take (Z.to_nat txsize) txbuf)])
        \/ (is_Some rxbuf /\ send_ret dev (sent st) = txsize /\
            st' = Bus (S (sent st)) (S (received st)) (slept st)
                      (trace st ++ [Send (take (Z.to_nat txsize) txbuf); Recv rxsize])))).
  { intros txbuf txsize rxbuf rxsize r rx' st1 Hw [-> Hret].
    apply sps30_write_then_read_cases in Hw
      as [(Hs & Hr & ->)|[(Hs & Hn & Hr & ->)|(Hs & Hn & Hr & ->)]].
    - split; [|by left].
      pose proof (errno_or_EIO (send_ret dev (sent st))) as [Hnz Hc].
      cbv zeta in Hnz, Hc. rewrite <- Hr in Hnz, Hc.
      destruct Hret as [[-> _]|[-> Hret]]; [|tauto].
      destruct Hc as [->|[? ->]]; [right; by left|].
      right. right. split; [assumption|by left].
    - split; [|by left].
      destruct Hret as [[-> _]|[_ Hret]]; [by left|].
      destruct Hret as [->| ->]; tauto.
    - split; [|right; done].
      destruct Hr as [[-> _]|[Hne Hr]].
      + destruct Hret as [[-> _]|[_ Hret]]; [by left|].
        destruct Hret as [->| ->]; tauto.
      + pose proof (errno_or_EIO (recv_ret dev (received st))) as [Hnz Hc].
        cbv zeta in Hnz, Hc. rewrite <- Hr in Hnz, Hc.
        destruct Hret as [[-> _]|[-> Hret]]; [|tauto].
        destruct Hc as [->|[? ->]]; [right; by left|].
        right. right. split; [assumption|by right]. }
  destruct (cmd =? SPS30_START_MEAS) eqn:E1.
  { unfold m_bind at 1. unfold m_bind at 1.
    destruct (sps30_write_then_read dev _ 5 None 0 st) as [[[r rx'] st1]|] eqn:Hw;
      [|discriminate].
    cbn [m_ret fst]. intros H. apply Htail in H.
    destruct (Hwr _ _ _ _ _ _ _ Hw H) as [Hr [Hs|([? ?] & _)]];
      [|discriminate].
    split; [exact Hr|right; left]. eexists. split; [exact Hs|discriminate]. }
  destruct (is_write_cmd cmd) eqn:E2.
  { unfold m_bind at 1. unfold m_bind at 1.
    destruct (sps30_write_then_read dev _ 2 None 0 st) as [[[r rx'] st1]|] eqn:Hw;
      [|discriminate].
    cbn [m_ret fst]. intros H. apply Htail in H.
    destruct (Hwr _ _ _ _ _ _ _ Hw H) as [Hr [Hs|([? ?] & _)]];
      [|discriminate].
    split; [exact Hr|right; left]. eexists. split; [exact Hs|reflexivity]. }
  destruct (is_read_cmd cmd) eqn:E3.
  { unfold m_bind at 1. unfold m_bind at 1.
    destruct (sps30_write_then_read dev _ 2 (Some (cmd_buf cmd)) _ st)
      as [[[r rx'] st1]|] eqn:Hw; [|discriminate].
    cbn [m_ret fst snd]. intros H. apply Htail in H.
    destruct (Hwr _ _ _ _ _ _ _ Hw H) as [Hr [Hs|(_ & Hs2 & Hs)]].
    - split; [exact Hr|right; left]. eexists. split; [exact Hs|reflexivity].
    - split; [exact Hr|right; right]. split; [reflexivity|]. split; [exact Hs2|].
      exact Hs. }
  unfold m_bind at 1. cbn [m_ret]. intros H. apply Htail in H as [-> Hret].
  split; [|left; by split].
  destruct Hret as [[_ ?]|[_ Hret]]; [done|]. destruct Hret as [->| ->]; tauto.
Qed.

(** ** The measurement read: traffic, return values, data *)


Lemma sps30_do_cmd_read_summary dev cmd data size st ret data' st' :
  is_read_cmd cmd = true ->
  sps30_do_cmd dev cmd data size st = Some ((ret, data'), st') ->
  exists evs,
    trace st' = trace st ++ evs /\
    (evs = [Send [u8 (Z.shiftr cmd 8); u8 cmd]]
     \/ evs = [Send [u8 (Z.shiftr cmd 8); u8 cmd];
               Recv (s32 (size + Z.quot size 2))]) /\
    (sent st' <= S (sent st))%nat /\
    (received st' <= S (received st))%nat /\
    slept st' = slept st.
Proof.
  intros Hcmd H. destruct (is_read_cmd_cases cmd Hcmd) as [Hs _].
  apply sps30_do_cmd_inv in H as [_ [[_ Hn]|[(bytes & -> & Hb)|(_ & _ & ->)]]].
  - congruence.
  - rewrite (Hb Hs). eexists. cbn [trace sent received slept].
    repeat split; try lia. by left.
  - eexists. unfold after_read. cbn [trace sent received slept].
    repeat split; try lia. by right.
Qed.

Lemma sps30_do_meas_poll_inv dev fuel :
  forall tries tmp st r st',
    0 <= tries < 2 ^ 31 ->
    sps30_do_meas_poll dev fuel tries tmp st = Some (r, st') ->
    (exists evs, trace st' = trace st ++ evs /\ Forall poll_event evs) /\
    (sent st' <= sent st + Z.to_nat tries)%nat /\
    (received st' <= received st + Z.to_nat tries)%nat /\
    (slept st' <= slept st + Z.to_nat tries)%nat /\
    match r with
    | inl code => code = - EIO
    | inr (t, _) => -1 <= t < tries
    end.
Proof.
  induction fuel as [|fuel IH]; intros tries tmp st r st' Ht; [discriminate|].
  rewrite sps30_do_meas_poll_unfold.
  destruct (tries =? 0) eqn:E0.
  { apply Z.eqb_eq in E0. subst tries. unfold m_ret. intros [= <- <-].
    split; [exists []; by rewrite app_nil_r|].
    change (s32 (0 - 1)) with (-1). repeat split; lia. }
  apply Z.eqb_neq in E0. unfold m_bind at 1.
  destruct (sps30_do_cmd dev SPS30_READ_DATA_READY_FLAG tmp 2 st)
    as [[[ret tmp1] st1]|] eqn:Hcmd; [|discriminate].
  apply sps30_do_cmd_read_summary in Hcmd
    as (evs1 & Htr1 & Hev1 & Hs1 & Hr1 & Hsl1); [|reflexivity].
  assert (Hpe : Forall poll_event evs1).
  { destruct Hev1 as [->| ->].
    - constructor; [left; reflexivity|constructor].
    - constructor; [left; reflexivity|].
      constructor; [right; left; reflexivity|constructor]. }
  destruct (negb (ret =? 0)).
  { unfold m_ret. intros [= <- <-].
    split; [exists evs1; by split|]. repeat split; lia. }
  unfold m_bind at 1, m_lift.
  destruct (tmp1 !! 1%nat) as [flag|]; [|discriminate].
  rewrite (s32_id (tries - 1)) by lia.
  destruct (flag =? 1).
  { unfold m_ret. intros [= <- <-].
    split; [exists evs1; by split|]. repeat split; lia. }
  unfold m_bind at 1, msleep_interruptible. intros H.
  apply IH in H as ((evs2 & Htr2 & Hev2) & Hs2 & Hr2 & Hsl2 & Hres); [|lia].
  cbn [trace sent received slept] in *.
  split.
  - exists (evs1 ++ [Sleep 300] ++ evs2). split.
    + rewrite Htr2, Htr1, <- !app_assoc. reflexivity.
    + apply Forall_app. split; [exact Hpe|]. apply Forall_app. split; [|exact Hev2].
      constructor; [right; right; reflexivity|constructor].
  - repeat split; try lia.
    destruct r as [code|[t tmp']]; [exact Hres|lia].
Qed.

(** Every way [sps30_do_meas] can return. *)
Lemma sps30_do_meas_inv dev data n st ret data' st' :
  sps30_do_meas dev data n st = Some ((ret, data'), st') ->
  (ret <> 0 -> data' = data) /\
  (ret = 0 \/ ret = - EIO \/ ret = - ETIMEDOUT
   \/ ret < 0 /\ exists k, ret = send_ret dev k \/ ret = recv_ret dev k) /\
  (exists polls rest,
     trace st' = trace st ++ polls ++ rest /\
     Forall poll_event polls /\ Forall read_event rest /\
     (length rest <= 2)%nat) /\
  (sent st' <= sent st + 6)%nat /\
  (received st' <= received st + 6)%nat /\
  (slept st' <= slept st + 5)%nat.
Proof.
  unfold sps30_do_meas. cbv zeta. unfold m_bind at 1.
  destruct (sps30_do_meas_poll dev 6 5 (replicate 16 0) st)
    as [[r st1]|] eqn:Hpoll; [|discriminate].
  apply sps30_do_meas_poll_inv in Hpoll
    as ((polls & Htr1 & Hpe) & Hs1 & Hr1 & Hsl1 & Hres); [|lia].
  change (Z.to_nat 5) with 5%nat in *.
  assert (Hstop : forall code,
            code = - EIO \/ code = - ETIMEDOUT ->
            m_ret (code, data) st1 = Some (ret, data', st') ->
            (ret <> 0 -> data' = data) /\
            (ret = 0 \/ ret = - EIO \/ ret = - ETIMEDOUT
             \/ ret < 0 /\ exists k, ret = send_ret dev k \/ ret = recv_ret dev k) /\
            (exists polls rest,
               trace st' = trace st ++ polls ++ rest /\
               Forall poll_event polls /\ Forall read_event rest /\
               (length rest <= 2)%nat) /\
            (sent st' <= sent st + 6)%nat /\
            (received st' <= received st + 6)%nat /\
            (slept st' <= slept st + 5)%nat).
  { intros code Hc. unfold m_ret. intros [= <- <- <-].
    split; [done|]. split; [tauto|]. split; [|lia].
    exists polls, []. rewrite app_nil_r. repeat split; try done.
    cbn [length]. lia. }
  destruct r as [code|[tries tmp]].
  { apply Hstop. by left. }
  destruct (tries =? 0); [apply Hstop; by right|].
  unfold m_bind at 1.
  destruct (sps30_do_cmd dev SPS30_READ_DATA tmp (s32 (4 * n)) st1)
    as [[[r2 tmp2] st2]|] eqn:Hcmd; [|discriminate].
  pose proof Hcmd as Hinv. apply sps30_do_cmd_inv in Hinv as [Hret _].
  apply sps30_do_cmd_read_summary in Hcmd
    as (rest & Htr2 & Hev2 & Hs2 & Hr2 & Hsl2); [|reflexivity].
  assert (Hre : Forall read_event rest /\ (length rest <= 2)%nat).
  { destruct Hev2 as [->| ->]; cbn [length]; (split; [|lia]).
    - constructor; [left; reflexivity|constructor].
    - constructor; [left; reflexivity|].
      constructor; [right; by eexists|constructor]. }
  destruct Hre as [Hre Hlen].
  assert (Htraffic : exists polls rest,
             trace st2 = trace st ++ polls ++ rest /\
             Forall poll_event polls /\ Forall read_event rest /\
             (length rest <= 2)%nat).
  { exists polls, rest. rewrite Htr2, Htr1, <- app_assoc. done. }
  destruct (r2 =? 0) eqn:Er2; cbn [negb].
  - unfold m_bind, m_lift.
    destruct (sps30_do_meas_decode _ _ _ _ _) as [d|]; [|discriminate].
    unfold m_ret. intros [= <- <- <-].
    split; [done|]. split; [by left|]. split; [exact Htraffic|]. lia.
  - apply Z.eqb_neq in Er2. unfold m_ret. intros [= <- <- <-].
    split; [done|]. split; [|split; [exact Htraffic|lia]].
    destruct Hret as [->|[->|[Hneg [->| ->]]]]; [done|tauto| |];
      right; right; right; (split; [exact Hneg|]); eexists; [left|right];
      reflexivity.
Qed.

(** ** The poller, poll by poll *)

(** One data-ready poll that is answered completely. *)
Lemma sps30_do_cmd_poll_answered dev st tmp flag :
  poll_answer dev st 0 flag -> is_byte flag -> (2 <= length tmp)%nat ->
  exists tmp',
    length tmp' = length tmp /\ tmp' !! 1%nat = Some flag /\
    sps30_do_cmd dev SPS30_READ_DATA_READY_FLAG tmp 2 st
    = Some ((0, tmp'),
            Bus (S (sent st)) (S (received st)) (slept st)
                (trace st ++ [Send [0x02; 0x02]; Recv 3])).
Proof.
  intros (Hs & Hr & x & Hx & Hd) Hf Hlen.
  rewrite Nat.add_0_r in Hs, Hr, Hd.
  exists (overlay (unwords [(x, flag)]) tmp). split; [|split].
  - unfold overlay. apply length_write_at. cbn [unwords flat_map length app]. lia.
  - unfold overlay. rewrite lookup_write_at_in; cbn [unwords flat_map length app fst snd];
      [reflexivity|lia|lia].
  - apply (sps30_do_cmd_good_frame dev SPS30_READ_DATA_READY_FLAG tmp st [(x, flag)]);
      try assumption; try reflexivity.
    + cbn [unwords flat_map app fst snd].
      constructor; [assumption|]. constructor; [assumption|constructor].
    + cbn [length]. lia.
Qed.

(** [k] polls answered "not ready" take the loop [k] rounds further. *)
Lemma sps30_do_meas_poll_unready dev k :
  forall fuel tries tmp st,
    Z.of_nat k <= tries < 2 ^ 31 -> (2 <= length tmp)%nat ->
    (forall i, (i < k)%nat ->
       exists f, is_byte f /\ f <> 1 /\ poll_answer dev st i f) ->
    exists tmp',
      length tmp' = length tmp /\
      sps30_do_meas_poll dev (k + fuel) tries tmp st
      = sps30_do_meas_poll dev fuel (tries - Z.of_nat k) tmp'
          (Bus (sent st + k) (received st + k) (slept st + k)
               (trace st ++ unready_polls k)).
Proof.
  induction k as [|k IH]; intros fuel tries tmp st Ht Hlen Hans.
  - exists tmp. split; [reflexivity|]. unfold unready_polls.
    cbn [replicate concat Nat.add]. rewrite app_nil_r, Z.sub_0_r, !Nat.add_0_r.
    by destruct st.
  - destruct (Hans 0%nat ltac:(lia)) as (f & Hf & Hf1 & Hpa).
    destruct (sps30_do_cmd_poll_answered dev st tmp f Hpa Hf Hlen)
      as (tmp1 & Hlen1 & Hflag & Hcmd).
    change (S k + fuel)%nat with (S (k + fuel)).
    rewrite sps30_do_meas_poll_unfold.
    replace (tries =? 0) with false by (symmetry; apply Z.eqb_neq; lia).
    unfold m_bind at 1. rewrite Hcmd. cbn [Z.eqb negb].
    unfold m_bind at 1, m_lift. rewrite Hflag.
    replace (f =? 1) with false by (symmetry; by apply Z.eqb_neq).
    unfold m_bind at 1, msleep_interruptible. cbn [sent received slept trace].
    rewrite (s32_id (tries - 1)) by lia.
    edestruct (IH fuel (tries - 1) tmp1
                 (Bus (S (sent st)) (S (received st)) (S (slept st))
                      ((trace st ++ [Send [2; 2]; Recv 3]) ++ [Sleep 300])))
      as (tmp' & Hlen' & Hpoll).
    + lia.
    + lia.
    + intros i Hi. destruct (Hans (S i) ltac:(lia)) as (g & Hg & Hg1 & Hs & Hr & Hd).
      exists g. split; [exact Hg|]. split; [exact Hg1|].
      unfold poll_answer. cbn [sent received].
      replace (S (sent st) + i)%nat with (sent st + S i)%nat by lia.
      replace (S (received st) + i)%nat with (received st + S i)%nat by lia.
      done.
    + exists tmp'. split; [lia|]. rewrite Hpoll. cbn [sent received slept trace].
      f_equal; [lia|]. f_equal; try lia.
      unfold unready_polls. cbn [replicate concat].
      rewrite <- !app_assoc. reflexivity.
Qed.

(** The poll on which the flag is set ends the loop by [break]. *)
Lemma sps30_do_meas_poll_ready dev k :
  (k <= 4)%nat ->
  forall st,
    (forall i, (i < k)%nat ->
       exists f, is_byte f /\ f <> 1 /\ poll_answer dev st i f) ->
    poll_answer dev st k 1 ->
    exists tmp',
      sps30_do_meas_poll dev 6 5 (replicate 16 0) st
      = Some (inr (4 - Z.of_nat k, tmp'),
              Bus (sent st + k + 1) (received st + k + 1) (slept st + k)
                  (trace st ++ unready_polls k ++ [Send [0x02; 0x02]; Recv 3])).
Proof.
  intros Hk st Hun Hready.
  destruct (sps30_do_meas_poll_unready dev k (S (5 - k)) 5 (replicate 16 0) st)
    as (tmp1 & Hlen1 & Hpoll); [lia|cbn; lia|exact Hun|].
  replace (k + S (5 - k))%nat with 6%nat in Hpoll by lia.
  rewrite Hpoll, sps30_do_meas_poll_unfold.
  replace (5 - Z.of_nat k =? 0) with false by (symmetry; apply Z.eqb_neq; lia).
  edestruct (sps30_do_cmd_poll_answered dev
               (Bus (sent st + k) (received st + k) (slept st + k)
                    (trace st ++ unready_polls k)) tmp1 1)
    as (tmp2 & Hlen2 & Hflag & Hcmd).
  - destruct Hready as (Hs & Hr & Hd). unfold poll_answer. cbn [sent received].
    rewrite !Nat.add_0_r. done.
  - unfold is_byte. lia.
  - rewrite Hlen1. cbn. lia.
  - unfold m_bind at 1. rewrite Hcmd. cbn [Z.eqb negb].
    unfold m_bind at 1, m_lift. rewrite Hflag. cbn [Z.eqb Pos.eqb].
    rewrite (s32_id (5 - Z.of_nat k - 1)) by lia.
    exists tmp2. unfold m_ret. cbn [sent received slept trace].
    f_equal. f_equal; [f_equal; f_equal; lia|].
    f_equal; try lia. by rewrite <- app_assoc.
Qed.

(** Five polls answered "not ready" end the loop by its test, with
    [tries] at -1. *)
Lemma sps30_do_meas_poll_exhausted dev st :
  (forall i, (i < 5)%nat ->
     exists f, is_byte f /\ f <> 1 /\ poll_answer dev st i f) ->
  exists tmp',
    sps30_do_meas_poll dev 6 5 (replicate 16 0) st
    = Some (inr (-1, tmp'),
            Bus (sent st + 5) (received st + 5) (slept st + 5)
                (trace st ++ unready_polls 5)).
Proof.
  intros Hun.
  destruct (sps30_do_meas_poll_unready dev 5 1 5 (replicate 16 0) st)
    as (tmp1 & Hlen1 & Hpoll); [lia|cbn; lia|exact Hun|].
  change (5 + 1)%nat with 6%nat in Hpoll. rewrite Hpoll.
  exists tmp1. reflexivity.
Qed.

(** Once the loop is left with [tries] other than 0, the read-data
    command is the next thing on the bus. *)
Lemma sps30_do_meas_after_poll dev data n st tries tmp st1 r st' :
  sps30_do_meas_poll dev 6 5 (replicate 16 0) st = Some (inr (tries, tmp), st1) ->
  tries <> 0 ->
  sps30_do_meas dev data n st = Some (r, st') ->
  exists rest, trace st' = trace st1 ++ Send [0x03; 0x00] :: rest.
Proof.
  intros Hpoll Ht. unfold sps30_do_meas. cbv zeta. unfold m_bind at 1.
  rewrite Hpoll.
  replace (tries =? 0) with false by (symmetry; by apply Z.eqb_neq).
  unfold m_bind at 1.
  destruct (sps30_do_cmd dev SPS30_READ_DATA tmp (s32 (4 * n)) st1)
    as [[[r2 tmp2] st2]|] eqn:Hcmd; [|discriminate].
  apply sps30_do_cmd_read_summary in Hcmd
    as (evs & Htr & Hev & _); [|reflexivity].
  assert (Htr2 : exists rest, trace st2 = trace st1 ++ Send [0x03; 0x00] :: rest).
  { destruct Hev as [->| ->]; eexists; rewrite Htr; reflexivity. }
  destruct (negb (r2 =? 0)).
  - unfold m_ret. intros [= <- <-]. exact Htr2.
  - unfold m_bind, m_lift.
    destruct (sps30_do_meas_decode _ _ _ _ _) as [d|]; [|discriminate].
    unfold m_ret. intros [= <- <-]. exact Htr2.
Qed.

(** ** The checksum is linear, and what that detects *)

Lemma land_lxor_distr a b c :
  Z.land (Z.lxor a b) c = Z.lxor (Z.land a c) (Z.land b c).
Proof.
  apply Z.bits_inj'. intros n _.
  rewrite Z.land_spec, !Z.lxor_spec, !Z.land_spec.
  destruct (Z.testbit a n), (Z.testbit b n), (Z.testbit c n); reflexivity.
Qed.

Lemma u8_lxor a b : u8 (Z.lxor a b) = Z.lxor (u8 a) (u8 b).
Proof. apply land_lxor_distr. Qed.

Lemma lxor_swap a b p q :
  Z.lxor (Z.lxor a b) (Z.lxor p q) = Z.lxor (Z.lxor a p) (Z.lxor b q).
Proof.
  apply Z.bits_inj'. intros n _. rewrite !Z.lxor_spec.
  destruct (Z.testbit a n), (Z.testbit b n), (Z.testbit p n), (Z.testbit q n);
    reflexivity.
Qed.

Lemma crc8_shift_bit_lxor poly a b :
  crc8_shift_bit poly (Z.lxor a b)
  = Z.lxor (crc8_shift_bit poly a) (crc8_shift_bit poly b).
Proof.
  unfold crc8_shift_bit. rewrite <- u8_lxor, Z.lxor_spec, Z.shiftl_lxor.
  f_equal. rewrite <- lxor_swap. f_equal.
  destruct (Z.testbit a 7), (Z.testbit b 7); cbn [xorb];
    rewrite ?Z.lxor_nilpotent, ?Z.lxor_0_r, ?Z.lxor_0_l; reflexivity.
Qed.

Lemma crc8_iter_lxor poly n a b :
  Nat.iter n (crc8_shift_bit poly) (Z.lxor a b)
  = Z.lxor (Nat.iter n (crc8_shift_bit poly) a)
           (Nat.iter n (crc8_shift_bit poly) b).
Proof.
  induction n as [|n IH]; [reflexivity|].
  rewrite !iter_S, IH. apply crc8_shift_bit_lxor.
Qed.

Lemma crc8_byte_msb_lxor poly c e b d :
  crc8_byte_msb poly (Z.lxor c e) (Z.lxor b d)
  = Z.lxor (crc8_byte_msb poly c b) (crc8_byte_msb poly e d).
Proof.
  unfold crc8_byte_msb. rewrite lxor_swap, u8_lxor. apply crc8_iter_lxor.
Qed.

(** Flipping bits of a word changes its checksum by the syndrome of the
    flipped bits. *)
Lemma fold_left_nil {A B} (f : A -> B -> A) a : fold_left f [] a = a.
Proof. reflexivity. Qed.

Lemma checksum_lxor b0 b1 d0 d1 :
  checksum [Z.lxor b0 d0; Z.lxor b1 d1]
  = Z.lxor (checksum [b0; b1]) (syndrome d0 d1).
Proof.
  unfold checksum, syndrome. rewrite !fold_left_cons, !fold_left_nil.
  rewrite <- crc8_byte_msb_lxor. f_equal.
  rewrite <- crc8_byte_msb_lxor. f_equal.
Qed.

Lemma lxor_cancel_l c x y : Z.lxor c x = Z.lxor c y -> x = y.
Proof.
  intros H. apply (f_equal (Z.lxor c)) in H.
  by rewrite <- !Z.lxor_assoc, Z.lxor_nilpotent, !Z.lxor_0_l in H.
Qed.

Lemma lxor_byte a b : is_byte a -> is_byte b -> is_byte (Z.lxor a b).
Proof.
  intros Ha Hb. unfold is_byte.
  rewrite <- (u8_id a), <- (u8_id b), <- u8_lxor by assumption.
  apply u8_range.
Qed.

Lemma flip_sets_complete l : flip_set l = true -> In l flip_sets.
Proof.
  unfold flip_set, flip_sets.
  destruct l as [|i [|j [|k [|]]]]; try discriminate; intros H.
  - apply Nat.ltb_lt in H. apply in_or_app. left.
    apply in_map_iff. exists i. split; [reflexivity|apply in_seq; lia].
  - apply andb_true_iff in H as [H1 H2].
    apply Nat.ltb_lt in H1. apply Nat.ltb_lt in H2.
    apply in_or_app. right. apply in_or_app. left.
    apply in_flat_map. exists i. split; [apply in_seq; lia|].
    apply in_map_iff. exists j. split; [reflexivity|apply in_seq; lia].
  - apply andb_true_iff in H as [H H3]. apply andb_true_iff in H as [H1 H2].
    apply Nat.ltb_lt in H1. apply Nat.ltb_lt in H2. apply Nat.ltb_lt in H3.
    apply in_or_app. right. apply in_or_app. right.
    apply in_flat_map. exists i. split; [apply in_seq; lia|].
    apply in_flat_map. exists j. split; [apply in_seq; lia|].
    apply in_map_iff. exists k. split; [reflexivity|apply in_seq; lia].
Qed.

Lemma flip_sets_detected : forallb detected flip_sets = true.
Proof. vm_compute. reflexivity. Qed.

Lemma negb_eqb_neq x y : negb (x =? y) = true -> x <> y.
Proof. intros H. apply negb_true_iff in H. by apply Z.eqb_neq. Qed.

Lemma detected_neq l :
  detected l = true ->
  syndrome (u8 (Z.shiftr (flip_mask l) 16)) (u8 (Z.shiftr (flip_mask l) 8))
  <> u8 (flip_mask l).
Proof. unfold detected. apply negb_eqb_neq. Qed.

(** Up to three flipped bits in a word and its checksum never cancel. *)
Lemma flip_set_detected l :
  flip_set l = true ->
  syndrome (u8 (Z.shiftr (flip_mask l) 16)) (u8 (Z.shiftr (flip_mask l) 8))
  <> u8 (flip_mask l).
Proof.
  intros H. apply detected_neq.
  exact (proj1 (forallb_forall detected flip_sets) flip_sets_detected l
               (flip_sets_complete l H)).
Qed.

(** ** The callbacks *)

(** Bus code whose trace grows by [evs] logs [evs]. *)
Lemma on_bus_Some {A} (m : M A) h a b evs :
  m (hbus h) = Some (a, b) ->
  trace b = trace (hbus h) ++ evs ->
  on_bus m h = Some (a, Host b (locked h) (hlog h ++ map OnBus evs)).
Proof.
  intros Hm Htr. unfold on_bus. rewrite Hm, Htr.
  rewrite drop_app_length. reflexivity.
Qed.

Lemma on_bus_inv {A} (m : M A) h a h' :
  on_bus m h = Some (a, h') ->
  exists b, m (hbus h) = Some (a, b) /\ hbus h' = b /\ locked h' = locked h /\
            hlog h' = hlog h ++ map OnBus (drop (length (trace (hbus h))) (trace b)).
Proof.
  unfold on_bus. destruct (m (hbus h)) as [[a' b]|]; [|discriminate].
  intros [= <- <-]. exists b. done.
Qed.

(** The traces only grow. *)
Lemma sps30_do_cmd_trace dev cmd data size st r st' :
  sps30_do_cmd dev cmd data size st = Some (r, st') ->
  exists evs, trace st' = trace st ++ evs.
Proof.
  destruct r as [ret data']. intros H.
  apply sps30_do_cmd_inv in H as [_ [[-> _]|[(bytes & -> & _)|(_ & _ & ->)]]].
  - exists []. by rewrite app_nil_r.
  - by eexists.
  - unfold after_read. by eexists.
Qed.

Lemma sps30_do_meas_trace dev data n st r st' :
  sps30_do_meas dev data n st = Some (r, st') ->
  exists evs, trace st' = trace st ++ evs.
Proof.
  destruct r as [ret data']. intros H.
  apply sps30_do_meas_inv in H as (_ & _ & (polls & rest & Htr & _) & _).
  by eexists.
Qed.

(** The decoded values a successful measurement read leaves. *)
Lemma sps30_do_meas_success dev data n st data' st' :
  n < 2 ^ 31 ->
  sps30_do_meas dev data n st = Some ((0, data'), st') ->
  length data' = length data /\
  (forall k, 0 <= k < n ->
     exists v, data' !! Z.to_nat k = Some v /\ 0 <= v <= 300000) /\
  (forall k : nat, n <= Z.of_nat k -> data' !! k = data !! k).
Proof.
  intros Hn. unfold sps30_do_meas. cbv zeta. unfold m_bind at 1.
  destruct (sps30_do_meas_poll dev 6 5 (replicate 16 0) st)
    as [[[code|[tries tmp]] st1]|] eqn:Hpoll; [| |discriminate].
  { apply sps30_do_meas_poll_return in Hpoll as ->. discriminate. }
  destruct (tries =? 0); [discriminate|].
  unfold m_bind at 1.
  destruct (sps30_do_cmd dev SPS30_READ_DATA tmp (s32 (4 * n)) st1)
    as [[[ret tmp2] st2]|]; [|discriminate].
  destruct (ret =? 0) eqn:Hret; cbn [negb].
  2:{ unfold m_ret. intros [= -> _ _]. discriminate. }
  unfold m_bind, m_lift.
  destruct (sps30_do_meas_decode (Z.to_nat n) tmp2 n 0 data) as [d|] eqn:Hdec;
    [|discriminate].
  unfold m_ret. intros [= -> _].
  apply sps30_do_meas_decode_spec in Hdec as (Hlen & Hin & Hout); [|lia|lia].
  split; [exact Hlen|]. split.
  - intros k Hk. destruct (Hin k Hk) as (v & Hv & _ & Hr). by exists v.
  - intros k Hk. apply Hout. lia.
Qed.

(** The decoding loop reads [data] nowhere: two arrays of one length
    come out with the same decoded cells. *)
Lemma sps30_do_meas_decode_indep fuel tmp size :
  size < 2 ^ 31 ->
  forall i d1 d2,
    0 <= i -> length d1 = length d2 ->
    match sps30_do_meas_decode fuel tmp size i d1,
          sps30_do_meas_decode fuel tmp size i d2 with
    | Some d1', Some d2' =>
        length d1' = length d2' /\
        (forall k : nat, i <= Z.of_nat k < size -> d1' !! k = d2' !! k) /\
        (forall k : nat, Z.of_nat k < i -> d1' !! k = d1 !! k /\ d2' !! k = d2 !! k)
    | None, None => True
    | _, _ => False
    end.
Proof.
  intros Hint. induction fuel as [|fuel IH]; intros i d1 d2 Hi Hlen.
  - cbn [sps30_do_meas_decode]. destruct (i <? size) eqn:E; [done|].
    apply Z.ltb_ge in E. split; [exact Hlen|]. split; [intros; lia|done].
  - rewrite !sps30_do_meas_decode_unfold. destruct (i <? size) eqn:E.
    2:{ apply Z.ltb_ge in E. split; [exact Hlen|]. split; [intros; lia|done]. }
    apply Z.ltb_lt in E.
    destruct (value (sps30_float_to_int_clamped (drop (Z.to_nat (4 * i)) tmp)))
      as [v|]; [|done].
    cbn [mbind option_bind]. unfold store. rewrite <- Hlen.
    destruct (Z.to_nat i <? length d1)%nat eqn:El; [|done].
    apply Nat.ltb_lt in El. cbn [mbind option_bind].
    rewrite (s32_id (i + 1)) by lia.
    specialize (IH (i + 1) (<[Z.to_nat i := v]> d1) (<[Z.to_nat i := v]> d2)
                   ltac:(lia)).
    rewrite !length_insert in IH. specialize (IH Hlen).
    destruct (sps30_do_meas_decode fuel tmp size (i + 1) (<[Z.to_nat i := v]> d1))
      as [d1'|]; destruct (sps30_do_meas_decode fuel tmp size (i + 1)
                             (<[Z.to_nat i := v]> d2)) as [d2'|]; try done.
    destruct IH as (Hl & Hin & Hout). split; [exact Hl|]. split.
    + intros k Hk. destruct (Z.eq_dec (Z.of_nat k) i) as [Heq|Hne].
      * destruct (Hout k ltac:(lia)) as [-> ->].
        replace k with (Z.to_nat i) by lia.
        rewrite !list_lookup_insert_eq by lia. reflexivity.
      * apply Hin. lia.
    + intros k Hk. destruct (Hout k ltac:(lia)) as [-> ->].
      rewrite !list_lookup_insert_ne by lia. done.
Qed.

(** A measurement read does not depend on what the caller's array holds
    when it is called. *)
Lemma sps30_do_meas_indep dev n st d1 d2 :
  n < 2 ^ 31 -> length d1 = length d2 ->
  match sps30_do_meas dev d1 n st, sps30_do_meas dev d2 n st with
  | Some ((r1, d1'), st1), Some ((r2, d2'), st2) =>
      r1 = r2 /\ st1 = st2 /\
      (r1 = 0 -> forall k : nat, Z.of_nat k < n -> d1' !! k = d2' !! k)
  | None, None => True
  | _, _ => False
  end.
Proof.
  intros Hn Hlen. unfold sps30_do_meas, m_bind, m_lift, m_ret. cbv zeta.
  destruct (sps30_do_meas_poll dev 6 5 (replicate 16 0) st)
    as [[[code|[tries tmp]] st1]|] eqn:Hpoll; [| |exact I].
  { apply sps30_do_meas_poll_return in Hpoll as ->.
    split; [reflexivity|]. split; [reflexivity|]. discriminate. }
  destruct (tries =? 0).
  { split; [reflexivity|]. split; [reflexivity|]. discriminate. }
  destruct (sps30_do_cmd dev SPS30_READ_DATA tmp (s32 (4 * n)) st1)
    as [[[ret tmp2] st2]|]; [|exact I].
  destruct (ret =? 0) eqn:Hret; cbn [negb].
  2:{ split; [reflexivity|]. split; [reflexivity|].
      intros ->. discriminate. }
  pose proof (sps30_do_meas_decode_indep (Z.to_nat n) tmp2 n Hn 0 d1 d2
                ltac:(lia) Hlen) as Hdec.
  destruct (sps30_do_meas_decode (Z.to_nat n) tmp2 n 0 d1) as [d1'|];
    destruct (sps30_do_meas_decode (Z.to_nat n) tmp2 n 0 d2) as [d2'|]; try done.
  split; [reflexivity|]. split; [reflexivity|].
  intros _ k Hk. apply Hdec. lia.
Qed.

(** Bus code run between [mutex_lock] and [mutex_unlock]. *)
Lemma locked_region {A B} (m : M A) (k : A -> HM B) h :
  locked h = false ->
  (_ <- mutex_lock ;; r <- on_bus m ;; _ <- mutex_unlock ;; k r)%host h
  = match m (hbus h) with
    | Some (a, b) =>
        k a (Host b false
                  (hlog h ++ [MutexLock]
                   ++ map OnBus (drop (length (trace (hbus h))) (trace b))
                   ++ [MutexUnlock]))
    | None => None
    end.
Proof.
  intros Hl. unfold h_bind, mutex_lock, on_bus, mutex_unlock. rewrite Hl.
  cbn [hbus locked hlog]. destruct (m (hbus h)) as [[a b]|]; [|reflexivity].
  cbn [hbus locked hlog]. rewrite <- !app_assoc. reflexivity.
Qed.

Lemma sps30_read_raw_processed_eq dev stack chan n h :
  type chan = IIO_MASSCONCENTRATION -> channels_read (channel2 chan) = Some n ->
  locked h = false ->
  sps30_read_raw dev stack chan IIO_CHAN_INFO_PROCESSED h
  = match sps30_do_meas dev stack n (hbus h) with
    | Some (r, b) =>
        read_raw_result chan r
          (Host b false
                (hlog h ++ [MutexLock]
                 ++ map OnBus (drop (length (trace (hbus h))) (trace b))
                 ++ [MutexUnlock]))
    | None => None
    end.
Proof.
  intros Ht Hc Hl. unfold sps30_read_raw. rewrite Ht. cbv zeta.
  destruct (channel2 chan); try discriminate; injection Hc as <-;
    apply (locked_region _ (read_raw_result chan) h Hl).
Qed.

Lemma sps30_channels_cases chan :
  In chan sps30_channels ->
  (type chan = IIO_TIMESTAMP)
  \/ exists n, type chan = IIO_MASSCONCENTRATION /\
               channels_read (channel2 chan) = Some n /\
               address chan = n - 1 /\ 1 <= n <= 4.
Proof.
  unfold sps30_channels. cbn [In].
  intros [<-|[<-|[<-|[<-|[<-|[]]]]]]; [right|right|right|right|by left];
    cbn [SPS30_CHAN type channel2 address channels_read];
    eexists; (split; [reflexivity|]); (split; [reflexivity|]);
    unfold PM1, PM2P5, PM4, PM10; lia.
Qed.

Lemma read_raw_result_inv chan ret data h r out h' :
  read_raw_result chan (ret, data) h = Some ((r, out), h') ->
  h' = h /\
  (ret <> 0 /\ r = ret /\ out = None
   \/ ret = 0 /\ r = IIO_VAL_INT_PLUS_MICRO /\
      exists d, data !! Z.to_nat (address chan) = Some d /\
                out = Some (Z.quot d 100, s32 (Z.rem d 100 * 10000))).
Proof.
  unfold read_raw_result. destruct (ret =? 0) eqn:E; cbn [negb].
  - apply Z.eqb_eq in E. unfold h_bind, h_lift.
    destruct (data !! Z.to_nat (address chan)) as [d|]; [|discriminate].
    unfold h_ret. intros [= <- <- <-]. split; [reflexivity|]. right.
    split; [exact E|]. split; [reflexivity|]. by exists d.
  - apply Z.eqb_neq in E. unfold h_ret. intros [= <- <- <-].
    split; [reflexivity|]. left. done.
Qed.

Lemma transfer_result_cases r size :
  r = size /\ transfer_result r size = 0
  \/ r <> size /\ transfer_result r size <> 0 /\ transfer_result r size < 0.
Proof.
  unfold transfer_result, EIO. destruct (r =? size) eqn:E.
  - apply Z.eqb_eq in E. by left.
  - apply Z.eqb_neq in E. right. split; [exact E|].
    destruct (r <? 0) eqn:E'; [apply Z.ltb_lt in E'|]; lia.
Qed.

Lemma transfer_result_eqb r size :
  (transfer_result r size =? 0) = (r =? size).
Proof.
  destruct (transfer_result_cases r size) as [[-> ->]|(Hne & Hr & _)].
  - by rewrite !Z.eqb_refl.
  - apply Z.eqb_neq in Hne, Hr. by rewrite Hne, Hr.
Qed.

(** A command without response, sent with [size] 0: one message of the
    two opcode bytes, and the outcome of the send. *)
Lemma sps30_do_cmd_write dev cmd data st :
  is_write_cmd cmd = true ->
  sps30_do_cmd dev cmd data 0 st
  = Some ((transfer_result (send_ret dev (sent st)) 2, data), after_send cmd st).
Proof.
  intros Hcmd.
  assert (Hs : (cmd =? SPS30_START_MEAS) = false).
  { unfold is_write_cmd in Hcmd. rewrite !orb_true_iff, !Z.eqb_eq in Hcmd.
    destruct Hcmd as [[-> | ->] | ->]; reflexivity. }
  unfold sps30_do_cmd. rewrite Hs, Hcmd.
  unfold m_bind at 1. unfold m_bind at 1.
  unfold sps30_write_then_read, m_bind at 1.
  unfold i2c_master_send at 1.
  pose proof (transfer_result_eqb (send_ret dev (sent st)) 2) as He.
  unfold transfer_result in *.
  destruct (send_ret dev (sent st) =? 2) eqn:E; cbn [negb m_ret fst snd].
  - reflexivity.
  - rewrite He. reflexivity.
Qed.

(** The start-measurement command: one message of five bytes. *)
Lemma sps30_do_cmd_start dev data st :
  sps30_do_cmd dev SPS30_START_MEAS data 0 st
  = Some ((transfer_result (send_ret dev (sent st)) 5, data),
          Bus (S (sent st)) (received st) (slept st)
              (trace st ++ [Send start_meas_bytes])).
Proof.
  unfold sps30_do_cmd.
  change (SPS30_START_MEAS =? SPS30_START_MEAS) with true. cbv zeta.
  unfold m_bind at 1. unfold m_bind at 1.
  unfold sps30_write_then_read, m_bind at 1.
  unfold i2c_master_send at 1.
  pose proof (transfer_result_eqb (send_ret dev (sent st)) 5) as He.
  unfold transfer_result in *.
  destruct (send_ret dev (sent st) =? 5) eqn:E; cbn [negb m_ret fst snd].
  - reflexivity.
  - rewrite He. reflexivity.
Qed.

(** [sps30_do_cmd] asks the sensor for the outcome of one send and of
    one receive, and for nothing else. *)
Lemma sps30_do_cmd_ext dev dev' cmd data size st :
  send_ret dev (sent st) = send_ret dev' (sent st) ->
  recv_ret dev (received st) = recv_ret dev' (received st) ->
  recv_data dev (received st) = recv_data dev' (received st) ->
  sps30_do_cmd dev cmd data size st = sps30_do_cmd dev' cmd data size st.
Proof.
  intros Hs Hr Hd.
  assert (Hw : forall tx n rx m,
             sps30_write_then_read dev tx n rx m st
             = sps30_write_then_read dev' tx n rx m st).
  { intros tx n rx m. unfold sps30_write_then_read, m_bind, i2c_master_send.
    rewrite Hs. destruct (negb (send_ret dev' (sent st) =? n)); [reflexivity|].
    destruct rx as [rx|]; [|reflexivity].
    unfold i2c_master_recv. cbn [sent received slept trace].
    rewrite Hr, Hd. reflexivity. }
  unfold sps30_do_cmd, m_bind. cbv zeta.
  destruct (cmd =? SPS30_START_MEAS); [cbv beta iota; by rewrite Hw|].
  destruct (is_write_cmd cmd); [cbv beta iota; by rewrite Hw|].
  destruct (is_read_cmd cmd); [cbv beta iota; by rewrite Hw|reflexivity].
Qed.

(** Every way a read command can return. *)
Lemma sps30_do_cmd_read_cases dev cmd data size st ret data' st' :
  is_read_cmd cmd = true ->
  0 <= s32 (size + Z.quot size 2) <= SPS30_MAX_READ_SIZE ->
  sps30_do_cmd dev cmd data size st = Some ((ret, data'), st') ->
  (ret <> 0 /\ data' = data /\ st' = after_send cmd st)
  \/ (st' = after_read cmd (s32 (size + Z.quot size 2)) st /\
      send_ret dev (sent st) = 2 /\
      (ret <> 0
       \/ ret = 0 /\ recv_ret dev (received st) = s32 (size + Z.quot size 2) /\
          sps30_do_cmd_strip (Z.to_nat (s32 (size + Z.quot size 2)))
            (overlay (map u8 (take (Z.to_nat (s32 (size + Z.quot size 2)))
                                   (recv_data dev (received st))))
                     (cmd_buf cmd))
            (s32 (size + Z.quot size 2)) 0 data 0 = Some (0, data'))).
Proof.
  intros Hcmd Hsz.
  destruct (Z.eq_dec (send_ret dev (sent st)) 2) as [Hs|Hs].
  2:{ rewrite sps30_do_cmd_send_fail by assumption. intros [= <- <- <-].
      left. split; [|done].
      destruct (errno_or_EIO (send_ret dev (sent st))) as [H _]. exact H. }
  destruct (Z.eq_dec (recv_ret dev (received st)) (s32 (size + Z.quot size 2)))
    as [Hr|Hr].
  2:{ rewrite sps30_do_cmd_recv_fail by assumption. intros [= <- <- <-].
      right. split; [reflexivity|]. split; [exact Hs|]. left.
      destruct (errno_or_EIO (recv_ret dev (received st))) as [H _]. exact H. }
  rewrite sps30_do_cmd_read by assumption.
  destruct (sps30_do_cmd_strip _ _ _ _ _ _) as [[r d]|] eqn:Hstrip; [|discriminate].
  intros [= <- <- <-]. right. split; [reflexivity|]. split; [exact Hs|].
  destruct (Z.eq_dec r 0) as [->|Hne]; [right|by left]. done.
Qed.

(** The validation loop leaves the length of the caller's buffer. *)
Lemma sps30_do_cmd_strip_length fuel buf size :
  forall i data j ret data',
    sps30_do_cmd_strip fuel buf size i data j = Some (ret, data') ->
    length data' = length data.
Proof.
  induction fuel as [|fuel IH]; intros i data j ret data'.
  - cbn [sps30_do_cmd_strip]. destruct (i <? size); [discriminate|].
    by intros [= _ <-].
  - rewrite sps30_do_cmd_strip_unfold.
    destruct (i <? size); [|by intros [= _ <-]].
    destruct (buf !! Z.to_nat i) as [b0|]; [|discriminate].
    destruct (buf !! Z.to_nat (i + 1)) as [b1|]; [|discriminate].
    destruct (buf !! Z.to_nat (i + 2)) as [c|]; [|discriminate].
    cbn [mbind option_bind].
    destruct (negb _); [by intros [= _ <-]|].
    destruct (store data j b0) as [d1|] eqn:H1; cbn [mbind option_bind];
      [|discriminate].
    destruct (store d1 (S j) b1) as [d2|] eqn:H2; cbn [mbind option_bind];
      [|discriminate].
    apply store_Some in H1 as [_ ->]. apply store_Some in H2 as [_ ->].
    intros H. apply IH in H. by rewrite !length_insert in H.
Qed.

(** What [%s] prints: the bytes before the first NUL of the buffer. *)
Lemma c_string_spec buf s :
  c_string buf = Some s ->
  ~ In 0 s /\ (length s < length buf)%nat /\ exists rest, buf = s ++ 0 :: rest.
Proof.
  revert s. induction buf as [|b buf IH]; intros s; cbn [c_string]; [discriminate|].
  destruct (b =? 0) eqn:E.
  - apply Z.eqb_eq in E as ->. intros [= <-]. cbn [length In app].
    split; [tauto|]. split; [lia|by eexists].
  - apply Z.eqb_neq in E. destruct (c_string buf) as [s'|]; [|discriminate].
    cbn [mbind option_bind]. intros [= <-].
    destruct (IH s' eq_refl) as (Hin & Hlen & rest & ->).
    cbn [length In app]. split; [intros [?|?]; [lia|tauto]|].
    split; [lia|by eexists].
Qed.

Lemma c_string_none buf :
  ~ In 0 buf -> c_string buf = None.
Proof.
  induction buf as [|b buf IH]; cbn [c_string In]; [reflexivity|].
  intros H. destruct (b =? 0) eqn:E; [apply Z.eqb_eq in E; tauto|].
  rewrite IH by tauto. reflexivity.
Qed.

Lemma h_bind_inv {A B} (m : HM A) (f : A -> HM B) h b h' :
  h_bind m f h = Some (b, h') ->
  exists a h1, m h = Some (a, h1) /\ f a h1 = Some (b, h').
Proof.
  unfold h_bind. destruct (m h) as [[a h1]|]; [|discriminate].
  intros H. by exists a, h1.
Qed.

(** Commands without response, run on the host. *)
Lemma on_bus_write dev cmd data h :
  is_write_cmd cmd = true ->
  on_bus (sps30_do_cmd dev cmd data 0) h
  = Some ((transfer_result (send_ret dev (sent (hbus h))) 2, data),
          Host (after_send cmd (hbus h)) (locked h)
               (hlog h ++ [OnBus (Send [u8 (Z.shiftr cmd 8); u8 cmd])])).
Proof.
  intros Hcmd.
  apply (on_bus_Some _ h _ _ [Send [u8 (Z.shiftr cmd 8); u8 cmd]]).
  - by apply sps30_do_cmd_write.
  - reflexivity.
Qed.

Lemma on_bus_start dev data h :
  on_bus (sps30_do_cmd dev SPS30_START_MEAS data 0) h
  = Some ((transfer_result (send_ret dev (sent (hbus h))) 5, data),
          Host (Bus (S (sent (hbus h))) (received (hbus h)) (slept (hbus h))
                    (trace (hbus h) ++ [Send start_meas_bytes]))
               (locked h) (hlog h ++ [OnBus (Send start_meas_bytes)])).
Proof.
  apply (on_bus_Some _ h _ _ [Send start_meas_bytes]).
  - apply sps30_do_cmd_start.
  - reflexivity.
Qed.

Lemma on_bus_ext {A} (m m' : M A) h :
  m (hbus h) = m' (hbus h) -> on_bus m h = on_bus m' h.
Proof. unfold on_bus. by intros ->. Qed.

Lemma h_bind_Some {A B} (m : HM A) (f : A -> HM B) h a h1 :
  m h = Some (a, h1) -> h_bind m f h = f a h1.
Proof. unfold h_bind. by intros ->. Qed.

Lemma h_bind_mutex_init {B} (f : unit -> HM B) h :
  h_bind mutex_init f h = f tt (Host (hbus h) false (hlog h)).
Proof. reflexivity. Qed.

Lemma h_bind_log {B} e (f : unit -> HM B) h :
  h_bind (h_log e) f h = f tt (Host (hbus h) (locked h) (hlog h ++ [e])).
Proof. reflexivity. Qed.

Lemma h_bind_write {B} dev cmd data (f : Z * list Z -> HM B) h :
  is_write_cmd cmd = true ->
  h_bind (on_bus (sps30_do_cmd dev cmd data 0)) f h
  = f (transfer_result (send_ret dev (sent (hbus h))) 2, data)
      (Host (after_send cmd (hbus h)) (locked h)
            (hlog h ++ [OnBus (Send [u8 (Z.shiftr cmd 8); u8 cmd])])).
Proof. intros Hcmd. apply h_bind_Some. by apply on_bus_write. Qed.

Lemma h_bind_start {B} dev data (f : Z * list Z -> HM B) h :
  h_bind (on_bus (sps30_do_cmd dev SPS30_START_MEAS data 0)) f h
  = f (transfer_result (send_ret dev (sent (hbus h))) 5, data)
      (Host (Bus (S (sent (hbus h))) (received (hbus h)) (slept (hbus h))
                 (trace (hbus h) ++ [Send start_meas_bytes]))
            (locked h) (hlog h ++ [OnBus (Send start_meas_bytes)])).
Proof. apply h_bind_Some. apply on_bus_start. Qed.

(** [sps30_probe] once the adapter and the allocation are good: the
    reset, the pause and the nudge, and then the part [probe_serial]
    that depends on the bus state [nudged]. *)
Lemma sps30_probe_reset dev fw stack h :
  i2c_check_functionality fw = true -> devm_iio_device_alloc fw = true ->
  sps30_probe dev fw stack h
  = let r := transfer_result (send_ret dev (sent (hbus h))) 2 in
    let h1 := Host (after_send SPS30_RESET (hbus h)) false
                   (hlog h ++ [OnBus (Send [0xD3; 0x04])]) in
    if negb (r =? 0) then Some (r, h1)
    else
      let h2 := Host (after_send SPS30_STOP_MEAS (after_send SPS30_RESET (hbus h)))
                     false
                     (hlog h ++ [OnBus (Send [0xD3; 0x04]); Msleep 300;
                                 OnBus (Send [0x01; 0x04])]) in
      (r <- on_bus (sps30_do_cmd dev SPS30_READ_SERIAL stack 32) ;;
       if negb (fst r =? 0) then h_ret (fst r)
       else
         s <- h_lift (c_string (snd r)) ;;
         _ <- h_log (DevInfoSerial s) ;;
         r <- on_bus (sps30_do_cmd dev SPS30_START_MEAS [] 0) ;;
         if negb (fst r =? 0) then h_ret (fst r)
         else
           ret <- devm_add_action_or_reset (devm_add_action fw)
                                           (sps30_stop_meas dev) ;;
           if negb (ret =? 0) then h_ret ret
           else
             let ret := devm_iio_triggered_buffer_setup fw in
             if negb (ret =? 0) then h_ret ret
             else h_ret (devm_iio_device_register fw))%host h2.
Proof.
  intros Hf Ha. unfold sps30_probe. rewrite Hf, Ha. cbn [negb]. cbv zeta.
  rewrite h_bind_mutex_init. rewrite h_bind_write by reflexivity.
  cbn [fst hbus locked hlog].
  destruct (negb (transfer_result (send_ret dev (sent (hbus h))) 2 =? 0));
    [reflexivity|].
  rewrite h_bind_log. rewrite h_bind_write by reflexivity.
  cbn [fst hbus locked hlog]. rewrite <- !app_assoc. reflexivity.
Qed.

(** [sps30_probe] as a function of what its calls return. *)
Lemma sps30_probe_eq dev fw stack h :
  sps30_probe dev fw stack h
  = if negb (i2c_check_functionality fw) then Some (- EOPNOTSUPP, h)
    else if negb (devm_iio_device_alloc fw) then Some (- ENOMEM, h)
    else
      let r := transfer_result (send_ret dev (sent (hbus h))) 2 in
      let l1 := hlog h ++ [OnBus (Send [0xD3; 0x04])] in
      let b1 := after_send SPS30_RESET (hbus h) in
      if negb (r =? 0) then Some (r, Host b1 false l1)
      else
        let b2 := after_send SPS30_STOP_MEAS b1 in
        let l2 := l1 ++ [Msleep 300; OnBus (Send [0x01; 0x04])] in
        match sps30_do_cmd dev SPS30_READ_SERIAL stack 32 b2 with
        | None => None
        | Some ((ret, buf), b3) =>
            let l3 := l2 ++ map OnBus (drop (length (trace b2)) (trace b3)) in
            if negb (ret =? 0) then Some (ret, Host b3 false l3)
            else
              match c_string buf with
              | None => None
              | Some s =>
                  let r := transfer_result (send_ret dev (sent b3)) 5 in
                  let b4 := Bus (S (sent b3)) (received b3) (slept b3)
                                (trace b3 ++ [Send start_meas_bytes]) in
                  let l4 := l3 ++ [DevInfoSerial s; OnBus (Send start_meas_bytes)] in
                  if negb (r =? 0) then Some (r, Host b4 false l4)
                  else if negb (devm_add_action fw =? 0) then
                    Some (devm_add_action fw,
                          Host (after_send SPS30_STOP_MEAS b4) false
                               (l4 ++ [OnBus (Send [0x01; 0x04])]))
                  else if negb (devm_iio_triggered_buffer_setup fw =? 0) then
                    Some (devm_iio_triggered_buffer_setup fw, Host b4 false l4)
                  else Some (devm_iio_device_register fw, Host b4 false l4)
              end
        end.
Proof.
  destruct (i2c_check_functionality fw) eqn:Hf; [|by unfold sps30_probe; rewrite Hf].
  destruct (devm_iio_device_alloc fw) eqn:Ha;
    [|by unfold sps30_probe; rewrite Hf, Ha].
  rewrite sps30_probe_reset by assumption. cbn [negb]. cbv zeta.
  destruct (negb (transfer_result (send_ret dev (sent (hbus h))) 2 =? 0));
    [reflexivity|].
  unfold h_bind at 1. unfold on_bus at 1. cbn [hbus locked hlog].
  destruct (sps30_do_cmd dev SPS30_READ_SERIAL stack 32
              (after_send SPS30_STOP_MEAS (after_send SPS30_RESET (hbus h))))
    as [[[ret buf] b3]|]; [|reflexivity].
  cbn [fst snd]. rewrite <- !app_assoc. cbn [app].
  destruct (negb (ret =? 0)); [reflexivity|].
  unfold h_bind at 1. unfold h_lift.
  destruct (c_string buf) as [s|]; [|reflexivity].
  rewrite h_bind_log, h_bind_start. cbn [fst hbus locked hlog].
  rewrite <- !app_assoc. cbn [app].
  destruct (negb (transfer_result (send_ret dev (sent b3)) 5 =? 0));
    [reflexivity|].
  unfold devm_add_action_or_reset, sps30_stop_meas.
  destruct (negb (devm_add_action fw =? 0)) eqn:Hadd.
  - unfold h_bind at 1. unfold h_bind at 1. rewrite h_bind_write by reflexivity.
    cbn [hbus locked hlog]. unfold h_ret. rewrite Hadd.
    repeat (progress (rewrite <- ?app_assoc; cbn [app])). reflexivity.
  - unfold h_bind at 1. unfold h_ret. rewrite Hadd.
    destruct (negb (devm_iio_triggered_buffer_setup fw =? 0)); reflexivity.
Qed.

Lemma serial_size : s32 (32 + Z.quot 32 2) = 48.
Proof. reflexivity. Qed.

(** The serial-number read of [sps30_probe], whenever it returns. *)
Lemma sps30_do_cmd_serial dev stack st ret buf st' :
  sps30_do_cmd dev SPS30_READ_SERIAL stack 32 st = Some ((ret, buf), st') ->
  sent st' = S (sent st) /\ slept st' = slept st /\
  (ret = 0 ->
   length buf = length stack /\ received st' = S (received st) /\
   trace st' = trace st ++ [Send [0xD0; 0x33]; Recv 48]).
Proof.
  intros H. apply sps30_do_cmd_read_cases in H; [|reflexivity|].
  2:{ rewrite serial_size. unfold SPS30_MAX_READ_SIZE. lia. }
  destruct H as [(Hne & -> & ->)|(-> & _ & [Hne|(-> & _ & Hstrip)])].
  - split; [reflexivity|]. split; [reflexivity|]. intros ->. done.
  - split; [reflexivity|]. split; [reflexivity|]. intros ->. done.
  - split; [reflexivity|]. split; [reflexivity|]. intros _.
    apply sps30_do_cmd_strip_length in Hstrip. rewrite serial_size.
    split; [exact Hstrip|]. split; reflexivity.
Qed.

(** The serial-number read from a sensor that answers it with sixteen
    well-formed words. *)
Lemma sps30_do_cmd_serial_good dev stack st ws :
  length stack = 32%nat -> length ws = 16%nat ->
  Forall is_byte (unwords ws) ->
  send_ret dev (sent st) = 2 ->
  recv_ret dev (received st) = 48 ->
  recv_data dev (received st) = frame (unwords ws) ->
  sps30_do_cmd dev SPS30_READ_SERIAL stack 32 st
  = Some ((0, unwords ws), after_read SPS30_READ_SERIAL 48 st).
Proof.
  intros Hlen Hws Hb Hs Hr Hd.
  pose proof (sps30_do_cmd_good_frame dev SPS30_READ_SERIAL stack st ws
                eq_refl Hb) as H.
  rewrite Hws in H.
  change (2 * Z.of_nat 16) with 32 in H. change (3 * Z.of_nat 16) with 48 in H.
  rewrite H; [|lia|exact Hs|exact Hr|exact Hd|lia].
  unfold overlay, write_at. rewrite length_unwords, Hws.
  rewrite drop_ge by lia. cbn [take app]. by rewrite app_nil_r.
Qed.

(** ** Lemmas for the claims *)

(** Where the decoder is defined: the all-zero input decodes to 0; the
    encoding of 1.0 decodes to 100; an input with a biased exponent in
    [0, 23] whose integer part is at least 3000 decodes to 300000; and
    an input whose biased exponent is in [-31, -1] decodes to an integer
    in [0, 99], which is at least 1 when the biased exponent is at
    least -6. *)
Lemma float_to_int_boundaries (b0 b1 b2 b3 : Z) :
  value (sps30_float_to_int_clamped [0; 0; 0; 0]) = Some 0 /\
  value (sps30_float_to_int_clamped (be32_bytes 0x3f800000)) = Some 100 /\
  (forall v,
     0 <= biased (be32 b0 b1 b2 b3) ->
     value (int_part (biased (be32 b0 b1 b2 b3))
                     (mantissa (be32 b0 b1 b2 b3))) = Some v ->
     3000 <= v ->
     value (sps30_float_to_int_clamped [b0; b1; b2; b3]) = Some 300000) /\
  (-31 <= biased (be32 b0 b1 b2 b3) < 0 ->
   exists r,
     value (sps30_float_to_int_clamped [b0; b1; b2; b3]) = Some r /\
     0 <= r <= 99 /\
     (-6 <= biased (be32 b0 b1 b2 b3) -> 1 <= r)).
Proof.
  split; [reflexivity|]. split; [reflexivity|].
  destruct (decode_biased b0 b1 b2 b3 []) as (Hd & Hm & Hex).
  cbv zeta in Hd, Hm, Hex. rewrite Hd.
  set (w := be32 b0 b1 b2 b3) in *. set (e := biased w) in *.
  set (m := mantissa w) in *. clearbody e m. clear Hd w.
  unfold decoded. replace (e + 127 - 127) with e by lia. split.
  - intros v He Hv Hge.
    destruct (Z_le_gt_dec 24 e) as [H24|H24].
    { rewrite int_part_undefined in Hv by lia. discriminate. }
    apply int_part_value in Hv; [|lia|lia]. subst v.
    replace ((e + 127 =? 0) && (m =? 0)) with false
      by (symmetry; apply andb_false_iff; left; apply Z.eqb_neq; lia).
    cbv zeta.
    replace (e <? 0) with false by (symmetry; apply Z.ltb_ge; lia).
    replace (24 <=? e) with false by (symmetry; apply Z.leb_gt; lia).
    replace (3000 <=? _) with true by (symmetry; apply Z.leb_le; lia).
    reflexivity.
  - intros He.
    replace ((e + 127 =? 0) && (m =? 0)) with false
      by (symmetry; apply andb_false_iff; left; apply Z.eqb_neq; lia).
    cbv zeta.
    replace (e <? 0) with true by (symmetry; apply Z.ltb_lt; lia).
    unfold shift_ok.
    replace ((0 <=? - e) && (- e <? 32)) with true
      by (symmetry; apply andb_true_iff; lia).
    cbn [value]. eexists. split; [reflexivity|].
    pose proof (sub_unit_bounds m (- e) Hm ltac:(lia)) as [H1 H2].
    cbv zeta in H1, H2. split; [exact H1|]. intros H6. apply H2. lia.
Qed.

Lemma float_to_int_boundaries_witness :
  value (sps30_float_to_int_clamped [0x45; 0x3b; 0x80; 0]) = Some 300000 /\
  exists r,
    value (sps30_float_to_int_clamped [0x3f; 0; 0; 0]) = Some r /\
    0 <= r <= 99 /\ (-6 <= biased (be32 0x3f 0 0 0) -> 1 <= r).
Proof.
  split.
  - apply (proj1 (proj2 (proj2 (float_to_int_boundaries 0x45 0x3b 0x80 0))) 3000);
      [vm_compute; congruence | reflexivity | lia].
  - apply (proj2 (proj2 (proj2 (float_to_int_boundaries 0x3f 0 0 0)))).
    vm_compute. split; congruence.
Defined.

(** Where every decoding is defined: a measurement read of [n] channels,
    [n] in 1..4, that returns 0 has written exactly the cells 0 .. n-1
    of the caller's array, each with the decoded value of four bytes of
    the buffer the response was read into, within [0, 300000]. *)
Lemma sps30_do_meas_writes_channels
    (dev : device) (st st' : bus) (data data' : list Z) (n : Z) :
  1 <= n <= 4 ->
  sps30_do_meas dev data n st = Some ((0, data'), st') ->
  length data' = length data /\
  (exists tmp,
     forall k, 0 <= k < n ->
       exists v, data' !! Z.to_nat k = Some v /\
                 value (sps30_float_to_int_clamped (drop (Z.to_nat (4 * k)) tmp))
                 = Some v /\
                 0 <= v <= 300000) /\
  (forall k : nat, n <= Z.of_nat k -> data' !! k = data !! k).
Proof.
  intros Hn. unfold sps30_do_meas. cbv zeta. unfold m_bind at 1.
  destruct (sps30_do_meas_poll dev 6 5 (replicate 16 0) st)
    as [[[code|[tries tmp]] st1]|] eqn:Hpoll; [| |discriminate].
  { apply sps30_do_meas_poll_return in Hpoll as ->. discriminate. }
  destruct (tries =? 0); [discriminate|].
  unfold m_bind at 1.
  destruct (sps30_do_cmd dev SPS30_READ_DATA tmp (s32 (4 * n)) st1)
    as [[[ret tmp2] st2]|]; [|discriminate].
  destruct (ret =? 0) eqn:Hret; cbn [negb].
  2:{ unfold m_ret. intros [= -> _ _]. discriminate. }
  unfold m_bind, m_lift.
  destruct (sps30_do_meas_decode (Z.to_nat n) tmp2 n 0 data) as [d|] eqn:Hdec;
    [|discriminate].
  unfold m_ret. intros [= -> _].
  apply sps30_do_meas_decode_spec in Hdec as (Hlen & Hin & Hout); [|lia|lia].
  split; [exact Hlen|]. split.
  - exists tmp2. exact Hin.
  - intros k Hk. apply Hout. lia.
Qed.

Lemma sps30_do_meas_writes_channels_witness :
  length [100; 200; 300; 400] = length [0; 0; 0; 0] /\
  (exists tmp,
     forall k, 0 <= k < 4 ->
       exists v, [100; 200; 300; 400] !! Z.to_nat k = Some v /\
                 value (sps30_float_to_int_clamped (drop (Z.to_nat (4 * k)) tmp))
                 = Some v /\
                 0 <= v <= 300000) /\
  (forall k : nat, 4 <= Z.of_nat k ->
     [100; 200; 300; 400] !! k = [0; 0; 0; 0] !! k).
Proof.
  apply (sps30_do_meas_writes_channels
           (scripted [2; 2] [ready; (24, frame sample_1234)] [])
           bus_init
           (Bus 2 2 0 [Send [2; 2]; Recv 3; Send [3; 0]; Recv 24])
           [0; 0; 0; 0] [100; 200; 300; 400] 4).
  - lia.
  - vm_compute. reflexivity.
Defined.

(** A poll that fails after [k] polls answered "not ready" ends the
    measurement read with [-EIO], whatever the code [sps30_do_cmd]
    returned for it, and leaves the caller's array as it was. *)
Lemma sps30_do_meas_poll_fails dev k st data n st1 :
  (k <= 4)%nat ->
  (forall i, (i < k)%nat ->
     exists f, is_byte f /\ f <> 1 /\ poll_answer dev st i f) ->
  (forall tmp, exists ret tmp',
      ret <> 0 /\
      sps30_do_cmd dev SPS30_READ_DATA_READY_FLAG tmp 2 (after_unready_polls k st)
      = Some ((ret, tmp'), st1)) ->
  sps30_do_meas dev data n st = Some ((- EIO, data), st1).
Proof.
  intros Hk Hun Hfail.
  destruct (sps30_do_meas_poll_unready dev k (S (5 - k)) 5 (replicate 16 0) st)
    as (tmp1 & Hlen1 & Hpoll); [lia|cbn; lia|exact Hun|].
  replace (k + S (5 - k))%nat with 6%nat in Hpoll by lia.
  unfold sps30_do_meas. cbv zeta. unfold m_bind at 1.
  rewrite Hpoll, sps30_do_meas_poll_unfold.
  replace (5 - Z.of_nat k =? 0) with false by (symmetry; apply Z.eqb_neq; lia).
  destruct (Hfail tmp1) as (ret & tmp' & Hret & Hcmd).
  unfold after_unready_polls in Hcmd.
  unfold m_bind at 1. rewrite Hcmd.
  replace (ret =? 0) with false by (symmetry; by apply Z.eqb_neq).
  reflexivity.
Qed.

(** The timeout test of [sps30_do_meas]. *)
Lemma sps30_do_meas_timeout dev data n st tmp st1 :
  sps30_do_meas_poll dev 6 5 (replicate 16 0) st = Some (inr (0, tmp), st1) ->
  sps30_do_meas dev data n st = Some ((- ETIMEDOUT, data), st1).
Proof.
  intros Hpoll. unfold sps30_do_meas. cbv zeta. unfold m_bind at 1.
  by rewrite Hpoll.
Qed.

(** ** Two callers *)

(** What [sps30_read_raw] adds to the log: nothing, or one lock, its
    bus traffic, one unlock. *)
Lemma sps30_read_raw_logged dev stack chan mask h r h' :
  locked h = false ->
  sps30_read_raw dev stack chan mask h = Some (r, h') ->
  logged h h' = [] /\ traffic h h' = []
  \/ logged h h' = MutexLock :: map OnBus (traffic h h') ++ [MutexUnlock].
Proof.
  intros Hl. destruct r as [ret out]. unfold logged, traffic.
  assert (Hnone : forall x, h_ret (A := Z * option (Z * Z)) x h = Some (ret, out, h') ->
            drop (length (hlog h)) (hlog h') = [] /\
            drop (length (trace (hbus h))) (trace (hbus h')) = []
            \/ drop (length (hlog h)) (hlog h')
               = MutexLock :: map OnBus (drop (length (trace (hbus h)))
                                              (trace (hbus h'))) ++ [MutexUnlock]).
  { intros x. unfold h_ret. intros [= _ <-]. left.
    split; apply drop_all. }
  destruct mask; [| |apply Hnone].
  - destruct (type chan) eqn:Ht;
      [|unfold sps30_read_raw; rewrite Ht; apply Hnone..].
    destruct (channels_read (channel2 chan)) as [n|] eqn:Hc.
    + rewrite (sps30_read_raw_processed_eq dev stack chan n h Ht Hc Hl).
      destruct (sps30_do_meas dev stack n (hbus h)) as [[[r data] b]|] eqn:Hm;
        [|discriminate].
      intros H. apply read_raw_result_inv in H as [-> _].
      cbn [locked hbus hlog]. right.
      apply sps30_do_meas_trace in Hm as (evs & Htr).
      rewrite Htr, !drop_app_length. reflexivity.
    + destruct (channel2 chan) eqn:Hc2; try discriminate.
      unfold sps30_read_raw. rewrite Ht, Hc2. cbv zeta.
      unfold h_bind, mutex_lock, mutex_unlock, h_ret. rewrite Hl.
      cbn [locked hbus hlog]. unfold EINVAL. cbn [Z.eqb negb Z.opp].
      intros [= _ _ <-]. cbn [locked hbus hlog]. right.
      rewrite <- app_assoc, drop_app_length, drop_all. reflexivity.
  - unfold sps30_read_raw. destruct (type chan); [|apply Hnone..].
    destruct (channel2 chan); apply Hnone.
Qed.

Lemma caller_eqb_refl c : caller_eqb c c = true.
Proof. by destruct c. Qed.

Lemma caller_eqb_other c : caller_eqb (other c) c = false.
Proof. by destruct c. Qed.

Lemma caller_eqb_other_r c : caller_eqb c (other c) = false.
Proof. by destruct c. Qed.

Lemma caller_cases c c0 : c0 = c \/ c0 = other c.
Proof. destruct c, c0; auto. Qed.

Lemma events_of_cons_same c e l :
  events_of c ((c, e) :: l) = e :: events_of c l.
Proof. unfold events_of. cbn [List.filter fst]. by rewrite caller_eqb_refl. Qed.

Lemma events_of_cons_other c e l :
  events_of c ((other c, e) :: l) = events_of c l.
Proof. unfold events_of. cbn [List.filter fst]. by rewrite caller_eqb_other. Qed.

Lemma events_of_cons_other_l c e l :
  events_of (other c) ((c, e) :: l) = events_of (other c) l.
Proof. unfold events_of. cbn [List.filter fst]. by rewrite caller_eqb_other_r. Qed.

(** An interleaving in which one caller does nothing is the log of the
    other. *)
Lemma events_of_nil c l :
  events_of c l = [] -> l = map (pair (other c)) (events_of (other c) l).
Proof.
  induction l as [|[c0 e] l IH]; [reflexivity|].
  destruct (caller_cases c c0) as [-> | ->].
  - rewrite events_of_cons_same. discriminate.
  - rewrite events_of_cons_other, events_of_cons_same. intros H.
    cbn [map]. by rewrite <- IH.
Qed.

Lemma bus_traffic_on_bus c evs :
  bus_traffic (map (pair c) (map OnBus evs)) = on_bus_by c evs.
Proof.
  unfold bus_traffic, on_bus_by.
  induction evs as [|e evs IH]; [reflexivity|].
  cbn [map List.filter snd is_bus]. by rewrite IH.
Qed.

Lemma bus_traffic_app l1 l2 :
  bus_traffic (l1 ++ l2) = bus_traffic l1 ++ bus_traffic l2.
Proof. apply List.filter_app. Qed.

(** The bus traffic of a caller who runs alone and logs nothing, or one
    locked section. *)
Lemma bus_traffic_alone c lg evs :
  lg = [] /\ evs = [] \/ lg = MutexLock :: map OnBus evs ++ [MutexUnlock] ->
  bus_traffic (map (pair c) lg) = on_bus_by c evs.
Proof.
  intros [[-> ->]| ->]; [reflexivity|].
  cbn [map]. rewrite map_app.
  change ((c, MutexLock) :: ?l) with ([(c, MutexLock)] ++ l).
  rewrite !bus_traffic_app, bus_traffic_on_bus. cbn [map].
  unfold bus_traffic. cbn [List.filter snd is_bus app]. by rewrite app_nil_r.
Qed.

(** While caller [c] holds the mutex the other caller, who has not yet
    got it, makes no step: the rest of the section of [c] comes first. *)
Lemma bus_traffic_section c l :
  forall ea lb eb,
    lb = [] /\ eb = [] \/ lb = MutexLock :: map OnBus eb ++ [MutexUnlock] ->
    events_of c l = map OnBus ea ++ [MutexUnlock] ->
    events_of (other c) l = lb ->
    mutex_consistent (Some c) l = true ->
    bus_traffic l = on_bus_by c ea ++ on_bus_by (other c) eb.
Proof.
  induction l as [|[c0 e] l IH]; intros ea lb eb Hlb Ha Hb Hm.
  { destruct ea; discriminate. }
  destruct (caller_cases c c0) as [-> | ->].
  - rewrite events_of_cons_same in Ha. rewrite events_of_cons_other_l in Hb.
    destruct ea as [|e0 ea]; cbn [map app] in Ha; injection Ha as -> Ha.
    + apply events_of_nil in Ha. rewrite Hb in Ha. rewrite Ha.
      unfold bus_traffic at 1. cbn [List.filter snd is_bus].
      fold (bus_traffic (map (pair (other c)) lb)).
      by rewrite (bus_traffic_alone (other c) lb eb Hlb).
    + cbn [mutex_consistent] in Hm.
      unfold bus_traffic. cbn [List.filter snd is_bus].
      fold (bus_traffic l). rewrite (IH ea lb eb Hlb Ha Hb Hm). reflexivity.
  - rewrite events_of_cons_same in Hb. rewrite events_of_cons_other in Ha.
    destruct Hlb as [[-> _]| ->]; [discriminate|].
    injection Hb as -> _. cbn [mutex_consistent] in Hm. discriminate.
Qed.

(** Two callers who each log nothing or one locked section: in any
    interleaving that the mutex allows, all the bus traffic of one comes
    before all the bus traffic of the other. *)
Lemma bus_traffic_serialized l la ea lb eb :
  la = [] /\ ea = [] \/ la = MutexLock :: map OnBus ea ++ [MutexUnlock] ->
  lb = [] /\ eb = [] \/ lb = MutexLock :: map OnBus eb ++ [MutexUnlock] ->
  events_of CallerA l = la ->
  events_of CallerB l = lb ->
  mutex_consistent None l = true ->
  bus_traffic l = on_bus_by CallerA ea ++ on_bus_by CallerB eb
  \/ bus_traffic l = on_bus_by CallerB eb ++ on_bus_by CallerA ea.
Proof.
  intros Hla Hlb Ha Hb Hm.
  destruct l as [|[c e] l].
  { cbn in Ha, Hb. subst la lb.
    destruct Hla as [[_ ->]|?]; [|discriminate].
    destruct Hlb as [[_ ->]|?]; [|discriminate]. by left. }
  destruct c.
  - rewrite (events_of_cons_same CallerA) in Ha.
    rewrite (events_of_cons_other_l CallerA) in Hb.
    destruct Hla as [[-> _]| ->]; [discriminate|].
    injection Ha as -> Ha. cbn [mutex_consistent] in Hm. left.
    unfold bus_traffic. cbn [List.filter snd is_bus]. fold (bus_traffic l).
    exact (bus_traffic_section CallerA l ea lb eb Hlb Ha Hb Hm).
  - rewrite (events_of_cons_same CallerB) in Hb.
    rewrite (events_of_cons_other_l CallerB) in Ha.
    destruct Hlb as [[-> _]| ->]; [discriminate|].
    injection Hb as -> Hb. cbn [mutex_consistent] in Hm. right.
    unfold bus_traffic. cbn [List.filter snd is_bus]. fold (bus_traffic l).
    exact (bus_traffic_section CallerB l eb la ea Hla Hb Ha Hm).
Qed.


(** * The claims *)

(** C3 (the code departs from it): 2^-8 = 0.00390625 (pattern
    0x3b800000) is a nonzero input with biased exponent -8, and it
    decodes to 0, outside the [1, 99] that the claim and the comment in
    the code give for this branch. And an encoding with an integer part
    far above 3000, about 1.29e13 (pattern 0x553b7fd8, biased exponent
    43), does not decode to 300000: the decoder evaluates [1 << 43] and
    [mantissa >> -20] before its clamp test, and has no defined
    result. *)
Theorem float_to_int_boundary_failures :
  (be32 0x3b 0x80 0 0 <> 0 /\
   biased (be32 0x3b 0x80 0 0) = -8 /\
   value (sps30_float_to_int_clamped [0x3b; 0x80; 0; 0]) = Some 0 /\
   ~ (exists r, value (sps30_float_to_int_clamped [0x3b; 0x80; 0; 0]) = Some r
                /\ 1 <= r <= 99)) /\
  (biased (be32 0x55 0x3b 0x7f 0xd8) = 43 /\
   3000 <= 2 ^ biased (be32 0x55 0x3b 0x7f 0xd8) /\
   shifts (sps30_float_to_int_clamped [0x55; 0x3b; 0x7f; 0xd8]) = [23; 43; -20] /\
   value (sps30_float_to_int_clamped [0x55; 0x3b; 0x7f; 0xd8]) = None /\
   value (sps30_float_to_int_clamped [0x55; 0x3b; 0x7f; 0xd8]) <> Some 300000).
Proof.
  split.
  - repeat split; try (vm_compute; congruence).
    intros (r & Hr & H1). vm_compute in Hr. injection Hr as <-. lia.
  - repeat split; vm_compute; congruence.
Qed.



(** C4: every 2-byte word passes verification against its own checksum,
    the CRC-8 with polynomial 0x31 and initial value 0xFF computed
    most-significant-bit first over that word alone; the table-driven
    [crc8] the driver calls computes this checksum, and the validation
    loop of [sps30_do_cmd] accepts the word followed by it. *)
Theorem checksum_verifies (b0 b1 : Z) :
  verify [b0; b1] (checksum [b0; b1]) = true /\
  crc8 (crc8_populate_msb SPS30_CRC8_POLYNOMIAL) [b0; b1] CRC8_INIT_VALUE
  = checksum [b0; b1] /\
  forall rest x y,
    sps30_do_cmd_strip 1 (b0 :: b1 :: checksum [b0; b1] :: rest) 3 0 [x; y] 0
    = Some (0, [b0; b1]).
Proof.
  split; [apply Z.eqb_refl|]. split.
  - rewrite <- sps30_crc8_table_populated. apply crc8_checksum.
  - intros rest x y.
    rewrite (sps30_do_cmd_strip_words [(b0, b1)] 1 _ 3 0 [x; y] 0%nat rest);
      cbn [length]; try lia; reflexivity.
Qed.

(** C5, as stated, fails: a read of two words whose second checksum is
    corrupted returns [-EIO], and the caller's buffer, zeroes before the
    call, holds the first word after it. *)
Lemma do_cmd_error_leaves_partial_data :
  checksum [0; 0] <> 0 /\
  exists st',
    sps30_do_cmd
      (scripted [2] [(6, frame [0x3f; 0x80] ++ [0; 0; 0])] [])
      SPS30_READ_DATA [0; 0; 0; 0] 4 bus_init
    = Some ((- EIO, [0x3f; 0x80; 0; 0]), st') /\
    [0x3f; 0x80; 0; 0] <> [0; 0; 0; 0].
Proof.
  split; [vm_compute; congruence|].
  eexists. split; [vm_compute; reflexivity|congruence].
Qed.

(** C5 (amended): when exactly one checksum byte of a received frame is
    corrupted, [sps30_do_cmd] returns [-EIO], never success; the words
    received before the corrupted one are already in the caller's
    buffer and the rest of the buffer is unchanged. *)
Theorem sps30_do_cmd_corrupted_checksum
    (dev : device) (st : bus) (cmd : Z) (data : list Z)
    (pre post : list (Z * Z)) (a b c : Z) :
  is_read_cmd cmd = true ->
  Forall is_byte (unwords pre) -> is_byte a -> is_byte b -> is_byte c ->
  Forall is_byte (unwords post) ->
  c <> checksum [a; b] ->
  (length pre + 1 + length post <= 16)%nat ->
  send_ret dev (sent st) = 2 ->
  recv_ret dev (received st) = 3 * Z.of_nat (length pre + 1 + length post) ->
  recv_data dev (received st)
  = frame (unwords pre) ++ [a; b; c] ++ frame (unwords post) ->
  (2 * length pre <= length data)%nat ->
  exists st',
    sps30_do_cmd dev cmd data (2 * Z.of_nat (length pre + 1 + length post)) st
    = Some ((- EIO, unwords pre ++ drop (2 * length pre) data), st').
Proof.
  intros Hcmd Hpre Ha Hb Hc Hpost Hne Hn Hsend Hrecv Hdata Hlen.
  eexists.
  rewrite (sps30_do_cmd_bad_crc dev cmd data st pre a b c (frame (unwords post)));
    try assumption.
  - unfold overlay, write_at. cbn [take app Nat.add].
    rewrite length_unwords. reflexivity.
  - by apply frame_bytes.
  - rewrite length_frame_unwords. lia.
  - rewrite Hrecv, length_frame_unwords. lia.
  - rewrite Z.mul_comm, Z.quot_mul by lia.
    rewrite length_frame_unwords, s32_id; lia.
Qed.

Lemma sps30_do_cmd_corrupted_checksum_witness :
  exists st',
    sps30_do_cmd
      (scripted [2] [(6, frame [0x3f; 0x80] ++ [0; 0; 0])] [])
      SPS30_READ_DATA [7; 7; 7; 7] (2 * Z.of_nat (length [(0x3f, 0x80)] + 1 + 0)) bus_init
    = Some ((- EIO, [0x3f; 0x80; 7; 7]), st').
Proof.
  apply (sps30_do_cmd_corrupted_checksum
           (scripted [2] [(6, frame [0x3f; 0x80] ++ [0; 0; 0])] [])
           bus_init SPS30_READ_DATA [7; 7; 7; 7] [(0x3f, 0x80)] [] 0 0 0);
    try reflexivity; try (repeat constructor; unfold is_byte; lia);
    try (unfold is_byte; lia).
  - repeat constructor; unfold is_byte; cbn [fst snd]; lia.
  - vm_compute. congruence.
Defined.

(** C6 (the code departs from it): the sensor is ready on the first
    poll and answers the read of one channel with the checksum-valid
    frame 55 3b 3e 7f d8 9e, the float 0x553b7fd8 with biased exponent
    43. The poll and the read-data command succeed, and the decoder
    then evaluates [1 << 43] and [mantissa >> -20] before it reaches
    its clamp test: the value written to the caller is not defined, and
    nothing keeps it within [0, 300000]. *)
Theorem sps30_do_meas_beyond_clamp :
  frame [0x55; 0x3b; 0x7f; 0xd8] = [0x55; 0x3b; 0x3e; 0x7f; 0xd8; 0x9e] /\
  sps30_do_meas_poll
    (scripted [2; 2] [ready; (6, frame [0x55; 0x3b; 0x7f; 0xd8])] [])
    6 5 (replicate 16 0) bus_init
  = Some (inr (4, 0 :: 1 :: replicate 14 0), Bus 1 1 0 [Send [2; 2]; Recv 3]) /\
  sps30_do_cmd
    (scripted [2; 2] [ready; (6, frame [0x55; 0x3b; 0x7f; 0xd8])] [])
    SPS30_READ_DATA (0 :: 1 :: replicate 14 0) 4
    (Bus 1 1 0 [Send [2; 2]; Recv 3])
  = Some ((0, [0x55; 0x3b; 0x7f; 0xd8] ++ replicate 12 0),
          Bus 2 2 0 [Send [2; 2]; Recv 3; Send [3; 0]; Recv 6]) /\
  biased (be32 0x55 0x3b 0x7f 0xd8) = 43 /\
  shifts (sps30_float_to_int_clamped ([0x55; 0x3b; 0x7f; 0xd8] ++ replicate 12 0))
  = [23; 43; -20] /\
  value (sps30_float_to_int_clamped ([0x55; 0x3b; 0x7f; 0xd8] ++ replicate 12 0))
  = None /\
  sps30_do_meas
    (scripted [2; 2] [ready; (6, frame [0x55; 0x3b; 0x7f; 0xd8])] [])
    [0] 1 bus_init
  = None.
Proof. repeat split; vm_compute; reflexivity. Qed.

(** C7, as stated, fails: a checksum failure (the transfer is complete
    and the checksum byte of the word 00 00 is wrong) and a transport
    failure (the receive is one byte short) end the measurement read
    with one and the same code. *)
Lemma checksum_and_transport_errors_coincide :
  checksum [0; 0] <> 0 /\
  exists st1 st2,
    sps30_do_meas (scripted [2] [(3, [0; 0; 0])] []) [0] 1 bus_init
    = Some ((- EIO, [0]), st1) /\
    sps30_do_meas (scripted [2] [(2, frame [0; 1])] []) [0] 1 bus_init
    = Some ((- EIO, [0]), st2).
Proof.
  split; [vm_compute; congruence|].
  eexists _, _. split; vm_compute; reflexivity.
Qed.

(** C7 (amended): a failed or short send, a failed or short receive and
    a checksum mismatch, on any of the data-ready polls, all end
    [sps30_do_meas] with the same code [-EIO] and leave the caller's
    array untouched; when the poll loop is left with its counter at 0,
    the timeout test ends [sps30_do_meas] with [-ETIMEDOUT], which
    differs from [-EIO]. *)
Theorem sps30_do_meas_error_codes
    (dev : device) (st : bus) (data : list Z) (n : Z) (k : nat) :
  (k <= 4)%nat ->
  (forall i, (i < k)%nat ->
     exists f, is_byte f /\ f <> 1 /\ poll_answer dev st i f) ->
  (send_ret dev (sent st + k)%nat <> 2 ->
   sps30_do_meas dev data n st
   = Some ((- EIO, data),
           after_send SPS30_READ_DATA_READY_FLAG (after_unready_polls k st))) /\
  (send_ret dev (sent st + k)%nat = 2 ->
   recv_ret dev (received st + k)%nat <> 3 ->
   sps30_do_meas dev data n st
   = Some ((- EIO, data),
           after_read SPS30_READ_DATA_READY_FLAG 3 (after_unready_polls k st))) /\
  (forall a b c,
     send_ret dev (sent st + k)%nat = 2 ->
     recv_ret dev (received st + k)%nat = 3 ->
     recv_data dev (received st + k)%nat = [a; b; c] ->
     is_byte a -> is_byte b -> is_byte c -> c <> checksum [a; b] ->
     sps30_do_meas dev data n st
     = Some ((- EIO, data),
             after_read SPS30_READ_DATA_READY_FLAG 3 (after_unready_polls k st))) /\
  (forall tmp st1,
     sps30_do_meas_poll dev 6 5 (replicate 16 0) st = Some (inr (0, tmp), st1) ->
     sps30_do_meas dev data n st = Some ((- ETIMEDOUT, data), st1)) /\
  - ETIMEDOUT <> - EIO.
Proof.
  intros Hk Hun. split; [|split; [|split; [|split]]].
  - intros Hsend. apply (sps30_do_meas_poll_fails dev k); [exact Hk|exact Hun|].
    intros tmp. eexists _, tmp. split; [|by apply sps30_do_cmd_send_fail].
    destruct (errno_or_EIO (send_ret dev (sent st + k)%nat)) as [H _]. exact H.
  - intros Hsend Hrecv.
    apply (sps30_do_meas_poll_fails dev k); [exact Hk|exact Hun|].
    intros tmp. eexists _, tmp. split.
    2:{ apply sps30_do_cmd_recv_fail; try assumption; try reflexivity.
        vm_compute. split; congruence. }
    destruct (errno_or_EIO (recv_ret dev (received st + k)%nat)) as [H _]. exact H.
  - intros a b c Hsend Hrecv Hdata Ha Hb Hc Hne.
    apply (sps30_do_meas_poll_fails dev k); [exact Hk|exact Hun|].
    intros tmp. exists (- EIO), tmp. split; [unfold EIO; lia|].
    apply (sps30_do_cmd_bad_crc dev _ tmp (after_unready_polls k st) [] a b c []);
      try assumption; try reflexivity; try constructor; cbn [length]; lia.
  - intros tmp st1. apply sps30_do_meas_timeout.
  - unfold ETIMEDOUT, EIO. lia.
Qed.

Lemma sps30_do_meas_error_codes_witness :
  sps30_do_meas (scripted [2; 2] [not_ready; (3, [0; 0; 0])] []) [7] 1 bus_init
  = Some ((- EIO, [7]),
          after_read SPS30_READ_DATA_READY_FLAG 3
                     (after_unready_polls 1 bus_init)) /\
  sps30_do_meas
    (scripted [2; 2; 2; 2; 2]
       [not_ready; not_ready; not_ready; not_ready; ready] [])
    [7] 1 bus_init
  = Some ((- ETIMEDOUT, [7]),
          Bus 5 5 4 (unready_polls 4 ++ [Send [2; 2]; Recv 3])).
Proof.
  split.
  - destruct (sps30_do_meas_error_codes
                (scripted [2; 2] [not_ready; (3, [0; 0; 0])] []) bus_init [7] 1 1)
      as (_ & _ & H & _).
    + lia.
    + intros i Hi. exists 0. split; [unfold is_byte; lia|]. split; [lia|].
      destruct i as [|i]; [|lia].
      split; [reflexivity|]. split; [reflexivity|].
      exists 0. split; [unfold is_byte; lia|reflexivity].
    + apply (H 0 0 0); try reflexivity; try (unfold is_byte; lia).
      vm_compute. congruence.
  - destruct (sps30_do_meas_error_codes
                (scripted [2; 2; 2; 2; 2]
                   [not_ready; not_ready; not_ready; not_ready; ready] [])
                bus_init [7] 1 0)
      as (_ & _ & _ & H & _).
    + lia.
    + intros i Hi. lia.
    + apply (H (0 :: 1 :: replicate 14 0)). vm_compute. reflexivity.
Defined.

(** C8, as stated, fails: the first sleep is interrupted (300 ms are
    left), and the measurement read goes on with the next poll and
    returns 0 with the decoded value. *)
Lemma interrupted_sleep_does_not_abort :
  sleep_ret (scripted [2; 2; 2]
               [not_ready; ready; (6, frame (be32_bytes 0x3f800000))] [300]) 0
  <> 0 /\
  sps30_do_meas
    (scripted [2; 2; 2]
       [not_ready; ready; (6, frame (be32_bytes 0x3f800000))] [300])
    [0] 1 bus_init
  = Some ((0, [100]),
          Bus 3 3 1 [Send [2; 2]; Recv 3; Sleep 300;
                     Send [2; 2]; Recv 3; Send [3; 0]; Recv 6]).
Proof. split; [vm_compute; congruence|vm_compute; reflexivity]. Qed.

(** C8 (amended): the value [msleep_interruptible] returns is not looked
    at; whether and when the sleeps between polls are interrupted
    changes neither the return value of the measurement read, nor the
    data it writes, nor its traffic on the bus, so the remaining polls
    are carried out all the same. *)
Theorem sps30_do_meas_ignores_sleep_outcome
    (dev : device) (sl : nat -> Z) (data : list Z) (n : Z) (st : bus) :
  sps30_do_meas (with_sleeps dev sl) data n st = sps30_do_meas dev data n st.
Proof.
  unfold sps30_do_meas. cbv zeta. unfold m_bind at 1 3.
  rewrite sps30_do_meas_poll_sleeps.
  reflexivity.
Qed.

(** C9: two callers of [sps30_read_raw] on one session, each run from
    the host as it is when the caller gets the session mutex. In every
    interleaving of what the two calls log that the mutex allows, the
    bus traffic is the whole bus traffic of one call followed by the
    whole bus traffic of the other: no command of one caller reaches
    the bus between the polls and the read-data command of the other,
    or between a send and its receive. *)
Theorem sps30_read_raw_serialized
    (dev : device) (stackA stackB : list Z) (chanA chanB : iio_chan_spec)
    (maskA maskB : iio_chan_info) (hA hA' hB hB' : host)
    (rA rB : Z * option (Z * Z)) (l : list (caller * host_event)) :
  locked hA = false -> locked hB = false ->
  sps30_read_raw dev stackA chanA maskA hA = Some (rA, hA') ->
  sps30_read_raw dev stackB chanB maskB hB = Some (rB, hB') ->
  events_of CallerA l = logged hA hA' ->
  events_of CallerB l = logged hB hB' ->
  mutex_consistent None l = true ->
  bus_traffic l = on_bus_by CallerA (traffic hA hA')
                  ++ on_bus_by CallerB (traffic hB hB')
  \/ bus_traffic l = on_bus_by CallerB (traffic hB hB')
                     ++ on_bus_by CallerA (traffic hA hA').
Proof.
  intros HlA HlB HA HB HeA HeB Hm.
  apply sps30_read_raw_logged in HA; [|exact HlA].
  apply sps30_read_raw_logged in HB; [|exact HlB].
  apply (bus_traffic_serialized l (logged hA hA') _ (logged hB hB') _);
    assumption.
Qed.

Lemma sps30_read_raw_serialized_witness :
  bus_traffic first_then_second
  = on_bus_by CallerA (traffic host_init after_first_read)
    ++ on_bus_by CallerB (traffic after_first_read after_second_read)
  \/ bus_traffic first_then_second
     = on_bus_by CallerB (traffic after_first_read after_second_read)
       ++ on_bus_by CallerA (traffic host_init after_first_read).
Proof.
  apply (sps30_read_raw_serialized
           two_reads_sensor [9; 9; 9; 9] [9; 9; 9; 9]
           (SPS30_CHAN 3 IIO_MOD_PM10 PM10) (SPS30_CHAN 0 IIO_MOD_PM1 PM1)
           IIO_CHAN_INFO_PROCESSED IIO_CHAN_INFO_PROCESSED
           host_init after_first_read after_first_read after_second_read
           (2, Some (4, 0)) (2, Some (1, 0)) first_then_second).
  - reflexivity.
  - reflexivity.
  - vm_compute. reflexivity.
  - vm_compute. reflexivity.
  - vm_compute. reflexivity.
  - vm_compute. reflexivity.
  - vm_compute. reflexivity.
Defined.

(** C1 (the code departs from it): five polls complete, each with flag
    byte 0. The loop is left with [tries = -1], the test [!tries] does
    not fire, the read-data command [03 00] is put on the bus and the
    call returns 0, not [-ETIMEDOUT]. *)
Theorem five_unready_polls_then_read_data :
  sps30_do_meas
    (scripted [2; 2; 2; 2; 2; 2]
       [not_ready; not_ready; not_ready; not_ready; not_ready;
        (24, frame sample_1234)] [])
    [0; 0; 0; 0] 4 bus_init
  = Some ((0, [100; 200; 300; 400]),
          Bus 6 6 5 [Send [2; 2]; Recv 3; Sleep 300;
                     Send [2; 2]; Recv 3; Sleep 300;
                     Send [2; 2]; Recv 3; Sleep 300;
                     Send [2; 2]; Recv 3; Sleep 300;
                     Send [2; 2]; Recv 3; Sleep 300;
                     Send [3; 0]; Recv 24]).
Proof. vm_compute. reflexivity. Qed.

(** C2 (the code departs from it): the flag byte is 1 on the fifth
    poll. The loop is left by [break] with [tries = 0], the test
    [!tries] fires, and the call returns [-ETIMEDOUT] without the
    read-data command ever reaching the bus. *)
Theorem ready_on_fifth_poll_times_out :
  sps30_do_meas
    (scripted [2; 2; 2; 2; 2; 2]
       [not_ready; not_ready; not_ready; not_ready; ready;
        (24, frame sample_1234)] [])
    [0; 0; 0; 0] 4 bus_init
  = Some ((- ETIMEDOUT, [0; 0; 0; 0]),
          Bus 5 5 4 [Send [2; 2]; Recv 3; Sleep 300;
                     Send [2; 2]; Recv 3; Sleep 300;
                     Send [2; 2]; Recv 3; Sleep 300;
                     Send [2; 2]; Recv 3; Sleep 300;
                     Send [2; 2]; Recv 3]).
Proof. vm_compute. reflexivity. Qed.

(** ** Further properties of the driver *)

(** X1: for a biased exponent in [-31, 23] the decoder returns the value
    of the float, [(2^23 + mantissa) / 2^(23 - exp)], times 100 and
    rounded down, capped at 300000. *)
Theorem sps30_float_to_int_clamped_scaled (b0 b1 b2 b3 : Z) :
  -31 <= biased (be32 b0 b1 b2 b3) <= 23 ->
  value (sps30_float_to_int_clamped [b0; b1; b2; b3])
  = Some (Z.min 300000
            ((2 ^ 23 + mantissa (be32 b0 b1 b2 b3)) * 100
             / 2 ^ (23 - biased (be32 b0 b1 b2 b3)))).
Proof.
  intros He. destruct (decode_biased b0 b1 b2 b3 []) as (Hd & Hm & _).
  cbv zeta in Hd, Hm. rewrite Hd. by apply decoded_scaled.
Qed.

Lemma sps30_float_to_int_clamped_scaled_witness :
  value (sps30_float_to_int_clamped [0x40; 0x20; 0; 0])
  = Some (Z.min 300000
            ((2 ^ 23 + mantissa (be32 0x40 0x20 0 0)) * 100
             / 2 ^ (23 - biased (be32 0x40 0x20 0 0)))).
Proof.
  apply (sps30_float_to_int_clamped_scaled 0x40 0x20 0 0).
  vm_compute. split; congruence.
Defined.

(** X2: the decoder has a defined result exactly for the all-zero
    pattern and for the patterns whose biased exponent is in [-31, 23]
    (sign bit clear, exponent field 96 to 150). *)
Theorem sps30_float_to_int_clamped_defined (b0 b1 b2 b3 : Z) :
  is_Some (value (sps30_float_to_int_clamped [b0; b1; b2; b3]))
  <-> be32 b0 b1 b2 b3 = 0 \/ -31 <= biased (be32 b0 b1 b2 b3) <= 23.
Proof.
  destruct (decode_biased b0 b1 b2 b3 []) as (Hd & Hm & Hex).
  cbv zeta in Hd, Hm, Hex. rewrite Hd, (decoded_defined _ _ Hm).
  replace (biased (be32 b0 b1 b2 b3) + 127 - 127)
    with (biased (be32 b0 b1 b2 b3)) by lia.
  split; (intros [H|H]; [left|by right]).
  - destruct H as [H1 H2].
    rewrite (fields_of_pattern b0 b1 b2 b3) by lia. lia.
  - unfold biased, mantissa. rewrite H. by vm_compute.
Qed.

(** X3: the decoder is monotone: of two patterns with biased exponents
    in [-31, 23], the one that is not larger as a 32-bit number does not
    decode to a larger value. *)
Theorem sps30_float_to_int_clamped_monotone
    (a0 a1 a2 a3 b0 b1 b2 b3 x y : Z) :
  -31 <= biased (be32 a0 a1 a2 a3) <= 23 ->
  -31 <= biased (be32 b0 b1 b2 b3) <= 23 ->
  be32 a0 a1 a2 a3 <= be32 b0 b1 b2 b3 ->
  value (sps30_float_to_int_clamped [a0; a1; a2; a3]) = Some x ->
  value (sps30_float_to_int_clamped [b0; b1; b2; b3]) = Some y ->
  x <= y.
Proof.
  intros Ha Hb Hle.
  destruct (decode_biased a0 a1 a2 a3 []) as (Hda & Hma & _).
  destruct (decode_biased b0 b1 b2 b3 []) as (Hdb & Hmb & _).
  cbv zeta in Hda, Hma, Hdb, Hmb.
  rewrite Hda, Hdb, !decoded_scaled by assumption.
  intros [= <-] [= <-].
  apply Z.min_le_compat_l, scaled_mono; try assumption.
  rewrite <- !fields_of_pattern by lia. exact Hle.
Qed.

Lemma sps30_float_to_int_clamped_monotone_witness : 50 <= 250.
Proof.
  apply (sps30_float_to_int_clamped_monotone 0x3f 0 0 0 0x40 0x20 0 0 50 250);
    try reflexivity; vm_compute; try split; congruence.
Defined.

(** X4: round trip of the framing. A read command that receives a
    well-formed frame of at most 16 words (each word followed by its
    checksum) returns 0 and hands the caller exactly the data bytes of
    the words, checksums stripped, leaving the rest of the buffer as it
    was. *)
Theorem sps30_do_cmd_round_trip
    (dev : device) (st : bus) (cmd : Z) (data : list Z) (ws : list (Z * Z)) :
  is_read_cmd cmd = true ->
  Forall is_byte (unwords ws) ->
  (length ws <= 16)%nat ->
  send_ret dev (sent st) = 2 ->
  recv_ret dev (received st) = 3 * Z.of_nat (length ws) ->
  recv_data dev (received st) = frame (unwords ws) ->
  (2 * length ws <= length data)%nat ->
  sps30_do_cmd dev cmd data (2 * Z.of_nat (length ws)) st
  = Some ((0, unwords ws ++ drop (2 * length ws) data),
          after_read cmd (3 * Z.of_nat (length ws)) st).
Proof.
  intros Hcmd Hws Hn Hsend Hrecv Hdata Hlen.
  rewrite (sps30_do_cmd_good_frame dev cmd data st ws) by assumption.
  unfold overlay, write_at. rewrite length_unwords. reflexivity.
Qed.

Lemma sps30_do_cmd_round_trip_witness :
  sps30_do_cmd (scripted [2] [(6, frame [0x3f; 0x80; 0; 0])] [])
               SPS30_READ_DATA [7; 7; 7; 7; 7]
               (2 * Z.of_nat (length [(0x3f, 0x80); (0, 0)])) bus_init
  = Some ((0, unwords [(0x3f, 0x80); (0, 0)]
              ++ drop (2 * length [(0x3f, 0x80); (0, 0)]) [7; 7; 7; 7; 7]),
          after_read SPS30_READ_DATA
                     (3 * Z.of_nat (length [(0x3f, 0x80); (0, 0)])) bus_init).
Proof.
  apply (sps30_do_cmd_round_trip
           (scripted [2] [(6, frame [0x3f; 0x80; 0; 0])] []) bus_init
           SPS30_READ_DATA [7; 7; 7; 7; 7] [(0x3f, 0x80); (0, 0)]);
    try reflexivity; try (cbn [length]; lia).
  cbn [unwords flat_map app fst snd].
  repeat (constructor; [unfold is_byte; lia|]). constructor.
Defined.

(** X5: whatever the command and whatever the bus does, a call of
    [sps30_do_cmd] that returns has put at most one message on the bus
    and has asked for at most one response; it asks for a response only
    after the two opcode bytes of a read command were sent completely;
    it never sleeps. *)
Theorem sps30_do_cmd_traffic
    (dev : device) (st st' : bus) (cmd size ret : Z) (data data' : list Z) :
  sps30_do_cmd dev cmd data size st = Some ((ret, data'), st') ->
  slept st' = slept st /\
  (trace st' = trace st /\ sent st' = sent st /\ received st' = received st
   /\ is_read_cmd cmd = false
   \/ (exists bytes, trace st' = trace st ++ [Send bytes]) /\
      sent st' = S (sent st) /\ received st' = received st
   \/ trace st' = trace st ++ [Send [u8 (Z.shiftr cmd 8); u8 cmd];
                               Recv (s32 (size + Z.quot size 2))] /\
      sent st' = S (sent st) /\ received st' = S (received st) /\
      is_read_cmd cmd = true /\ send_ret dev (sent st) = 2).
Proof.
  intros H.
  apply sps30_do_cmd_inv in H as [_ [[-> Hn]|[(bytes & -> & _)|(Hc & Hs & ->)]]].
  - split; [reflexivity|]. left. done.
  - split; [reflexivity|]. right. left. cbn [trace sent received].
    split; [by eexists|done].
  - split; [reflexivity|]. right. right. unfold after_read.
    cbn [trace sent received]. done.
Qed.

Lemma sps30_do_cmd_traffic_witness :
  slept (Bus 1 0 0 [Send [0x00; 0x10; 0x03; 0x00; 0xAC]]) = slept bus_init /\
  (trace (Bus 1 0 0 [Send [0x00; 0x10; 0x03; 0x00; 0xAC]]) = trace bus_init /\
   sent (Bus 1 0 0 [Send [0x00; 0x10; 0x03; 0x00; 0xAC]]) = sent bus_init /\
   received (Bus 1 0 0 [Send [0x00; 0x10; 0x03; 0x00; 0xAC]]) = received bus_init
   /\ is_read_cmd SPS30_START_MEAS = false
   \/ (exists bytes,
         trace (Bus 1 0 0 [Send [0x00; 0x10; 0x03; 0x00; 0xAC]])
         = trace bus_init ++ [Send bytes]) /\
      sent (Bus 1 0 0 [Send [0x00; 0x10; 0x03; 0x00; 0xAC]]) = S (sent bus_init) /\
      received (Bus 1 0 0 [Send [0x00; 0x10; 0x03; 0x00; 0xAC]]) = received bus_init
   \/ trace (Bus 1 0 0 [Send [0x00; 0x10; 0x03; 0x00; 0xAC]])
      = trace bus_init ++ [Send [u8 (Z.shiftr SPS30_START_MEAS 8); u8 SPS30_START_MEAS];
                            Recv (s32 (0 + Z.quot 0 2))] /\
      sent (Bus 1 0 0 [Send [0x00; 0x10; 0x03; 0x00; 0xAC]]) = S (sent bus_init) /\
      received (Bus 1 0 0 [Send [0x00; 0x10; 0x03; 0x00; 0xAC]]) = S (received bus_init) /\
      is_read_cmd SPS30_START_MEAS = true /\
      send_ret (scripted [5] [] []) (sent bus_init) = 2).
Proof.
  apply (sps30_do_cmd_traffic (scripted [5] [] []) bus_init
           (Bus 1 0 0 [Send [0x00; 0x10; 0x03; 0x00; 0xAC]])
           SPS30_START_MEAS 0 0 [] []).
  vm_compute. reflexivity.
Defined.

(** X6: [sps30_do_cmd] never returns a positive value: it returns 0,
    or [-EIO], or the negative errno the bus returned for its send or
    its receive. A byte count of a short transfer never leaks out. *)
Theorem sps30_do_cmd_return_value
    (dev : device) (st st' : bus) (cmd size ret : Z) (data data' : list Z) :
  sps30_do_cmd dev cmd data size st = Some ((ret, data'), st') ->
  ret <= 0 /\
  (ret = 0 \/ ret = - EIO
   \/ ret < 0 /\ (ret = send_ret dev (sent st) \/ ret = recv_ret dev (received st))).
Proof.
  intros H. apply sps30_do_cmd_inv in H as [Hret _].
  split; [|exact Hret]. unfold EIO in Hret. lia.
Qed.

Lemma sps30_do_cmd_return_value_witness :
  - EIO <= 0 /\
  (- EIO = 0 \/ - EIO = - EIO
   \/ - EIO < 0 /\ (- EIO = send_ret (scripted [1] [] []) (sent bus_init)
                    \/ - EIO = recv_ret (scripted [1] [] []) (received bus_init))).
Proof.
  apply (sps30_do_cmd_return_value (scripted [1] [] []) bus_init
           (Bus 1 0 0 [Send [0x03; 0x00]]) SPS30_READ_DATA 4 (- EIO)
           [0; 0; 0; 0] [0; 0; 0; 0]).
  vm_compute. reflexivity.
Defined.

(** X7: error detection. If one, two or three bits of a received word
    and its checksum byte are flipped, anywhere among these 24 bits,
    [sps30_do_cmd] rejects the frame with [-EIO]: it never hands the
    corrupted word to the caller as data. *)
Theorem sps30_do_cmd_detects_bit_errors
    (dev : device) (st : bus) (cmd : Z) (data : list Z)
    (pre post : list (Z * Z)) (b0 b1 : Z) (flips : list nat) :
  is_read_cmd cmd = true ->
  Forall is_byte (unwords pre) -> is_byte b0 -> is_byte b1 ->
  Forall is_byte (unwords post) ->
  flip_set flips = true ->
  (length pre + 1 + length post <= 16)%nat ->
  send_ret dev (sent st) = 2 ->
  recv_ret dev (received st) = 3 * Z.of_nat (length pre + 1 + length post) ->
  recv_data dev (received st)
  = frame (unwords pre)
    ++ [Z.lxor b0 (u8 (Z.shiftr (flip_mask flips) 16));
        Z.lxor b1 (u8 (Z.shiftr (flip_mask flips) 8));
        Z.lxor (checksum [b0; b1]) (u8 (flip_mask flips))]
    ++ frame (unwords post) ->
  (2 * length pre <= length data)%nat ->
  exists st',
    sps30_do_cmd dev cmd data (2 * Z.of_nat (length pre + 1 + length post)) st
    = Some ((- EIO, unwords pre ++ drop (2 * length pre) data), st').
Proof.
  intros Hcmd Hpre Hb0 Hb1 Hpost Hflips Hn Hsend Hrecv Hdata Hlen.
  eexists.
  rewrite (sps30_do_cmd_bad_crc dev cmd data st pre
             (Z.lxor b0 (u8 (Z.shiftr (flip_mask flips) 16)))
             (Z.lxor b1 (u8 (Z.shiftr (flip_mask flips) 8)))
             (Z.lxor (checksum [b0; b1]) (u8 (flip_mask flips)))
             (frame (unwords post)) Hcmd Hpre).
  - unfold overlay, write_at. cbn [take app Nat.add].
    rewrite length_unwords. reflexivity.
  - apply lxor_byte; [assumption|apply u8_range].
  - apply lxor_byte; [assumption|apply u8_range].
  - apply lxor_byte; [apply checksum_range|apply u8_range].
  - by apply frame_bytes.
  - rewrite checksum_lxor. intros H.
    apply (flip_set_detected flips Hflips).
    symmetry. exact (lxor_cancel_l _ _ _ H).
  - rewrite length_frame_unwords. lia.
  - exact Hsend.
  - rewrite Hrecv, length_frame_unwords. lia.
  - exact Hdata.
  - exact Hlen.
  - rewrite Z.mul_comm, Z.quot_mul by lia.
    rewrite length_frame_unwords, s32_id; lia.
Qed.

Lemma sps30_do_cmd_detects_bit_errors_witness :
  exists st',
    sps30_do_cmd
      (scripted [2]
         [(3, frame (unwords [])
              ++ [Z.lxor 0xBE (u8 (Z.shiftr (flip_mask [3; 9; 20]%nat) 16));
                  Z.lxor 0xEF (u8 (Z.shiftr (flip_mask [3; 9; 20]%nat) 8));
                  Z.lxor (checksum [0xBE; 0xEF]) (u8 (flip_mask [3; 9; 20]%nat))]
              ++ frame (unwords []))] [])
      SPS30_READ_DATA_READY_FLAG [0; 0]
      (2 * Z.of_nat (length (@nil (Z * Z)) + 1 + length (@nil (Z * Z)))) bus_init
    = Some ((- EIO, unwords [] ++ drop (2 * length (@nil (Z * Z))) [0; 0]), st').
Proof.
  apply (sps30_do_cmd_detects_bit_errors
           (scripted [2]
              [(3, frame (unwords [])
                   ++ [Z.lxor 0xBE (u8 (Z.shiftr (flip_mask [3; 9; 20]%nat) 16));
                       Z.lxor 0xEF (u8 (Z.shiftr (flip_mask [3; 9; 20]%nat) 8));
                       Z.lxor (checksum [0xBE; 0xEF]) (u8 (flip_mask [3; 9; 20]%nat))]
                   ++ frame (unwords []))] [])
           bus_init SPS30_READ_DATA_READY_FLAG [0; 0] [] [] 0xBE 0xEF
           [3; 9; 20]%nat);
    try reflexivity; try (unfold is_byte; lia); try constructor;
    cbn [length]; lia.
Defined.

(** X8: a measurement read that fails, with whatever return value,
    leaves the caller's array exactly as it was: no channel is written
    before all of them have been received and validated. *)
Theorem sps30_do_meas_error_keeps_data
    (dev : device) (st st' : bus) (data data' : list Z) (n ret : Z) :
  sps30_do_meas dev data n st = Some ((ret, data'), st') ->
  ret <> 0 -> data' = data.
Proof. intros H. by apply sps30_do_meas_inv in H as [H _]. Qed.

Lemma sps30_do_meas_error_keeps_data_witness : [7; 7] = [7; 7].
Proof.
  apply (sps30_do_meas_error_keeps_data
           (scripted [2; 2] [ready; (12, frame [0x3f; 0x80; 0; 0] ++ [0; 0; 0])] [])
           bus_init (Bus 2 2 0 [Send [2; 2]; Recv 3; Send [3; 0]; Recv 12])
           [7; 7] [7; 7] 2 (- EIO)).
  - vm_compute. reflexivity.
  - unfold EIO. lia.
Defined.

(** X9: [sps30_do_meas] never returns a positive value: it returns 0,
    [-EIO], [-ETIMEDOUT], or a negative errno that the bus returned for a
    transfer. *)
Theorem sps30_do_meas_return_value
    (dev : device) (st st' : bus) (data data' : list Z) (n ret : Z) :
  sps30_do_meas dev data n st = Some ((ret, data'), st') ->
  ret <= 0 /\
  (ret = 0 \/ ret = - EIO \/ ret = - ETIMEDOUT
   \/ ret < 0 /\ exists k, ret = send_ret dev k \/ ret = recv_ret dev k).
Proof.
  intros H. apply sps30_do_meas_inv in H as (_ & Hret & _).
  split; [|exact Hret]. unfold EIO, ETIMEDOUT in Hret.
  destruct Hret as [?|[?|[?|[? _]]]]; lia.
Qed.

Lemma sps30_do_meas_return_value_witness :
  -121 <= 0 /\
  (-121 = 0 \/ -121 = - EIO \/ -121 = - ETIMEDOUT
   \/ -121 < 0 /\ exists k, -121 = send_ret (scripted [2; 2] [ready; (-121, [])] []) k
                            \/ -121 = recv_ret (scripted [2; 2] [ready; (-121, [])] []) k).
Proof.
  apply (sps30_do_meas_return_value
           (scripted [2; 2] [ready; (-121, [])] [])
           bus_init (Bus 2 2 0 [Send [2; 2]; Recv 3; Send [3; 0]; Recv 6])
           [7] [7] 1 (-121)).
  vm_compute. reflexivity.
Defined.

(** X10: bounded polling. A measurement read that returns has sent at
    most five data-ready queries and then at most one read-data command
    (six sends, six receives), has slept at most five times, always for
    300 ms, and has put nothing else on the bus. *)
Theorem sps30_do_meas_traffic_bound
    (dev : device) (st st' : bus) (data data' : list Z) (n ret : Z) :
  sps30_do_meas dev data n st = Some ((ret, data'), st') ->
  (exists polls rest,
     trace st' = trace st ++ polls ++ rest /\
     Forall poll_event polls /\ Forall read_event rest /\
     (length rest <= 2)%nat) /\
  (sent st' <= sent st + 6)%nat /\
  (received st' <= received st + 6)%nat /\
  (slept st' <= slept st + 5)%nat.
Proof. intros H. by apply sps30_do_meas_inv in H as (_ & _ & H). Qed.

Lemma sps30_do_meas_traffic_bound_witness :
  (exists polls rest,
     trace (Bus 2 2 0 [Send [2; 2]; Recv 3; Send [3; 0]; Recv 24])
     = trace bus_init ++ polls ++ rest /\
     Forall poll_event polls /\ Forall read_event rest /\
     (length rest <= 2)%nat) /\
  Nat.le (sent (Bus 2 2 0 [Send [2; 2]; Recv 3; Send [3; 0]; Recv 24]))
         (sent bus_init + 6)%nat /\
  Nat.le (received (Bus 2 2 0 [Send [2; 2]; Recv 3; Send [3; 0]; Recv 24]))
         (received bus_init + 6)%nat /\
  Nat.le (slept (Bus 2 2 0 [Send [2; 2]; Recv 3; Send [3; 0]; Recv 24]))
         (slept bus_init + 5)%nat.
Proof.
  apply (sps30_do_meas_traffic_bound
           (scripted [2; 2] [ready; (24, frame sample_1234)] [])
           bus_init (Bus 2 2 0 [Send [2; 2]; Recv 3; Send [3; 0]; Recv 24])
           [0; 0; 0; 0] [100; 200; 300; 400] 4 0).
  vm_compute. reflexivity.
Defined.

(** X11: when the sensor answers the first [k] polls, [k] at most 3,
    with a flag byte other than 1 and the next poll with flag byte 1,
    the measurement read sleeps exactly [k] times and the read-data
    command follows that poll at once. *)
Theorem sps30_do_meas_ready_reads
    (dev : device) (st st' : bus) (data : list Z) (n : Z) (k : nat)
    (r : Z * list Z) :
  (k <= 3)%nat ->
  (forall i, (i < k)%nat ->
     exists f, is_byte f /\ f <> 1 /\ poll_answer dev st i f) ->
  poll_answer dev st k 1 ->
  sps30_do_meas dev data n st = Some (r, st') ->
  slept st' = (slept st + k)%nat /\
  exists rest,
    trace st' = trace st ++ unready_polls k
                ++ [Send [0x02; 0x02]; Recv 3; Send [0x03; 0x00]] ++ rest.
Proof.
  intros Hk Hun Hready H.
  destruct (sps30_do_meas_poll_ready dev k ltac:(lia) st Hun Hready)
    as (tmp & Hpoll).
  pose proof H as Hinv. destruct r as [ret data'].
  destruct (sps30_do_meas_after_poll dev data n st _ _ _ _ _ Hpoll ltac:(lia) H)
    as (rest & Htr).
  cbn [trace] in Htr. split.
  - revert H. unfold sps30_do_meas. cbv zeta. unfold m_bind at 1. rewrite Hpoll.
    replace (4 - Z.of_nat k =? 0) with false by (symmetry; apply Z.eqb_neq; lia).
    unfold m_bind at 1.
    destruct (sps30_do_cmd dev SPS30_READ_DATA tmp (s32 (4 * n)) _)
      as [[[r2 tmp2] st2]|] eqn:Hcmd; [|discriminate].
    apply sps30_do_cmd_read_summary in Hcmd as (_ & _ & _ & _ & _ & Hsl);
      [|reflexivity].
    cbn [slept] in Hsl.
    destruct (negb (r2 =? 0)).
    + unfold m_ret. intros [= _ _ <-]. exact Hsl.
    + unfold m_bind, m_lift.
      destruct (sps30_do_meas_decode _ _ _ _ _) as [d|]; [|discriminate].
      unfold m_ret. intros [= _ _ <-]. exact Hsl.
  - exists rest. rewrite Htr, <- !app_assoc. reflexivity.
Qed.

Lemma sps30_do_meas_ready_reads_witness :
  slept (Bus 4 4 2 [Send [2; 2]; Recv 3; Sleep 300; Send [2; 2]; Recv 3;
                    Sleep 300; Send [2; 2]; Recv 3; Send [3; 0]; Recv 6])
  = (slept bus_init + 2)%nat /\
  exists rest,
    trace (Bus 4 4 2 [Send [2; 2]; Recv 3; Sleep 300; Send [2; 2]; Recv 3;
                      Sleep 300; Send [2; 2]; Recv 3; Send [3; 0]; Recv 6])
    = trace bus_init ++ unready_polls 2
      ++ [Send [0x02; 0x02]; Recv 3; Send [0x03; 0x00]] ++ rest.
Proof.
  apply (sps30_do_meas_ready_reads
           (scripted [2; 2; 2; 2]
              [not_ready; not_ready; ready; (6, frame (be32_bytes 0x3f800000))] [])
           bus_init
           (Bus 4 4 2 [Send [2; 2]; Recv 3; Sleep 300; Send [2; 2]; Recv 3;
                       Sleep 300; Send [2; 2]; Recv 3; Send [3; 0]; Recv 6])
           [0] 1 2 (0, [100])).
  - lia.
  - intros i Hi. exists 0. split; [unfold is_byte; lia|]. split; [lia|].
    destruct i as [|[|i]]; [| |lia];
      (split; [reflexivity|]); (split; [reflexivity|]);
      exists 0; (split; [unfold is_byte; lia|reflexivity]).
  - split; [reflexivity|]. split; [reflexivity|].
    exists 0. split; [unfold is_byte; lia|reflexivity].
  - vm_compute. reflexivity.
Defined.

(** X12: when the sensor answers the first four polls with a flag byte
    other than 1 and the fifth with flag byte 1, the measurement read
    returns [-ETIMEDOUT] after that fifth poll: it sends nothing more,
    and the caller's array stays as it was. *)
Theorem sps30_do_meas_ready_on_fifth_poll
    (dev : device) (st : bus) (data : list Z) (n : Z) :
  (forall i, (i < 4)%nat ->
     exists f, is_byte f /\ f <> 1 /\ poll_answer dev st i f) ->
  poll_answer dev st 4 1 ->
  sps30_do_meas dev data n st
  = Some ((- ETIMEDOUT, data),
          Bus (sent st + 5) (received st + 5) (slept st + 4)
              (trace st ++ unready_polls 4 ++ [Send [0x02; 0x02]; Recv 3])).
Proof.
  intros Hun Hready.
  destruct (sps30_do_meas_poll_ready dev 4 ltac:(lia) st Hun Hready)
    as (tmp & Hpoll).
  unfold sps30_do_meas. cbv zeta. unfold m_bind at 1. rewrite Hpoll.
  change (4 - Z.of_nat 4 =? 0) with true. unfold m_ret.
  f_equal. f_equal. f_equal; lia.
Qed.

Lemma sps30_do_meas_ready_on_fifth_poll_witness :
  sps30_do_meas
    (scripted [2; 2; 2; 2; 2]
       [not_ready; not_ready; not_ready; not_ready; ready] [])
    [7] 1 bus_init
  = Some ((- ETIMEDOUT, [7]),
          Bus (sent bus_init + 5) (received bus_init + 5) (slept bus_init + 4)
              (trace bus_init ++ unready_polls 4 ++ [Send [0x02; 0x02]; Recv 3])).
Proof.
  apply (sps30_do_meas_ready_on_fifth_poll
           (scripted [2; 2; 2; 2; 2]
              [not_ready; not_ready; not_ready; not_ready; ready] [])
           bus_init [7] 1).
  - intros i Hi. exists 0. split; [unfold is_byte; lia|]. split; [lia|].
    destruct i as [|[|[|[|i]]]]; [| | | |lia];
      (split; [reflexivity|]); (split; [reflexivity|]);
      exists 0; (split; [unfold is_byte; lia|reflexivity]).
  - split; [reflexivity|]. split; [reflexivity|].
    exists 0. split; [unfold is_byte; lia|reflexivity].
Defined.

(** X13: when the sensor answers all five polls with a flag byte other
    than 1, the measurement read that returns has slept five times and
    has then put the read-data command on the bus. *)
Theorem sps30_do_meas_never_ready
    (dev : device) (st st' : bus) (data : list Z) (n : Z) (r : Z * list Z) :
  (forall i, (i < 5)%nat ->
     exists f, is_byte f /\ f <> 1 /\ poll_answer dev st i f) ->
  sps30_do_meas dev data n st = Some (r, st') ->
  exists rest,
    trace st' = trace st ++ unready_polls 5 ++ Send [0x03; 0x00] :: rest.
Proof.
  intros Hun H.
  destruct (sps30_do_meas_poll_exhausted dev st Hun) as (tmp & Hpoll).
  destruct (sps30_do_meas_after_poll dev data n st _ _ _ _ _ Hpoll ltac:(lia) H)
    as (rest & Htr).
  exists rest. rewrite Htr. cbn [trace]. by rewrite <- app_assoc.
Qed.

Lemma sps30_do_meas_never_ready_witness :
  exists rest,
    trace (Bus 6 5 5 [Send [2; 2]; Recv 3; Sleep 300; Send [2; 2]; Recv 3;
                      Sleep 300; Send [2; 2]; Recv 3; Sleep 300;
                      Send [2; 2]; Recv 3; Sleep 300; Send [2; 2]; Recv 3;
                      Sleep 300; Send [3; 0]])
    = trace bus_init ++ unready_polls 5 ++ Send [0x03; 0x00] :: rest.
Proof.
  apply (sps30_do_meas_never_ready
           (scripted [2; 2; 2; 2; 2]
              [not_ready; not_ready; not_ready; not_ready; not_ready] [])
           bus_init
           (Bus 6 5 5 [Send [2; 2]; Recv 3; Sleep 300; Send [2; 2]; Recv 3;
                       Sleep 300; Send [2; 2]; Recv 3; Sleep 300;
                       Send [2; 2]; Recv 3; Sleep 300; Send [2; 2]; Recv 3;
                       Sleep 300; Send [3; 0]])
           [7] 1 (- EIO, [7])).
  - intros i Hi. exists 0. split; [unfold is_byte; lia|]. split; [lia|].
    destruct i as [|[|[|[|[|i]]]]]; [| | | | |lia];
      (split; [reflexivity|]); (split; [reflexivity|]);
      exists 0; (split; [unfold is_byte; lia|reflexivity]).
  - vm_compute. reflexivity.
Defined.

(** X14: whenever its run is defined, a processed read of one of the
    driver's channels does this. For the timestamp channel it returns
    [-EINVAL] and touches nothing. For a concentration channel it makes
    the measurement read of the channels up to and including its own,
    and then either returns the negative code of that read and writes
    nothing, or returns IIO_VAL_INT_PLUS_MICRO with [*val] and [*val2]
    the integer and the micro part of [v / 100], where [v] is the value
    the measurement read has stored for this channel, within
    [0, 300000]. (A response with a float whose decoding is undefined
    makes the run undefined.) *)
Theorem sps30_read_raw_processed
    (dev : device) (stack : list Z) (chan : iio_chan_spec) (h h' : host)
    (ret : Z) (out : option (Z * Z)) :
  In chan sps30_channels ->
  locked h = false ->
  sps30_read_raw dev stack chan IIO_CHAN_INFO_PROCESSED h = Some ((ret, out), h') ->
  (type chan = IIO_TIMESTAMP /\ ret = - EINVAL /\ out = None /\ h' = h)
  \/ exists n r data',
       type chan = IIO_MASSCONCENTRATION /\
       channels_read (channel2 chan) = Some n /\ address chan = n - 1 /\
       sps30_do_meas dev stack n (hbus h) = Some ((r, data'), hbus h') /\
       (r < 0 /\ ret = r /\ out = None
        \/ r = 0 /\ ret = IIO_VAL_INT_PLUS_MICRO /\
           exists v, data' !! Z.to_nat (address chan) = Some v /\
                     0 <= v <= 300000 /\
                     out = Some (v / 100, v mod 100 * 10000)).
Proof.
  intros Hin Hl.
  destruct (sps30_channels_cases chan Hin) as [Ht|(n & Ht & Hc & Ha & Hn)].
  { unfold sps30_read_raw. rewrite Ht. unfold h_ret. intros [= <- <- <-].
    left. done. }
  rewrite (sps30_read_raw_processed_eq dev stack chan n h Ht Hc Hl).
  destruct (sps30_do_meas dev stack n (hbus h)) as [[[r data] b]|] eqn:Hm;
    [|discriminate].
  intros H. apply read_raw_result_inv in H
    as [-> [(Hr & Eret & Eout)|(Er & Eret & d & Hd & Eout)]];
    right; exists n, r, data; cbn [hbus];
    (split; [exact Ht|]); (split; [exact Hc|]); (split; [exact Ha|]);
    (split; [exact Hm|]).
  - left. split; [|done].
    apply sps30_do_meas_inv in Hm as (_ & Hret & _).
    unfold EIO, ETIMEDOUT in Hret. destruct Hret as [?|[?|[?|[? _]]]]; lia.
  - right. split; [exact Er|]. split; [exact Eret|]. subst r.
    apply sps30_do_meas_success in Hm as (_ & Hv & _); [|lia].
    destruct (Hv (n - 1) ltac:(lia)) as (v & Hlook & Hrange).
    rewrite Ha, Hlook in Hd. injection Hd as <-.
    exists v. rewrite Ha. split; [exact Hlook|]. split; [exact Hrange|].
    rewrite Eout, Z.quot_div_nonneg, Z.rem_mod_nonneg by lia.
    pose proof (Z.mod_pos_bound v 100 ltac:(lia)).
    rewrite s32_id by lia. reflexivity.
Qed.

Lemma sps30_read_raw_processed_witness :
  (type (SPS30_CHAN 3 IIO_MOD_PM10 PM10) = IIO_TIMESTAMP /\ 2 = - EINVAL /\
   Some (4, 0) = None /\ after_first_read = host_init)
  \/ exists n r data',
       type (SPS30_CHAN 3 IIO_MOD_PM10 PM10) = IIO_MASSCONCENTRATION /\
       channels_read (channel2 (SPS30_CHAN 3 IIO_MOD_PM10 PM10)) = Some n /\
       address (SPS30_CHAN 3 IIO_MOD_PM10 PM10) = n - 1 /\
       sps30_do_meas (scripted [2; 2] [ready; (24, frame sample_1234)] [])
                     [9; 9; 9; 9] n (hbus host_init)
       = Some ((r, data'), hbus after_first_read) /\
       (r < 0 /\ 2 = r /\ Some (4, 0) = None
        \/ r = 0 /\ 2 = IIO_VAL_INT_PLUS_MICRO /\
           exists v, data' !! Z.to_nat (address (SPS30_CHAN 3 IIO_MOD_PM10 PM10))
                     = Some v /\
                     0 <= v <= 300000 /\
                     Some (4, 0) = Some (v / 100, v mod 100 * 10000)).
Proof.
  apply (sps30_read_raw_processed
           (scripted [2; 2] [ready; (24, frame sample_1234)] [])
           [9; 9; 9; 9] (SPS30_CHAN 3 IIO_MOD_PM10 PM10) host_init
           after_first_read 2 (Some (4, 0))).
  - unfold sps30_channels. cbn [In]. tauto.
  - reflexivity.
  - vm_compute. reflexivity.
Defined.

(** X15: [sps30_read_raw] touches the bus only with the mutex held, and
    gives it back on every path: called with the mutex free it returns
    with the mutex free, and either it has done nothing at all, or its
    log is one lock, then all its bus traffic, then one unlock. *)
Theorem sps30_read_raw_locking
    (dev : device) (stack : list Z) (chan : iio_chan_spec)
    (mask : iio_chan_info) (h h' : host) (r : Z * option (Z * Z)) :
  locked h = false ->
  sps30_read_raw dev stack chan mask h = Some (r, h') ->
  locked h' = false /\
  (h' = h
   \/ exists evs,
        trace (hbus h') = trace (hbus h) ++ evs /\
        hlog h' = hlog h ++ [MutexLock] ++ map OnBus evs ++ [MutexUnlock]).
Proof.
  intros Hl. destruct r as [ret out].
  assert (Hnone : forall x, h_ret (A := Z * option (Z * Z)) x h = Some (ret, out, h') ->
                  locked h' = false /\
                  (h' = h \/ exists evs,
                     trace (hbus h') = trace (hbus h) ++ evs /\
                     hlog h' = hlog h ++ [MutexLock] ++ map OnBus evs ++ [MutexUnlock])).
  { intros x. unfold h_ret. intros [= _ <-]. split; [exact Hl|by left]. }
  destruct mask; [| |apply Hnone].
  - destruct (type chan) eqn:Ht;
      [|unfold sps30_read_raw; rewrite Ht; apply Hnone..].
    destruct (channels_read (channel2 chan)) as [n|] eqn:Hc.
    + rewrite (sps30_read_raw_processed_eq dev stack chan n h Ht Hc Hl).
      destruct (sps30_do_meas dev stack n (hbus h)) as [[[r data] b]|] eqn:Hm;
        [|discriminate].
      intros H. apply read_raw_result_inv in H as [-> _].
      cbn [locked hbus hlog]. split; [reflexivity|]. right.
      apply sps30_do_meas_trace in Hm as (evs & Htr).
      exists evs. split; [exact Htr|]. rewrite Htr, drop_app_length. reflexivity.
    + destruct (channel2 chan) eqn:Hc2; try discriminate.
      unfold sps30_read_raw. rewrite Ht, Hc2. cbv zeta.
      unfold h_bind, mutex_lock, mutex_unlock, h_ret. rewrite Hl.
      cbn [locked hbus hlog]. unfold EINVAL. cbn [Z.eqb negb Z.opp].
      intros [= _ _ <-]. cbn [locked hbus hlog]. split; [reflexivity|]. right.
      exists []. rewrite app_nil_r, <- app_assoc. done.
  - unfold sps30_read_raw. destruct (type chan); [|apply Hnone..].
    destruct (channel2 chan); apply Hnone.
Qed.

Lemma sps30_read_raw_locking_witness :
  locked (Host (Bus 2 2 0 [Send [2; 2]; Recv 3; Send [3; 0]; Recv 24]) false
               [MutexLock; OnBus (Send [2; 2]); OnBus (Recv 3);
                OnBus (Send [3; 0]); OnBus (Recv 24); MutexUnlock]) = false /\
  (Host (Bus 2 2 0 [Send [2; 2]; Recv 3; Send [3; 0]; Recv 24]) false
        [MutexLock; OnBus (Send [2; 2]); OnBus (Recv 3);
         OnBus (Send [3; 0]); OnBus (Recv 24); MutexUnlock] = host_init
   \/ exists evs,
        trace (hbus (Host (Bus 2 2 0 [Send [2; 2]; Recv 3; Send [3; 0]; Recv 24])
                          false
                          [MutexLock; OnBus (Send [2; 2]); OnBus (Recv 3);
                           OnBus (Send [3; 0]); OnBus (Recv 24); MutexUnlock]))
        = trace (hbus host_init) ++ evs /\
        hlog (Host (Bus 2 2 0 [Send [2; 2]; Recv 3; Send [3; 0]; Recv 24]) false
                   [MutexLock; OnBus (Send [2; 2]); OnBus (Recv 3);
                    OnBus (Send [3; 0]); OnBus (Recv 24); MutexUnlock])
        = hlog host_init ++ [MutexLock] ++ map OnBus evs ++ [MutexUnlock]).
Proof.
  apply (sps30_read_raw_locking
           (scripted [2; 2] [ready; (24, frame sample_1234)] [])
           [9; 9; 9; 9] (SPS30_CHAN 3 IIO_MOD_PM10 PM10) IIO_CHAN_INFO_PROCESSED
           host_init
           (Host (Bus 2 2 0 [Send [2; 2]; Recv 3; Send [3; 0]; Recv 24]) false
                 [MutexLock; OnBus (Send [2; 2]); OnBus (Recv 3);
                  OnBus (Send [3; 0]); OnBus (Recv 24); MutexUnlock])
           (2, Some (4, 0))).
  - reflexivity.
  - vm_compute. reflexivity.
Defined.

(** X16: what [sps30_read_raw] returns for one of the driver's channels,
    and what it does on the bus, does not depend on what the
    uninitialised array [data] holds when the function is entered: the
    cell it reads has always been written by the measurement read. *)
Theorem sps30_read_raw_ignores_stack
    (dev : device) (s1 s2 : list Z) (chan : iio_chan_spec)
    (mask : iio_chan_info) (h : host) :
  In chan sps30_channels ->
  length s1 = length s2 ->
  sps30_read_raw dev s1 chan mask h = sps30_read_raw dev s2 chan mask h.
Proof.
  intros Hin Hlen. destruct mask; [|reflexivity..].
  destruct (sps30_channels_cases chan Hin) as [Ht|(n & Ht & Hc & Ha & Hn)].
  { unfold sps30_read_raw. by rewrite Ht. }
  destruct (locked h) eqn:Hl.
  { unfold sps30_read_raw. rewrite Ht. cbv zeta.
    unfold h_bind at 1. unfold mutex_lock. rewrite Hl.
    unfold h_bind at 1. unfold mutex_lock. by rewrite Hl. }
  rewrite !(sps30_read_raw_processed_eq dev _ chan n h Ht Hc Hl).
  pose proof (sps30_do_meas_indep dev n (hbus h) s1 s2 ltac:(lia) Hlen) as Hi.
  destruct (sps30_do_meas dev s1 n (hbus h)) as [[[r1 d1] b1]|];
    destruct (sps30_do_meas dev s2 n (hbus h)) as [[[r2 d2] b2]|]; try done.
  destruct Hi as (<- & <- & Hd). unfold read_raw_result.
  destruct (r1 =? 0) eqn:E; cbn [negb]; [|reflexivity].
  apply Z.eqb_eq in E. rewrite (Hd E (Z.to_nat (address chan))) by lia.
  reflexivity.
Qed.

Lemma sps30_read_raw_ignores_stack_witness :
  sps30_read_raw (scripted [2; 2] [ready; (24, frame sample_1234)] [])
                 [9; 9; 9; 9] (SPS30_CHAN 3 IIO_MOD_PM10 PM10)
                 IIO_CHAN_INFO_PROCESSED host_init
  = sps30_read_raw (scripted [2; 2] [ready; (24, frame sample_1234)] [])
                   [0; 0; 0; 0] (SPS30_CHAN 3 IIO_MOD_PM10 PM10)
                   IIO_CHAN_INFO_PROCESSED host_init.
Proof.
  apply (sps30_read_raw_ignores_stack
           (scripted [2; 2] [ready; (24, frame sample_1234)] [])
           [9; 9; 9; 9] [0; 0; 0; 0] (SPS30_CHAN 3 IIO_MOD_PM10 PM10)
           IIO_CHAN_INFO_PROCESSED host_init).
  - unfold sps30_channels. cbn [In]. tauto.
  - reflexivity.
Defined.

(** X17: the trigger handler, whenever its run is defined, returns
    IRQ_HANDLED with the mutex released. It does the measurement read of
    four channels between one lock and one unlock, pushes to the buffers
    only when that read returned 0, and signals the trigger in either
    case. The array it hands over holds four decoded values within
    [0, 300000]; the cells after them, where the timestamp goes, it has
    left as they were on the stack. *)
Theorem sps30_trigger_handler_pushes
    (dev : device) (stack : list Z) (h h' : host) (r : Z) :
  locked h = false ->
  sps30_trigger_handler dev stack h = Some (r, h') ->
  r = IRQ_HANDLED /\ locked h' = false /\
  exists evs pushed,
    trace (hbus h') = trace (hbus h) ++ evs /\
    hlog h' = hlog h ++ [MutexLock] ++ map OnBus evs ++ [MutexUnlock]
              ++ pushed ++ [TriggerNotifyDone] /\
    ((pushed = [] /\
      exists ret, ret <> 0 /\
        sps30_do_meas dev stack 4 (hbus h) = Some ((ret, stack), hbus h'))
     \/ exists data,
          pushed = [PushToBuffers data] /\
          sps30_do_meas dev stack 4 (hbus h) = Some ((0, data), hbus h') /\
          length data = length stack /\
          (forall k, 0 <= k < 4 ->
             exists v, data !! Z.to_nat k = Some v /\ 0 <= v <= 300000) /\
          (forall k : nat, (4 <= k)%nat -> data !! k = stack !! k)).
Proof.
  intros Hl. unfold sps30_trigger_handler. cbv zeta.
  rewrite (locked_region (sps30_do_meas dev stack 4) _ h Hl).
  destruct (sps30_do_meas dev stack 4 (hbus h)) as [[[ret data] b]|] eqn:Hm;
    [|discriminate].
  destruct (sps30_do_meas_trace _ _ _ _ _ _ Hm) as (evs & Htr).
  rewrite Htr, drop_app_length.
  destruct (ret =? 0) eqn:E; cbn [negb].
  - apply Z.eqb_eq in E as ->.
    rewrite h_bind_log, h_bind_log. unfold h_ret. cbn [hbus locked hlog].
    intros [= <- <-]. cbn [hbus locked hlog].
    split; [reflexivity|]. split; [reflexivity|].
    exists evs, [PushToBuffers data]. split; [exact Htr|].
    split; [repeat (progress (rewrite <- ?app_assoc; cbn [app])); reflexivity|].
    right. exists data. split; [reflexivity|]. split; [reflexivity|].
    apply sps30_do_meas_success in Hm as (Hlen & Hin & Hout); [|lia].
    split; [exact Hlen|]. split; [exact Hin|].
    intros k Hk. apply Hout. lia.
  - apply Z.eqb_neq in E.
    rewrite (h_bind_Some (h_ret tt) _ _ tt _ eq_refl), h_bind_log.
    unfold h_ret. cbn [hbus locked hlog].
    intros [= <- <-]. cbn [hbus locked hlog].
    split; [reflexivity|]. split; [reflexivity|].
    exists evs, []. split; [exact Htr|].
    split; [repeat (progress (rewrite <- ?app_assoc; cbn [app])); reflexivity|].
    left. split; [reflexivity|]. exists ret. split; [exact E|].
    pose proof Hm as Hm'. apply sps30_do_meas_inv in Hm' as (Hd & _).
    by rewrite (Hd E).
Qed.

Lemma sps30_trigger_handler_pushes_witness :
  1 = IRQ_HANDLED /\
  locked (Host (Bus 2 2 0 [Send [2; 2]; Recv 3; Send [3; 0]; Recv 24]) false
               [MutexLock; OnBus (Send [2; 2]); OnBus (Recv 3);
                OnBus (Send [3; 0]); OnBus (Recv 24); MutexUnlock;
                PushToBuffers [100; 200; 300; 400; 7; 7]; TriggerNotifyDone])
  = false /\
  exists evs pushed,
    trace (hbus (Host (Bus 2 2 0 [Send [2; 2]; Recv 3; Send [3; 0]; Recv 24]) false
               [MutexLock; OnBus (Send [2; 2]); OnBus (Recv 3);
                OnBus (Send [3; 0]); OnBus (Recv 24); MutexUnlock;
                PushToBuffers [100; 200; 300; 400; 7; 7]; TriggerNotifyDone]))
    = trace (hbus host_init) ++ evs /\
    hlog (Host (Bus 2 2 0 [Send [2; 2]; Recv 3; Send [3; 0]; Recv 24]) false
               [MutexLock; OnBus (Send [2; 2]); OnBus (Recv 3);
                OnBus (Send [3; 0]); OnBus (Recv 24); MutexUnlock;
                PushToBuffers [100; 200; 300; 400; 7; 7]; TriggerNotifyDone])
    = hlog host_init ++ [MutexLock] ++ map OnBus evs ++ [MutexUnlock]
      ++ pushed ++ [TriggerNotifyDone] /\
    ((pushed = [] /\
      exists ret, ret <> 0 /\
        sps30_do_meas (scripted [2; 2] [ready; (24, frame sample_1234)] [])
                      [9; 9; 9; 9; 7; 7] 4 (hbus host_init)
        = Some ((ret, [9; 9; 9; 9; 7; 7]),
                hbus (Host (Bus 2 2 0 [Send [2; 2]; Recv 3; Send [3; 0]; Recv 24])
                           false
                           [MutexLock; OnBus (Send [2; 2]); OnBus (Recv 3);
                            OnBus (Send [3; 0]); OnBus (Recv 24); MutexUnlock;
                            PushToBuffers [100; 200; 300; 400; 7; 7];
                            TriggerNotifyDone])))
     \/ exists data,
          pushed = [PushToBuffers data] /\
          sps30_do_meas (scripted [2; 2] [ready; (24, frame sample_1234)] [])
                        [9; 9; 9; 9; 7; 7] 4 (hbus host_init)
          = Some ((0, data),
                  hbus (Host (Bus 2 2 0 [Send [2; 2]; Recv 3; Send [3; 0]; Recv 24])
                             false
                             [MutexLock; OnBus (Send [2; 2]); OnBus (Recv 3);
                              OnBus (Send [3; 0]); OnBus (Recv 24); MutexUnlock;
                              PushToBuffers [100; 200; 300; 400; 7; 7];
                              TriggerNotifyDone])) /\
          length data = length [9; 9; 9; 9; 7; 7] /\
          (forall k, 0 <= k < 4 ->
             exists v, data !! Z.to_nat k = Some v /\ 0 <= v <= 300000) /\
          (forall k : nat, (4 <= k)%nat -> data !! k = [9; 9; 9; 9; 7; 7] !! k)).
Proof.
  apply (sps30_trigger_handler_pushes
           (scripted [2; 2] [ready; (24, frame sample_1234)] [])
           [9; 9; 9; 9; 7; 7] host_init
           (Host (Bus 2 2 0 [Send [2; 2]; Recv 3; Send [3; 0]; Recv 24]) false
                 [MutexLock; OnBus (Send [2; 2]); OnBus (Recv 3);
                  OnBus (Send [3; 0]); OnBus (Recv 24); MutexUnlock;
                  PushToBuffers [100; 200; 300; 400; 7; 7]; TriggerNotifyDone])
           1).
  - reflexivity.
  - vm_compute. reflexivity.
Defined.

(** X18: called with the mutex free, [start_cleaning_store] always
    returns, with the mutex free again. Input that is not the number 1 is rejected with [-EINVAL]
    without touching the mutex or the bus. For 1 the fan-cleaning
    command [56 07] is sent once with the mutex held; the return value
    is [len] when the send transferred its two bytes and a negative
    error code otherwise. *)
Theorem start_cleaning_store_accepts_one
    (dev : device) (kstrtoint_ret val len : Z) (h : host) :
  locked h = false ->
  exists r h',
    start_cleaning_store dev kstrtoint_ret val len h = Some (r, h') /\
    locked h' = false /\
    ((kstrtoint_ret <> 0 \/ val <> 1) /\ r = - EINVAL /\ h' = h
     \/ kstrtoint_ret = 0 /\ val = 1 /\
        hlog h' = hlog h ++ [MutexLock; OnBus (Send [0x56; 0x07]); MutexUnlock] /\
        hbus h' = after_send SPS30_START_FAN_CLEANING (hbus h) /\
        (send_ret dev (sent (hbus h)) = 2 /\ r = len
         \/ send_ret dev (sent (hbus h)) <> 2 /\ r < 0 /\
            r = transfer_result (send_ret dev (sent (hbus h))) 2)).
Proof.
  intros Hl. unfold start_cleaning_store.
  destruct (kstrtoint_ret =? 0) eqn:Ek; cbn [negb orb].
  2:{ apply Z.eqb_neq in Ek. exists (- EINVAL), h. split; [reflexivity|].
      split; [exact Hl|]. left. split; [by left|done]. }
  destruct (val =? 1) eqn:Ev; cbn [negb].
  2:{ apply Z.eqb_neq in Ev. exists (- EINVAL), h. split; [reflexivity|].
      split; [exact Hl|]. left. split; [by right|done]. }
  apply Z.eqb_eq in Ek, Ev.
  rewrite (locked_region (sps30_do_cmd dev SPS30_START_FAN_CLEANING [] 0) _ h Hl).
  rewrite sps30_do_cmd_write by reflexivity. cbn [fst].
  unfold after_send. cbn [trace]. rewrite drop_app_length. cbn [map app].
  destruct (transfer_result_cases (send_ret dev (sent (hbus h))) 2)
    as [[Hs Hr]|(Hs & Hr & Hneg)].
  - rewrite Hr. change (negb (0 =? 0)) with false. cbv iota.
    eexists _, _. split; [reflexivity|]. cbn [hbus locked hlog].
    split; [reflexivity|]. right. split; [exact Ek|]. split; [exact Ev|].
    split; [reflexivity|]. split; [reflexivity|]. left. done.
  - apply Z.eqb_neq in Hr as Hr'. rewrite Hr'. cbn [negb].
    eexists _, _. split; [reflexivity|]. cbn [hbus locked hlog].
    split; [reflexivity|]. right. split; [exact Ek|]. split; [exact Ev|].
    split; [reflexivity|]. split; [reflexivity|]. right. done.
Qed.

Lemma start_cleaning_store_accepts_one_witness :
  exists r h',
    start_cleaning_store (scripted [2] [] []) 0 1 2 host_init = Some (r, h') /\
    locked h' = false /\
    ((0 <> 0 \/ 1 <> 1) /\ r = - EINVAL /\ h' = host_init
     \/ 0 = 0 /\ 1 = 1 /\
        hlog h' = hlog host_init
                  ++ [MutexLock; OnBus (Send [0x56; 0x07]); MutexUnlock] /\
        hbus h' = after_send SPS30_START_FAN_CLEANING (hbus host_init) /\
        (send_ret (scripted [2] [] []) (sent (hbus host_init)) = 2 /\ r = 2
         \/ send_ret (scripted [2] [] []) (sent (hbus host_init)) <> 2 /\ r < 0 /\
            r = transfer_result
                  (send_ret (scripted [2] [] []) (sent (hbus host_init))) 2)).
Proof.
  apply (start_cleaning_store_accepts_one (scripted [2] [] []) 0 1 2 host_init).
  reflexivity.
Defined.

(** X19: a probe that returns 0 has done this, in this order, and
    nothing else: reset, a pause of 300 ms, the stop-measurement command,
    the serial-number read of 48 bytes, the print of the serial number,
    the start-measurement command. The serial number printed has at most
    31 bytes, none of them NUL, and the three registrations with the
    kernel all returned 0. *)
Theorem sps30_probe_success
    (dev : device) (fw : framework) (stack : list Z) (h h' : host) :
  length stack = 32%nat ->
  sps30_probe dev fw stack h = Some (0, h') ->
  exists s,
    hlog h' = hlog h ++ probe_log s /\
    ~ In 0 s /\ (length s < 32)%nat /\
    locked h' = false /\
    sent (hbus h') = (4 + sent (hbus h))%nat /\
    received (hbus h') = S (received (hbus h)) /\
    slept (hbus h') = slept (hbus h) /\
    devm_add_action fw = 0 /\
    devm_iio_triggered_buffer_setup fw = 0 /\
    devm_iio_device_register fw = 0.
Proof.
  intros Hlen. rewrite sps30_probe_eq.
  destruct (i2c_check_functionality fw); cbn [negb]; [|discriminate].
  destruct (devm_iio_device_alloc fw); cbn [negb]; [|discriminate].
  cbv zeta.
  destruct (transfer_result (send_ret dev (sent (hbus h))) 2 =? 0) eqn:E1;
    cbn [negb]; [|intros [= E _]; rewrite E in E1; discriminate].
  destruct (sps30_do_cmd _ _ _ _ _) as [[[ret buf] b3]|] eqn:Hser; [|discriminate].
  destruct (ret =? 0) eqn:E2; cbn [negb];
    [|intros [= E _]; rewrite E in E2; discriminate].
  apply Z.eqb_eq in E2 as ->.
  apply sps30_do_cmd_serial in Hser as (Hsent & Hslept & Hok).
  destruct (Hok eq_refl) as (Hbuf & Hrecv & Htr).
  destruct (c_string buf) as [s|] eqn:Hs; [|discriminate].
  apply c_string_spec in Hs as (Hin & Hslen & _).
  destruct (transfer_result (send_ret dev (sent b3)) 5 =? 0) eqn:E3;
    cbn [negb]; [|intros [= E _]; rewrite E in E3; discriminate].
  destruct (devm_add_action fw =? 0) eqn:E4; cbn [negb];
    [|intros [= E _]; rewrite E in E4; discriminate].
  destruct (devm_iio_triggered_buffer_setup fw =? 0) eqn:E5; cbn [negb];
    [|intros [= E _]; rewrite E in E5; discriminate].
  intros [= E6 <-]. cbn [hbus locked hlog sent received slept].
  apply Z.eqb_eq in E4, E5.
  exists s. rewrite Htr, drop_app_length, Hsent, Hrecv.
  unfold probe_log. cbn [map].
  repeat (progress (rewrite <- ?app_assoc; cbn [app])).
  split; [reflexivity|]. split; [exact Hin|]. split; [lia|].
  split; [reflexivity|]. split; [reflexivity|]. split; [reflexivity|].
  split; [exact Hslept|]. done.
Qed.

Lemma sps30_probe_success_witness :
  exists s,
    hlog (Host (Bus 4 1 0 [Send [211; 4]; Send [1; 4]; Send [208; 51];
                           Recv 48; Send [0; 16; 3; 0; 172]])
               false (probe_log [0x31; 0x32; 0x33; 0x34]))
    = hlog host_init ++ probe_log s /\
    ~ In 0 s /\ (length s < 32)%nat /\
    locked (Host (Bus 4 1 0 [Send [211; 4]; Send [1; 4]; Send [208; 51];
                             Recv 48; Send [0; 16; 3; 0; 172]])
                 false (probe_log [0x31; 0x32; 0x33; 0x34])) = false /\
    sent (hbus (Host (Bus 4 1 0 [Send [211; 4]; Send [1; 4]; Send [208; 51];
                                 Recv 48; Send [0; 16; 3; 0; 172]])
                     false (probe_log [0x31; 0x32; 0x33; 0x34])))
    = (4 + sent (hbus host_init))%nat /\
    received (hbus (Host (Bus 4 1 0 [Send [211; 4]; Send [1; 4]; Send [208; 51];
                                     Recv 48; Send [0; 16; 3; 0; 172]])
                         false (probe_log [0x31; 0x32; 0x33; 0x34])))
    = S (received (hbus host_init)) /\
    slept (hbus (Host (Bus 4 1 0 [Send [211; 4]; Send [1; 4]; Send [208; 51];
                                  Recv 48; Send [0; 16; 3; 0; 172]])
                      false (probe_log [0x31; 0x32; 0x33; 0x34])))
    = slept (hbus host_init) /\
    devm_add_action (Framework true true 0 0 0) = 0 /\
    devm_iio_triggered_buffer_setup (Framework true true 0 0 0) = 0 /\
    devm_iio_device_register (Framework true true 0 0 0) = 0.
Proof.
  apply (sps30_probe_success
           (scripted [2; 2; 2; 5] [(48, frame (unwords serial_1234))] [])
           (Framework true true 0 0 0) (replicate 32 7) host_init
           (Host (Bus 4 1 0 [Send [211; 4]; Send [1; 4]; Send [208; 51];
                             Recv 48; Send [0; 16; 3; 0; 172]])
                 false (probe_log [0x31; 0x32; 0x33; 0x34]))).
  - reflexivity.
  - vm_compute. reflexivity.
Defined.

(** X20: with a sensor that accepts the reset, answers the
    serial-number read with sixteen well-formed words that hold a NUL
    terminated string, and accepts the start-measurement command, the
    probe returns what [devm_add_action] returned if that is not 0,
    else what [devm_iio_triggered_buffer_setup] returned if that is not
    0, else what [devm_iio_device_register] returned. When
    [devm_add_action] failed the stop-measurement command follows the
    start-measurement command: the sensor is not left measuring. *)
Theorem sps30_probe_cooperative
    (dev : device) (fw : framework) (stack : list Z) (h : host)
    (ws : list (Z * Z)) (s : list Z) :
  i2c_check_functionality fw = true ->
  devm_iio_device_alloc fw = true ->
  length stack = 32%nat ->
  send_ret dev (sent (hbus h)) = 2 ->
  send_ret dev (2 + sent (hbus h))%nat = 2 ->
  send_ret dev (3 + sent (hbus h))%nat = 5 ->
  recv_ret dev (received (hbus h)) = 48 ->
  recv_data dev (received (hbus h)) = frame (unwords ws) ->
  length ws = 16%nat ->
  Forall is_byte (unwords ws) ->
  c_string (unwords ws) = Some s ->
  exists h',
    sps30_probe dev fw stack h
    = Some (if devm_add_action fw =? 0
            then if devm_iio_triggered_buffer_setup fw =? 0
                 then devm_iio_device_register fw
                 else devm_iio_triggered_buffer_setup fw
            else devm_add_action fw, h') /\
    locked h' = false /\
    hlog h' = hlog h ++ probe_log s
              ++ (if devm_add_action fw =? 0 then []
                  else [OnBus (Send [0x01; 0x04])]).
Proof.
  intros Hf Ha Hlen Hs0 Hs2 Hs3 Hr Hd Hws Hb Hstr.
  rewrite sps30_probe_eq, Hf, Ha. cbn [negb]. cbv zeta.
  rewrite Hs0. change (transfer_result 2 2 =? 0) with true. cbn [negb].
  rewrite (sps30_do_cmd_serial_good dev stack
             (after_send SPS30_STOP_MEAS (after_send SPS30_RESET (hbus h)))
             ws Hlen Hws Hb Hs2 Hr Hd).
  change (negb (0 =? 0)) with false. cbv iota. rewrite Hstr.
  cbn [sent after_read after_send]. cbn [Nat.add] in Hs3. rewrite Hs3.
  change (transfer_result 5 5 =? 0) with true. cbn [negb].
  unfold after_read, after_send. cbn [trace sent received slept].
  rewrite drop_app_length. unfold probe_log. cbn [map].
  destruct (devm_add_action fw =? 0); cbn [negb].
  - destruct (devm_iio_triggered_buffer_setup fw =? 0); cbn [negb];
      eexists; (split; [reflexivity|]); cbn [locked hlog];
      (split; [reflexivity|]);
      repeat (progress (rewrite <- ?app_assoc; cbn [app])); reflexivity.
  - eexists. split; [reflexivity|]. cbn [locked hlog]. split; [reflexivity|].
    repeat (progress (rewrite <- ?app_assoc; cbn [app])). reflexivity.
Qed.

Lemma sps30_probe_cooperative_witness :
  exists h',
    sps30_probe (scripted [2; 2; 2; 5] [(48, frame (unwords serial_1234))] [])
                (Framework true true (-12) 0 0) (replicate 32 7) host_init
    = Some (if devm_add_action (Framework true true (-12) 0 0) =? 0
            then if devm_iio_triggered_buffer_setup (Framework true true (-12) 0 0) =? 0
                 then devm_iio_device_register (Framework true true (-12) 0 0)
                 else devm_iio_triggered_buffer_setup (Framework true true (-12) 0 0)
            else devm_add_action (Framework true true (-12) 0 0), h') /\
    locked h' = false /\
    hlog h' = hlog host_init ++ probe_log [0x31; 0x32; 0x33; 0x34]
              ++ (if devm_add_action (Framework true true (-12) 0 0) =? 0 then []
                  else [OnBus (Send [0x01; 0x04])]).
Proof.
  apply (sps30_probe_cooperative
           (scripted [2; 2; 2; 5] [(48, frame (unwords serial_1234))] [])
           (Framework true true (-12) 0 0) (replicate 32 7) host_init
           serial_1234 [0x31; 0x32; 0x33; 0x34]);
    try reflexivity.
  cbv [serial_1234 unwords flat_map replicate app fst snd].
  repeat (constructor; [unfold is_byte; lia|]). constructor.
Defined.

(** X21: the outcome of the stop-measurement command that the probe
    sends after the reset is ignored: with two sensors that differ only
    in what that send returns, the probe returns the same value and
    leaves the same log and the same bus. *)
Theorem sps30_probe_ignores_nudge
    (dev dev' : device) (fw : framework) (stack : list Z) (h : host) :
  same_but_send (S (sent (hbus h))) dev dev' ->
  sps30_probe dev fw stack h = sps30_probe dev' fw stack h.
Proof.
  intros (Hs & Hr & Hd). rewrite !sps30_probe_eq.
  destruct (negb (i2c_check_functionality fw)); [reflexivity|].
  destruct (negb (devm_iio_device_alloc fw)); [reflexivity|].
  cbv zeta. rewrite <- (Hs (sent (hbus h))) by lia.
  destruct (negb (transfer_result (send_ret dev (sent (hbus h))) 2 =? 0));
    [reflexivity|].
  rewrite <- (sps30_do_cmd_ext dev dev') by (cbn [sent received after_send];
    first [apply Hs; lia|apply Hr|apply Hd]).
  destruct (sps30_do_cmd _ _ _ _ _) as [[[ret buf] b3]|] eqn:Hser; [|reflexivity].
  apply sps30_do_cmd_serial in Hser as (Hsent & _).
  cbn [sent after_send] in Hsent.
  destruct (negb (ret =? 0)); [reflexivity|].
  destruct (c_string buf) as [s|]; [|reflexivity].
  rewrite <- (Hs (sent b3)) by lia. reflexivity.
Qed.

Lemma sps30_probe_ignores_nudge_witness :
  sps30_probe (scripted [2; 2; 2; 5] [(48, frame (unwords serial_1234))] [])
              (Framework true true 0 0 0) (replicate 32 7) host_init
  = sps30_probe (scripted [2; -5; 2; 5] [(48, frame (unwords serial_1234))] [])
                (Framework true true 0 0 0) (replicate 32 7) host_init.
Proof.
  apply (sps30_probe_ignores_nudge
           (scripted [2; 2; 2; 5] [(48, frame (unwords serial_1234))] [])
           (scripted [2; -5; 2; 5] [(48, frame (unwords serial_1234))] [])
           (Framework true true 0 0 0) (replicate 32 7) host_init).
  split; [|split; reflexivity].
  intros i Hi. destruct i as [|[|i]]; [reflexivity|contradiction|reflexivity].
Defined.

(** X22: when the sixteen words of the serial number hold no NUL
    byte, printing the serial number with [%s] reads past the end of
    the 32-byte buffer: the behaviour of the probe is undefined. *)
Theorem sps30_probe_unterminated_serial
    (dev : device) (fw : framework) (stack : list Z) (h : host)
    (ws : list (Z * Z)) :
  i2c_check_functionality fw = true ->
  devm_iio_device_alloc fw = true ->
  length stack = 32%nat ->
  send_ret dev (sent (hbus h)) = 2 ->
  send_ret dev (2 + sent (hbus h))%nat = 2 ->
  recv_ret dev (received (hbus h)) = 48 ->
  recv_data dev (received (hbus h)) = frame (unwords ws) ->
  length ws = 16%nat ->
  Forall is_byte (unwords ws) ->
  ~ In 0 (unwords ws) ->
  sps30_probe dev fw stack h = None.
Proof.
  intros Hf Ha Hlen Hs0 Hs2 Hr Hd Hws Hb Hnz.
  rewrite sps30_probe_eq, Hf, Ha. cbn [negb]. cbv zeta.
  rewrite Hs0. change (transfer_result 2 2 =? 0) with true. cbn [negb].
  rewrite (sps30_do_cmd_serial_good dev stack
             (after_send SPS30_STOP_MEAS (after_send SPS30_RESET (hbus h)))
             ws Hlen Hws Hb Hs2 Hr Hd).
  change (negb (0 =? 0)) with false. cbv iota.
  by rewrite c_string_none.
Qed.

Lemma sps30_probe_unterminated_serial_witness :
  sps30_probe (scripted [2; 2; 2; 5]
                 [(48, frame (unwords (replicate 16 (0x41, 0x41))))] [])
              (Framework true true 0 0 0) (replicate 32 7) host_init
  = None.
Proof.
  apply (sps30_probe_unterminated_serial
           (scripted [2; 2; 2; 5]
              [(48, frame (unwords (replicate 16 (0x41, 0x41))))] [])
           (Framework true true 0 0 0) (replicate 32 7) host_init
           (replicate 16 (0x41, 0x41)));
    try reflexivity.
  - cbv [unwords flat_map replicate app fst snd].
    repeat (constructor; [unfold is_byte; lia|]). constructor.
  - cbv [unwords flat_map replicate app fst snd In]. intuition discriminate.
Defined.

